(** * Federate Protocol client: message codec, message handler and ambassador façade

    A shallow embedding of the Python sources under [libsrc/fedPro],
    [libsrc/rtiUtil] and [libsrc/fedProWrapper], and the properties of the
    protocol engine established over it. *)

From Stdlib Require Import ZArith List String Lia Bool.
From Stdlib Require Import Strings.Byte.
From stdpp Require Import base option gmap strings list.

Local Open Scope Z_scope.

(** ** Byte strings and [struct] packing *)

Definition bytes := list byte.

#[global] Instance byte_eq_dec : EqDecision byte := Byte.byte_eq_dec.
#[global] Instance byte_countable : Countable byte :=
  inj_countable Byte.to_N Byte.of_N Byte.of_to_N.

Definition Z_of_byte (b : byte) : Z := Z.of_N (Byte.to_N b).

Definition byte_of_Z (z : Z) : byte :=
  match Byte.of_N (Z.to_N (z mod 256)) with
  | Some b => b
  | None => x00
  end.

(** Big-endian digits of [z], [w] bytes wide, most significant first. *)
Fixpoint be_bytes (w : nat) (z : Z) : bytes :=
  match w with
  | O => []
  | S w' => byte_of_Z (z / 256 ^ Z.of_nat w') :: be_bytes w' z
  end.

Fixpoint be_value (acc : Z) (bs : bytes) : Z :=
  match bs with
  | [] => acc
  | b :: bs' => be_value (acc * 256 + Z_of_byte b) bs'
  end.

(** One field code of a [struct] format string; every format in the
    sources is big-endian (['>']), so fields are packed without padding. *)
Inductive fmt_code := fmt_I | fmt_Q.

Definition fmt_width (c : fmt_code) : nat :=
  match c with fmt_I => 4%nat | fmt_Q => 8%nat end.

(** One unsigned field; [None] stands for [struct.error], raised when the
    value does not fit the field. *)
Definition pack_uint (w : nat) (z : Z) : option bytes :=
  if (0 <=? z) && (z <? 256 ^ Z.of_nat w) then Some (be_bytes w z) else None.

(** [struct.pack('>' + fmt, *vals)] *)
Fixpoint struct_pack (fmt : list fmt_code) (vals : list Z) : option bytes :=
  match fmt, vals with
  | [], [] => Some []
  | c :: fmt', v :: vals' =>
      b ← pack_uint (fmt_width c) v;
      rest ← struct_pack fmt' vals';
      Some (b ++ rest)
  | _, _ => None
  end.

(** [struct.unpack('>' + fmt, bs)]: the buffer must have the exact size. *)
Fixpoint struct_unpack (fmt : list fmt_code) (bs : bytes) : option (list Z) :=
  match fmt with
  | [] => match bs with [] => Some [] | _ => None end
  | c :: fmt' =>
      if (length bs <? fmt_width c)%nat then None else
      rest ← struct_unpack fmt' (skipn (fmt_width c) bs);
      Some (be_value 0 (firstn (fmt_width c) bs) :: rest)
  end.

(** Python slices [b[i:j]] and [b[i:]] on byte strings. *)
Definition slice (i j : nat) (b : bytes) : bytes := firstn (j - i) (skipn i b).
Definition slice_from (i : nat) (b : bytes) : bytes := skipn i b.

(** ** fedProMessage.py *)

Module fedProMessage.

Inductive MsgType :=
| UNKNOWN
| CTRL_NEW_SESSION
| CTRL_NEW_SESSION_STATUS
| CTRL_HEARTBEAT
| CTRL_HEARTBEAT_RESPONSE
| CTRL_TERMINATE_SESSION
| CTRL_SESSION_TERMINATED
| CTRL_RESUME_REQUEST
| CTRL_RESUME_STATUS
| HLA_CALL_REQUEST
| HLA_CALL_RESPONSE
| HLA_CALLBACK_REQUEST
| HLA_CALLBACK_RESPONSE
| INVALID.

Definition MsgType_value (t : MsgType) : Z :=
  match t with
  | UNKNOWN => 0
  | CTRL_NEW_SESSION => 1
  | CTRL_NEW_SESSION_STATUS => 2
  | CTRL_HEARTBEAT => 3
  | CTRL_HEARTBEAT_RESPONSE => 4
  | CTRL_TERMINATE_SESSION => 6
  | CTRL_SESSION_TERMINATED => 7
  | CTRL_RESUME_REQUEST => 10
  | CTRL_RESUME_STATUS => 11
  | HLA_CALL_REQUEST => 20
  | HLA_CALL_RESPONSE => 21
  | HLA_CALLBACK_REQUEST => 22
  | HLA_CALLBACK_RESPONSE => 23
  | INVALID => 99
  end.

Definition all_MsgType : list MsgType :=
  [UNKNOWN; CTRL_NEW_SESSION; CTRL_NEW_SESSION_STATUS; CTRL_HEARTBEAT;
   CTRL_HEARTBEAT_RESPONSE; CTRL_TERMINATE_SESSION; CTRL_SESSION_TERMINATED;
   CTRL_RESUME_REQUEST; CTRL_RESUME_STATUS; HLA_CALL_REQUEST;
   HLA_CALL_RESPONSE; HLA_CALLBACK_REQUEST; HLA_CALLBACK_RESPONSE; INVALID].

(** [MsgType(n)]: the member with value [n]; [None] stands for the
    [ValueError] of an unknown value. *)
Definition MsgType_of_Z (n : Z) : option MsgType :=
  find (fun t => MsgType_value t =? n) all_MsgType.

(** The base envelope.  [my_msg_type] is kept as the integer it holds: the
    socket layer also builds placeholder envelopes whose type is the plain
    integer [-99], which is no member of [MsgType]. *)
Record FedProMessage := mkFedProMessage {
  my_msg_type : Z;
  my_msg_size : Z;
  my_session_id : Z;
  my_sequence_num : Z;
  my_last_received_msg : Z;
  my_payload : bytes
}.

(** [FedProMessage.__init__(msg_type, msg_size)] *)
Definition FedProMessage_init (msg_type msg_size : Z) : FedProMessage :=
  {| my_msg_type := msg_type; my_msg_size := msg_size; my_session_id := 0;
     my_sequence_num := 0; my_last_received_msg := 0; my_payload := [] |}.

(** [FedProMessage.package_bytes]: the format ['IIQQ'] and its members. *)
Definition package_bytes (m : FedProMessage) : list fmt_code * list Z :=
  ([fmt_I; fmt_I; fmt_Q; fmt_Q],
   [my_msg_size m; my_sequence_num m; my_session_id m; my_msg_type m]).

(** [FedProMessage.to_bytes]: [struct.pack('>IIQQ', size, seq, session,
    int(type))]; the last-received number and the payload are not written. *)
Definition to_bytes (m : FedProMessage) : option bytes :=
  struct_pack [fmt_I; fmt_I; fmt_Q; fmt_Q]
    [my_msg_size m; my_sequence_num m; my_session_id m; my_msg_type m].

(** [FedProMessage.from_bytes(self, buffer)]: [buffer] is the list of
    segments received from the socket; [None] stands for any of the
    exceptions the method lets escape ([IndexError], [struct.error],
    [ValueError]). *)
Definition from_bytes (self : FedProMessage) (buffer : list bytes)
  : option FedProMessage :=
  b0 ← buffer !! 0%nat;
  size ← struct_unpack [fmt_I] b0;
  b1 ← buffer !! 1%nat;
  byte_ins ← struct_unpack [fmt_I; fmt_Q; fmt_I; fmt_I] (slice 0 20 b1);
  match size, byte_ins with
  | [sz], [seq; sess; lrm; ty] =>
      mt ← MsgType_of_Z ty;
      Some {| my_msg_type := MsgType_value mt;
              my_msg_size := sz;
              my_session_id := sess;
              my_sequence_num := seq;
              my_last_received_msg := lrm;
              my_payload := if 24 <? sz
                            then slice_from 20 b1 ++ concat (skipn 2 buffer)
                            else my_payload self |}
  | _, _ => None
  end.

(** The segments in which [MsgSocket.get_message] collects a frame: the
    four length bytes, then the rest. *)
Definition frame_segments (frame : bytes) : list bytes :=
  [firstn 4 frame; skipn 4 frame].

End fedProMessage.
Import fedProMessage.

(** ** newSessionMessage.py *)

Record NewSessionMessage := mkNewSessionMessage {
  ns_base : FedProMessage;
  my_protocol_version : Z
}.

(** [NewSessionMessage.__init__] *)
Definition NewSessionMessage_init : NewSessionMessage :=
  {| ns_base := FedProMessage_init (MsgType_value CTRL_NEW_SESSION) 28;
     my_protocol_version := 1 |}.

(** [NewSessionMessage.to_bytes]: the parent's format and members, followed
    by one more ['I'] holding the protocol version. *)
Definition NewSessionMessage_to_bytes (m : NewSessionMessage) : option bytes :=
  let parent_bytes := package_bytes (ns_base m) in
  struct_pack (fst parent_bytes ++ [fmt_I])
              (snd parent_bytes ++ [my_protocol_version m]).

(** ** The payload schema (the generated [FedProProtobuf] modules)

    The protobuf classes [CallRequest], [CallResponse], [CallbackRequest]
    and [CallbackResponse] are generated code outside the sources; the
    engine only uses the operations below, which are taken as an interface.
    [*_number] is [ListFields()[0][0].number], the field number of the first
    populated field ([None]: no field is populated, an [IndexError]);
    [*_ParseFromString] returns [None] for a [DecodeError]. *)
Class Protobuf := {
  CallRequest : Type;
  CallRequest_number : CallRequest -> option Z;
  CallRequest_SerializeToString : CallRequest -> bytes;
  (** [CallRequest()] with [getObjectClassHandleRequest.objectClassName] set *)
  getObjectClassHandleRequest : string -> CallRequest;
  (** [CallRequest()] with [updateAttributeValuesRequest] filled with the
      object instance, the optional tag and the attribute handle/value
      pairs *)
  updateAttributeValuesRequest :
    bytes -> option bytes -> list (bytes * bytes) -> CallRequest;

  CallResponse : Type;
  CallResponse_ParseFromString : bytes -> option CallResponse;
  CallResponse_number : CallResponse -> option Z;
  (** [response.getObjectClassHandleResponse.result.data] *)
  getObjectClassHandleResponse_result_data : CallResponse -> bytes;
  EXCEPTIONDATA_FIELD_NUMBER : Z;
  GETOBJECTCLASSHANDLERESPONSE_FIELD_NUMBER : Z;
  UPDATEATTRIBUTEVALUESRESPONSE_FIELD_NUMBER : Z;

  CallbackRequest : Type;
  CallbackRequest_ParseFromString : bytes -> option CallbackRequest;
  CallbackRequest_number : CallbackRequest -> option Z;
  (** whether [attributeValues.ListFields()] (for [reflectAttributeValues])
      or [parameterValues.ListFields()] (for [receiveInteraction]) has a
      first entry *)
  CallbackRequest_values_listed : CallbackRequest -> bool;
  (** [message.receiveInteraction.interactionClass.data] and
      [message.receiveInteraction.producingFederate.data] *)
  receiveInteraction_interactionClass : CallbackRequest -> bytes;
  receiveInteraction_producingFederate : CallbackRequest -> bytes;
  CONNECTIONLOST_FIELD_NUMBER : Z;
  REPORTFEDERATIONEXECUTIONS_FIELD_NUMBER : Z;
  REPORTFEDERATIONEXECUTIONMEMBERS_FIELD_NUMBER : Z;
  REPORTFEDERATIONEXECUTIONDOESNOTEXIST_FIELD_NUMBER : Z;
  FEDERATERESIGNED_FIELD_NUMBER : Z;
  OBJECTINSTANCENAMERESERVATIONFAILED_FIELD_NUMBER : Z;
  OBJECTINSTANCENAMERESERVATIONSUCCEEDED_FIELD_NUMBER : Z;
  DISCOVEROBJECTINSTANCE_FIELD_NUMBER : Z;
  REMOVEOBJECTINSTANCE_FIELD_NUMBER : Z;
  REFLECTATTRIBUTEVALUES_FIELD_NUMBER : Z;
  RECEIVEINTERACTION_FIELD_NUMBER : Z;

  CallbackResponse : Type;
  (** [FederateAmbassador_pb2.CallbackResponse()] *)
  CallbackResponse_new : CallbackResponse;
  CallbackResponse_SerializeToString : CallbackResponse -> bytes;
  (** a message in which no field was ever set serializes to [b''] *)
  CallbackResponse_new_empty :
    CallbackResponse_SerializeToString CallbackResponse_new = []
}.

(** ** Exceptions and results *)

Inductive exn :=
| FedProMessageError (msg : string)
| FedProSocketError (msg : string)
| RTIinternalError (msg : string)
| AttributeError
| TypeError
| KeyError
| IndexError
| ValueError
| StructError
| DecodeError
| OSError
| ConnectionError
| UserError (tag : Z)    (* any other exception raised by user code *)
| Diverged.             (* no Python exception: the call never returns, as
                           [poll_for_call_response] on a silent socket *)

Inductive result (A : Type) :=
| Ret (a : A)
| Raise (e : exn).
Arguments Ret {A} a.
Arguments Raise {A} e.

(** ** callRequestMessage.py, callbackResponseMessage.py, heartBeatMessage.py *)

Section OutboundMessages.
Context `{Protobuf}.

Record HeartbeatMessage := mkHeartbeatMessage {
  hb_base : FedProMessage
}.

Definition HeartbeatMessage_init : HeartbeatMessage :=
  {| hb_base := FedProMessage_init (MsgType_value CTRL_HEARTBEAT) 24 |}.

Record CallRequestMessage := mkCallRequestMessage {
  cq_base : FedProMessage;
  my_request_type : Z;
  my_request_data : CallRequest
}.

(** [CallRequestMessage.__init__(request_data)]; the test [msg_buff != 0]
    compares a byte string with an integer and always holds. *)
Definition CallRequestMessage_init (request_data : CallRequest)
  : result CallRequestMessage :=
  match CallRequest_number request_data with
  | None => Raise IndexError
  | Some n =>
      let msg_buff := CallRequest_SerializeToString request_data in
      Ret {| cq_base := FedProMessage_init (MsgType_value HLA_CALL_REQUEST)
                          (24 + Z.of_nat (length msg_buff));
             my_request_type := n;
             my_request_data := request_data |}
  end.

(** [CallRequestMessage.to_bytes]: format ['>IIQII<n>s']. *)
Definition CallRequestMessage_to_bytes (m : CallRequestMessage) : option bytes :=
  let b := cq_base m in
  hdr ← struct_pack [fmt_I; fmt_I; fmt_Q; fmt_I; fmt_I]
          [my_msg_size b; my_sequence_num b; my_session_id b;
           my_last_received_msg b; my_msg_type b];
  Some (hdr ++ CallRequest_SerializeToString (my_request_data m)).

Record CallbackResponseMessage := mkCallbackResponseMessage {
  cbr_base : FedProMessage;
  my_response_type : Z;
  my_succeeded : bool;
  my_response_data : CallbackResponse
}.

(** [CallbackResponseMessage.set_response_data(succeeded)] *)
Definition set_response_data (self : CallbackResponseMessage) (succeeded : bool)
  : CallbackResponseMessage :=
  {| cbr_base := cbr_base self;
     my_response_type := if succeeded then 0 else 1;
     my_succeeded := my_succeeded self;
     my_response_data := CallbackResponse_new |}.

(** [CallbackResponseMessage.__init__(sequence_num, succeeded)] *)
Definition CallbackResponseMessage_init (sequence_num : Z) (succeeded : bool)
  : CallbackResponseMessage :=
  let base := FedProMessage_init (MsgType_value HLA_CALLBACK_RESPONSE) 24 in
  set_response_data
    {| cbr_base := {| my_msg_type := my_msg_type base;
                      my_msg_size := my_msg_size base;
                      my_session_id := my_session_id base;
                      my_sequence_num := sequence_num;
                      my_last_received_msg := my_last_received_msg base;
                      my_payload := my_payload base |};
       my_response_type := 0;
       my_succeeded := succeeded;
       my_response_data := CallbackResponse_new |}
    succeeded.

(** [CallbackResponseMessage.to_bytes]: format ['>IIQII'] followed by
    ['<n>s'] for the serialized [my_response_data]. *)
Definition CallbackResponseMessage_to_bytes (m : CallbackResponseMessage)
  : option bytes :=
  let response_payload := CallbackResponse_SerializeToString (my_response_data m) in
  let b := cbr_base m in
  hdr ← struct_pack [fmt_I; fmt_I; fmt_Q; fmt_I; fmt_I]
          [my_msg_size b; my_sequence_num b; my_session_id b;
           my_last_received_msg b; my_msg_type b];
  Some (hdr ++ response_payload).

(** The messages that [send_message] is handed, with the methods it uses
    on them. *)
Inductive Request :=
| ReqNewSession (m : NewSessionMessage)
| ReqHeartbeat (m : HeartbeatMessage)
| ReqCallRequest (m : CallRequestMessage)
| ReqCallbackResponse (m : CallbackResponseMessage).

Definition Request_base (r : Request) : FedProMessage :=
  match r with
  | ReqNewSession m => ns_base m
  | ReqHeartbeat m => hb_base m
  | ReqCallRequest m => cq_base m
  | ReqCallbackResponse m => cbr_base m
  end.

Definition Request_with_base (r : Request) (b : FedProMessage) : Request :=
  match r with
  | ReqNewSession m =>
      ReqNewSession {| ns_base := b; my_protocol_version := my_protocol_version m |}
  | ReqHeartbeat m => ReqHeartbeat {| hb_base := b |}
  | ReqCallRequest m =>
      ReqCallRequest {| cq_base := b; my_request_type := my_request_type m;
                        my_request_data := my_request_data m |}
  | ReqCallbackResponse m =>
      ReqCallbackResponse {| cbr_base := b; my_response_type := my_response_type m;
                             my_succeeded := my_succeeded m;
                             my_response_data := my_response_data m |}
  end.

(** [request.to_bytes()], by the class of the request; [HeartbeatMessage]
    inherits the method of [FedProMessage]. *)
Definition Request_to_bytes (r : Request) : option bytes :=
  match r with
  | ReqNewSession m => NewSessionMessage_to_bytes m
  | ReqHeartbeat m => to_bytes (hb_base m)
  | ReqCallRequest m => CallRequestMessage_to_bytes m
  | ReqCallbackResponse m => CallbackResponseMessage_to_bytes m
  end.

End OutboundMessages.

(** ** newSessionStatusMessage.py, heartBeatResponseMessage.py,
       callResponseMessage.py, callbackRequestMessage.py *)

Inductive SessionStatus :=
| UNSET
| SUCCESS
| UNSUPPORTED_PROTOCOL_VERSION
| OUT_OF_RESOURCES
| INTERNAL_ERROR.

Definition SessionStatus_value (s : SessionStatus) : Z :=
  match s with
  | UNSET => -1
  | SUCCESS => 0
  | UNSUPPORTED_PROTOCOL_VERSION => 1
  | OUT_OF_RESOURCES => 2
  | INTERNAL_ERROR => 99
  end.

Definition SessionStatus_of_Z (n : Z) : option SessionStatus :=
  find (fun s => SessionStatus_value s =? n)
       [UNSET; SUCCESS; UNSUPPORTED_PROTOCOL_VERSION; OUT_OF_RESOURCES;
        INTERNAL_ERROR].

Section InboundMessages.
Context `{Protobuf}.

Record NewSessionStatusMessage := mkNewSessionStatusMessage {
  nss_base : FedProMessage;
  my_status : SessionStatus
}.

(** [NewSessionStatusMessage.__init__(instance)] *)
Definition NewSessionStatusMessage_init (instance : FedProMessage)
  : result NewSessionStatusMessage :=
  if my_msg_size instance =? 0 then
    Ret {| nss_base := FedProMessage_init (MsgType_value CTRL_NEW_SESSION_STATUS) 28;
           my_status := INTERNAL_ERROR |}
  else if (0 <? length (my_payload instance))%nat then
    match struct_unpack [fmt_I] (my_payload instance) with
    | Some [v] =>
        match SessionStatus_of_Z v with
        | Some s => Ret {| nss_base := instance; my_status := s |}
        | None => Raise ValueError
        end
    | _ => Raise StructError
    end
  else Ret {| nss_base := instance; my_status := INTERNAL_ERROR |}.

Record HeartbeatResponseMessage := mkHeartbeatResponseMessage {
  hbr_base : FedProMessage
}.

(** [HeartbeatResponseMessage.__init__(instance)], [instance] not [None] *)
Definition HeartbeatResponseMessage_init (instance : FedProMessage)
  : HeartbeatResponseMessage :=
  {| hbr_base := instance |}.

(** The header fields that the call and callback classes copy from the
    instance they are built from; they do not copy the payload. *)
Definition copy_header (instance : FedProMessage) : FedProMessage :=
  {| my_msg_type := my_msg_type instance;
     my_msg_size := my_msg_size instance;
     my_session_id := my_session_id instance;
     my_sequence_num := my_sequence_num instance;
     my_last_received_msg := my_last_received_msg instance;
     my_payload := [] |}.

Record CallResponseMessage := mkCallResponseMessage {
  crm_base : FedProMessage;
  crm_hla_msg_type : Z;                      (* my_hla_msg_type *)
  my_response_buf : option CallResponse      (* [None]: unset, [None] or [()] *)
}.

(** [CallResponseMessage.__init__(instance)] *)
Definition CallResponseMessage_init (instance : FedProMessage)
  : result CallResponseMessage :=
  if (my_msg_type instance =? MsgType_value INVALID) || (my_msg_size instance =? 0) then
    Ret {| crm_base := FedProMessage_init (MsgType_value HLA_CALL_RESPONSE) 24;
           crm_hla_msg_type := -1;
           my_response_buf := None |}
  else if (4 <=? length (my_payload instance))%nat then
    let payload0 := be_value 0 (firstn 4 (my_payload instance)) in
    let payload1 := skipn 4 (my_payload instance) in
    if payload0 =? 0 then
      Ret {| crm_base := copy_header instance; crm_hla_msg_type := -1;
             my_response_buf := None |}
    else
      match CallResponse_ParseFromString payload1 with
      | None => Raise DecodeError
      | Some call_response =>
          match CallResponse_number call_response with
          | None => Raise IndexError
          | Some n =>
              Ret {| crm_base := copy_header instance; crm_hla_msg_type := n;
                     my_response_buf := Some call_response |}
          end
      end
  else
    Ret {| crm_base := copy_header instance; crm_hla_msg_type := -1;
           my_response_buf := None |}.

Record CallbackRequestMessage := mkCallbackRequestMessage {
  cbq_base : FedProMessage;
  cbq_hla_msg_type : Z;                      (* my_hla_msg_type *)
  my_request_buf : option CallbackRequest    (* [None]: [None] or [()] *)
}.

(** [CallbackRequestMessage.__init__(instance)]: the whole payload is
    parsed; the test [payload[0] != 0] compares a byte string with an
    integer and always holds. *)
Definition CallbackRequestMessage_init (instance : FedProMessage)
  : result CallbackRequestMessage :=
  if (my_msg_type instance =? MsgType_value INVALID) || (my_msg_size instance =? 0) then
    Ret {| cbq_base := FedProMessage_init (MsgType_value HLA_CALLBACK_REQUEST) 24;
           cbq_hla_msg_type := -1;
           my_request_buf := None |}
  else if (4 <=? length (my_payload instance))%nat then
    match CallbackRequest_ParseFromString (my_payload instance) with
    | None => Raise DecodeError
    | Some callback_request =>
        match CallbackRequest_number callback_request with
        | None => Raise IndexError
        | Some n =>
            Ret {| cbq_base := copy_header instance; cbq_hla_msg_type := n;
                   my_request_buf := Some callback_request |}
        end
    end
  else
    Ret {| cbq_base := copy_header instance; cbq_hla_msg_type := -1;
           my_request_buf := None |}.

End InboundMessages.

(** ** federateData.py, federateAmbassador.py: the host's side *)

(** The [FederateData] maps that the engine writes. *)
Record FederateData := mkFederateData {
  my_attr_name_handles : gmap bytes (gmap string bytes);
  my_attr_handle_names : gmap bytes (gmap bytes string);
  my_interaction_parameter_values : gmap bytes (gmap bytes (gmap bytes bytes))
}.

Definition FederateData_init : FederateData :=
  {| my_attr_name_handles := ∅; my_attr_handle_names := ∅;
     my_interaction_parameter_values := ∅ |}.

(** The methods of the host's [FederateAmbassador]. *)
Inductive AmbMethod :=
| connectionLost
| reportFederationExecutions
| reportFederationExecutionMembers
| reportFederationExecutionDoesNotExist
| federateResigned
| objectInstanceNameReservationSucceeded
| objectInstanceNameReservationFailed
| discoverObjectInstance
| removeObjectInstance
| receiveInteraction
| reflectAttributeValues.

Section Handler.
Context `{Protobuf}.

(** One invocation of a [FederateAmbassador] method; the arguments are the
    fields of the callback request they are decoded from. *)
Record AmbCall := mkAmbCall {
  amb_method : AmbMethod;
  amb_request : CallbackRequest
}.

(** The host's ambassador.  Its methods are user code: [behaviour] tells,
    from the invocations made so far and the present one, whether the
    method returns ([None]) or raises. *)
Record FederateAmbassador := mkFederateAmbassador {
  behaviour : list AmbCall -> AmbCall -> option exn;
  my_data : FederateData
}.

(** [FederateAmbassadorFedPro] *)
Record FederateAmbassadorFedPro := mkFederateAmbassadorFedPro {
  my_Federate_Ambassador : FederateAmbassador;
  fa_session_id : Z                          (* my_session_id *)
}.

(** The bound methods of [FederateAmbassadorFedPro] that are stored in the
    dispatch table [my_callback_functions]. *)
Inductive CallbackMethod :=
| m_connection_lost
| m_report_federation_executions
| m_report_federation_execution_members
| m_report_federation_execution_does_not_exist
| m_federate_resigned
| m_object_name_reservation_failed
| m_object_instance_name_reservation_succeeded
| m_discover_object_instance
| m_remove_object_instance
| m_reflect_attribute_values
| m_receive_interaction
| m_unknown_callback.

(** The value of [my_expected_response_type]: a member of [MsgType] or a
    plain integer (a [*_FIELD_NUMBER]).  [==] compares the values; [is]
    is identity, and a member of [MsgType] is never identical to a plain
    integer. *)
Inductive Tag :=
| TagMsgType (t : MsgType)
| TagInt (n : Z).

Definition Tag_value (t : Tag) : Z :=
  match t with TagMsgType m => MsgType_value m | TagInt n => n end.

(** [t is MsgType.UNKNOWN] *)
Definition is_UNKNOWN (t : Tag) : bool :=
  match t with TagMsgType UNKNOWN => true | _ => false end.

(** [t is the_call_response_ref.EXCEPTIONDATA_FIELD_NUMBER]; field numbers
    are small integers, for which identity and equality coincide. *)
Definition is_EXCEPTIONDATA (t : Tag) : bool :=
  match t with TagInt n => n =? EXCEPTIONDATA_FIELD_NUMBER | _ => false end.

(** [a is b] on two integers that were computed separately: CPython shares
    the objects of the integers from -5 to 256 only. *)
Definition int_is (a b : Z) : bool :=
  (a =? b) && (-5 <=? a) && (a <=? 256).

(** What [my_fedPro_response] holds. *)
Inductive Response :=
| RespNewSessionStatus (m : NewSessionStatusMessage)
| RespHeartbeatResponse (m : HeartbeatResponseMessage)
| RespCallResponse (m : CallResponseMessage)
| RespCallbackRequest (m : CallbackRequestMessage).

(** [MsgSocket]: whether [my_socket] is set, the frames that [sendall] has
    written so far, oldest first, and what the coming calls of [sendall]
    do, the next one first: [true] stands for a call that raises
    [socket.error]; once the list is used up every write succeeds. *)
Record MsgSocket := mkMsgSocket {
  sock_connected : bool;                     (* my_socket is not None *)
  sock_sent : list bytes;
  sock_write_errors : list bool
}.

(** [FedProMsgHandler].  [federate_ambassador_handler] is [None] as long
    as the attribute has not been assigned.  The last field is no attribute
    of the class: it records, oldest first, the invocations of the host's
    ambassador made through this handler.  The heartbeat clock fields are
    left out. *)
Record FedProMsgHandler := mkFedProMsgHandler {
  federate_ambassador_handler : option FederateAmbassadorFedPro;
  my_socket : MsgSocket;
  my_session_id : Z;
  my_sequence_num : Z;
  my_session_status : SessionStatus;
  my_last_received_message_number : Z;
  my_callback_functions : gmap Z CallbackMethod;
  my_enable_callback_requests : bool;
  my_is_connection_ok : bool;
  my_poll_result : Z;
  my_queue_callback_requests : bool;
  my_expected_response_request_number : Z;
  my_expected_response_type : Tag;
  my_callback_request_queue : list CallbackRequestMessage;
  my_fedPro_response : Response;
  ambassador_calls : list AmbCall
}.

Definition set_federate_ambassador_handler (v : option FederateAmbassadorFedPro) (self : FedProMsgHandler) : FedProMsgHandler :=
  {| federate_ambassador_handler := v;
     my_socket := my_socket self;
     my_session_id := my_session_id self;
     my_sequence_num := my_sequence_num self;
     my_session_status := my_session_status self;
     my_last_received_message_number := my_last_received_message_number self;
     my_callback_functions := my_callback_functions self;
     my_enable_callback_requests := my_enable_callback_requests self;
     my_is_connection_ok := my_is_connection_ok self;
     my_poll_result := my_poll_result self;
     my_queue_callback_requests := my_queue_callback_requests self;
     my_expected_response_request_number := my_expected_response_request_number self;
     my_expected_response_type := my_expected_response_type self;
     my_callback_request_queue := my_callback_request_queue self;
     my_fedPro_response := my_fedPro_response self;
     ambassador_calls := ambassador_calls self |}.

Definition set_my_socket (v : MsgSocket) (self : FedProMsgHandler) : FedProMsgHandler :=
  {| federate_ambassador_handler := federate_ambassador_handler self;
     my_socket := v;
     my_session_id := my_session_id self;
     my_sequence_num := my_sequence_num self;
     my_session_status := my_session_status self;
     my_last_received_message_number := my_last_received_message_number self;
     my_callback_functions := my_callback_functions self;
     my_enable_callback_requests := my_enable_callback_requests self;
     my_is_connection_ok := my_is_connection_ok self;
     my_poll_result := my_poll_result self;
     my_queue_callback_requests := my_queue_callback_requests self;
     my_expected_response_request_number := my_expected_response_request_number self;
     my_expected_response_type := my_expected_response_type self;
     my_callback_request_queue := my_callback_request_queue self;
     my_fedPro_response := my_fedPro_response self;
     ambassador_calls := ambassador_calls self |}.

Definition set_my_session_id (v : Z) (self : FedProMsgHandler) : FedProMsgHandler :=
  {| federate_ambassador_handler := federate_ambassador_handler self;
     my_socket := my_socket self;
     my_session_id := v;
     my_sequence_num := my_sequence_num self;
     my_session_status := my_session_status self;
     my_last_received_message_number := my_last_received_message_number self;
     my_callback_functions := my_callback_functions self;
     my_enable_callback_requests := my_enable_callback_requests self;
     my_is_connection_ok := my_is_connection_ok self;
     my_poll_result := my_poll_result self;
     my_queue_callback_requests := my_queue_callback_requests self;
     my_expected_response_request_number := my_expected_response_request_number self;
     my_expected_response_type := my_expected_response_type self;
     my_callback_request_queue := my_callback_request_queue self;
     my_fedPro_response := my_fedPro_response self;
     ambassador_calls := ambassador_calls self |}.

Definition set_my_sequence_num (v : Z) (self : FedProMsgHandler) : FedProMsgHandler :=
  {| federate_ambassador_handler := federate_ambassador_handler self;
     my_socket := my_socket self;
     my_session_id := my_session_id self;
     my_sequence_num := v;
     my_session_status := my_session_status self;
     my_last_received_message_number := my_last_received_message_number self;
     my_callback_functions := my_callback_functions self;
     my_enable_callback_requests := my_enable_callback_requests self;
     my_is_connection_ok := my_is_connection_ok self;
     my_poll_result := my_poll_result self;
     my_queue_callback_requests := my_queue_callback_requests self;
     my_expected_response_request_number := my_expected_response_request_number self;
     my_expected_response_type := my_expected_response_type self;
     my_callback_request_queue := my_callback_request_queue self;
     my_fedPro_response := my_fedPro_response self;
     ambassador_calls := ambassador_calls self |}.

Definition set_my_session_status (v : SessionStatus) (self : FedProMsgHandler) : FedProMsgHandler :=
  {| federate_ambassador_handler := federate_ambassador_handler self;
     my_socket := my_socket self;
     my_session_id := my_session_id self;
     my_sequence_num := my_sequence_num self;
     my_session_status := v;
     my_last_received_message_number := my_last_received_message_number self;
     my_callback_functions := my_callback_functions self;
     my_enable_callback_requests := my_enable_callback_requests self;
     my_is_connection_ok := my_is_connection_ok self;
     my_poll_result := my_poll_result self;
     my_queue_callback_requests := my_queue_callback_requests self;
     my_expected_response_request_number := my_expected_response_request_number self;
     my_expected_response_type := my_expected_response_type self;
     my_callback_request_queue := my_callback_request_queue self;
     my_fedPro_response := my_fedPro_response self;
     ambassador_calls := ambassador_calls self |}.

Definition set_my_last_received_message_number (v : Z) (self : FedProMsgHandler) : FedProMsgHandler :=
  {| federate_ambassador_handler := federate_ambassador_handler self;
     my_socket := my_socket self;
     my_session_id := my_session_id self;
     my_sequence_num := my_sequence_num self;
     my_session_status := my_session_status self;
     my_last_received_message_number := v;
     my_callback_functions := my_callback_functions self;
     my_enable_callback_requests := my_enable_callback_requests self;
     my_is_connection_ok := my_is_connection_ok self;
     my_poll_result := my_poll_result self;
     my_queue_callback_requests := my_queue_callback_requests self;
     my_expected_response_request_number := my_expected_response_request_number self;
     my_expected_response_type := my_expected_response_type self;
     my_callback_request_queue := my_callback_request_queue self;
     my_fedPro_response := my_fedPro_response self;
     ambassador_calls := ambassador_calls self |}.

Definition set_my_callback_functions (v : gmap Z CallbackMethod) (self : FedProMsgHandler) : FedProMsgHandler :=
  {| federate_ambassador_handler := federate_ambassador_handler self;
     my_socket := my_socket self;
     my_session_id := my_session_id self;
     my_sequence_num := my_sequence_num self;
     my_session_status := my_session_status self;
     my_last_received_message_number := my_last_received_message_number self;
     my_callback_functions := v;
     my_enable_callback_requests := my_enable_callback_requests self;
     my_is_connection_ok := my_is_connection_ok self;
     my_poll_result := my_poll_result self;
     my_queue_callback_requests := my_queue_callback_requests self;
     my_expected_response_request_number := my_expected_response_request_number self;
     my_expected_response_type := my_expected_response_type self;
     my_callback_request_queue := my_callback_request_queue self;
     my_fedPro_response := my_fedPro_response self;
     ambassador_calls := ambassador_calls self |}.

Definition set_my_enable_callback_requests (v : bool) (self : FedProMsgHandler) : FedProMsgHandler :=
  {| federate_ambassador_handler := federate_ambassador_handler self;
     my_socket := my_socket self;
     my_session_id := my_session_id self;
     my_sequence_num := my_sequence_num self;
     my_session_status := my_session_status self;
     my_last_received_message_number := my_last_received_message_number self;
     my_callback_functions := my_callback_functions self;
     my_enable_callback_requests := v;
     my_is_connection_ok := my_is_connection_ok self;
     my_poll_result := my_poll_result self;
     my_queue_callback_requests := my_queue_callback_requests self;
     my_expected_response_request_number := my_expected_response_request_number self;
     my_expected_response_type := my_expected_response_type self;
     my_callback_request_queue := my_callback_request_queue self;
     my_fedPro_response := my_fedPro_response self;
     ambassador_calls := ambassador_calls self |}.

Definition set_my_is_connection_ok (v : bool) (self : FedProMsgHandler) : FedProMsgHandler :=
  {| federate_ambassador_handler := federate_ambassador_handler self;
     my_socket := my_socket self;
     my_session_id := my_session_id self;
     my_sequence_num := my_sequence_num self;
     my_session_status := my_session_status self;
     my_last_received_message_number := my_last_received_message_number self;
     my_callback_functions := my_callback_functions self;
     my_enable_callback_requests := my_enable_callback_requests self;
     my_is_connection_ok := v;
     my_poll_result := my_poll_result self;
     my_queue_callback_requests := my_queue_callback_requests self;
     my_expected_response_request_number := my_expected_response_request_number self;
     my_expected_response_type := my_expected_response_type self;
     my_callback_request_queue := my_callback_request_queue self;
     my_fedPro_response := my_fedPro_response self;
     ambassador_calls := ambassador_calls self |}.

Definition set_my_poll_result (v : Z) (self : FedProMsgHandler) : FedProMsgHandler :=
  {| federate_ambassador_handler := federate_ambassador_handler self;
     my_socket := my_socket self;
     my_session_id := my_session_id self;
     my_sequence_num := my_sequence_num self;
     my_session_status := my_session_status self;
     my_last_received_message_number := my_last_received_message_number self;
     my_callback_functions := my_callback_functions self;
     my_enable_callback_requests := my_enable_callback_requests self;
     my_is_connection_ok := my_is_connection_ok self;
     my_poll_result := v;
     my_queue_callback_requests := my_queue_callback_requests self;
     my_expected_response_request_number := my_expected_response_request_number self;
     my_expected_response_type := my_expected_response_type self;
     my_callback_request_queue := my_callback_request_queue self;
     my_fedPro_response := my_fedPro_response self;
     ambassador_calls := ambassador_calls self |}.

Definition set_my_queue_callback_requests (v : bool) (self : FedProMsgHandler) : FedProMsgHandler :=
  {| federate_ambassador_handler := federate_ambassador_handler self;
     my_socket := my_socket self;
     my_session_id := my_session_id self;
     my_sequence_num := my_sequence_num self;
     my_session_status := my_session_status self;
     my_last_received_message_number := my_last_received_message_number self;
     my_callback_functions := my_callback_functions self;
     my_enable_callback_requests := my_enable_callback_requests self;
     my_is_connection_ok := my_is_connection_ok self;
     my_poll_result := my_poll_result self;
     my_queue_callback_requests := v;
     my_expected_response_request_number := my_expected_response_request_number self;
     my_expected_response_type := my_expected_response_type self;
     my_callback_request_queue := my_callback_request_queue self;
     my_fedPro_response := my_fedPro_response self;
     ambassador_calls := ambassador_calls self |}.

Definition set_my_expected_response_request_number (v : Z) (self : FedProMsgHandler) : FedProMsgHandler :=
  {| federate_ambassador_handler := federate_ambassador_handler self;
     my_socket := my_socket self;
     my_session_id := my_session_id self;
     my_sequence_num := my_sequence_num self;
     my_session_status := my_session_status self;
     my_last_received_message_number := my_last_received_message_number self;
     my_callback_functions := my_callback_functions self;
     my_enable_callback_requests := my_enable_callback_requests self;
     my_is_connection_ok := my_is_connection_ok self;
     my_poll_result := my_poll_result self;
     my_queue_callback_requests := my_queue_callback_requests self;
     my_expected_response_request_number := v;
     my_expected_response_type := my_expected_response_type self;
     my_callback_request_queue := my_callback_request_queue self;
     my_fedPro_response := my_fedPro_response self;
     ambassador_calls := ambassador_calls self |}.

Definition set_my_expected_response_type (v : Tag) (self : FedProMsgHandler) : FedProMsgHandler :=
  {| federate_ambassador_handler := federate_ambassador_handler self;
     my_socket := my_socket self;
     my_session_id := my_session_id self;
     my_sequence_num := my_sequence_num self;
     my_session_status := my_session_status self;
     my_last_received_message_number := my_last_received_message_number self;
     my_callback_functions := my_callback_functions self;
     my_enable_callback_requests := my_enable_callback_requests self;
     my_is_connection_ok := my_is_connection_ok self;
     my_poll_result := my_poll_result self;
     my_queue_callback_requests := my_queue_callback_requests self;
     my_expected_response_request_number := my_expected_response_request_number self;
     my_expected_response_type := v;
     my_callback_request_queue := my_callback_request_queue self;
     my_fedPro_response := my_fedPro_response self;
     ambassador_calls := ambassador_calls self |}.

Definition set_my_callback_request_queue (v : list CallbackRequestMessage) (self : FedProMsgHandler) : FedProMsgHandler :=
  {| federate_ambassador_handler := federate_ambassador_handler self;
     my_socket := my_socket self;
     my_session_id := my_session_id self;
     my_sequence_num := my_sequence_num self;
     my_session_status := my_session_status self;
     my_last_received_message_number := my_last_received_message_number self;
     my_callback_functions := my_callback_functions self;
     my_enable_callback_requests := my_enable_callback_requests self;
     my_is_connection_ok := my_is_connection_ok self;
     my_poll_result := my_poll_result self;
     my_queue_callback_requests := my_queue_callback_requests self;
     my_expected_response_request_number := my_expected_response_request_number self;
     my_expected_response_type := my_expected_response_type self;
     my_callback_request_queue := v;
     my_fedPro_response := my_fedPro_response self;
     ambassador_calls := ambassador_calls self |}.

Definition set_my_fedPro_response (v : Response) (self : FedProMsgHandler) : FedProMsgHandler :=
  {| federate_ambassador_handler := federate_ambassador_handler self;
     my_socket := my_socket self;
     my_session_id := my_session_id self;
     my_sequence_num := my_sequence_num self;
     my_session_status := my_session_status self;
     my_last_received_message_number := my_last_received_message_number self;
     my_callback_functions := my_callback_functions self;
     my_enable_callback_requests := my_enable_callback_requests self;
     my_is_connection_ok := my_is_connection_ok self;
     my_poll_result := my_poll_result self;
     my_queue_callback_requests := my_queue_callback_requests self;
     my_expected_response_request_number := my_expected_response_request_number self;
     my_expected_response_type := my_expected_response_type self;
     my_callback_request_queue := my_callback_request_queue self;
     my_fedPro_response := v;
     ambassador_calls := ambassador_calls self |}.

Definition set_ambassador_calls (v : list AmbCall) (self : FedProMsgHandler) : FedProMsgHandler :=
  {| federate_ambassador_handler := federate_ambassador_handler self;
     my_socket := my_socket self;
     my_session_id := my_session_id self;
     my_sequence_num := my_sequence_num self;
     my_session_status := my_session_status self;
     my_last_received_message_number := my_last_received_message_number self;
     my_callback_functions := my_callback_functions self;
     my_enable_callback_requests := my_enable_callback_requests self;
     my_is_connection_ok := my_is_connection_ok self;
     my_poll_result := my_poll_result self;
     my_queue_callback_requests := my_queue_callback_requests self;
     my_expected_response_request_number := my_expected_response_request_number self;
     my_expected_response_type := my_expected_response_type self;
     my_callback_request_queue := my_callback_request_queue self;
     my_fedPro_response := my_fedPro_response self;
     ambassador_calls := v |}.

(** [FedProMsgHandler.__init__] *)
Definition FedProMsgHandler_init : FedProMsgHandler :=
  {| federate_ambassador_handler := None;
     my_socket := {| sock_connected := false; sock_sent := [];
                     sock_write_errors := [] |};
     my_session_id := 0;
     my_sequence_num := 0;
     my_session_status := UNSET;
     my_last_received_message_number := 0;
     my_callback_functions := ∅;
     my_enable_callback_requests := true;
     my_is_connection_ok := false;
     my_poll_result := -2;
     my_queue_callback_requests := true;
     my_expected_response_request_number := 0;
     my_expected_response_type := TagMsgType UNKNOWN;
     my_callback_request_queue := [];
     my_fedPro_response :=
       RespNewSessionStatus
         {| nss_base := FedProMessage_init (MsgType_value CTRL_NEW_SESSION_STATUS) 28;
            my_status := INTERNAL_ERROR |};
     ambassador_calls := [] |}.

(** *** Methods as state transformers that may raise

    A method takes the handler and gives back its result, or the exception
    it raises, together with the handler as the method left it: what a
    method has assigned before it raises stays assigned. *)
Definition M (A : Type) : Type := FedProMsgHandler -> result A * FedProMsgHandler.

Definition ret {A} (a : A) : M A := fun st => (Ret a, st).
Definition raise {A} (e : exn) : M A := fun st => (Raise e, st).
Definition bind {A B} (c : M A) (k : A -> M B) : M B :=
  fun st => match c st with
            | (Ret a, st') => k a st'
            | (Raise e, st') => (Raise e, st')
            end.
Definition get : M FedProMsgHandler := fun st => (Ret st, st).
Definition modify (f : FedProMsgHandler -> FedProMsgHandler) : M unit :=
  fun st => (Ret tt, f st).
Definition lift {A} (r : result A) : M A := fun st => (r, st).

(** [try: body except <classes caught>: handler] *)
Definition try_except {A} (body : M A) (caught : exn -> bool) (handler : exn -> M A)
  : M A :=
  fun st => match body st with
            | (Ret a, st') => (Ret a, st')
            | (Raise e, st') => if caught e then handler e st' else (Raise e, st')
            end.

Notation "x <- c ;; k" := (bind c (fun x => k))
  (at level 100, c at next level, right associativity).
Notation "c ;;; k" := (bind c (fun _ => k))
  (at level 100, right associativity).

(** *** Connection state and sending *)

(** [is_connected]: the status flag, the socket wrapper (an object, always
    true) and its socket. *)
Definition is_connected (self : FedProMsgHandler) : bool :=
  my_is_connection_ok self && sock_connected (my_socket self).

(** Whether the next call of [sendall] raises. *)
Definition next_write_fails (s : MsgSocket) : bool :=
  match sock_write_errors s with
  | true :: _ => true
  | _ => false
  end.

(** The socket after a call of [sendall] that has written [frames] (none
    when it raised). *)
Definition written (frames : list bytes) (s : MsgSocket) : MsgSocket :=
  {| sock_connected := sock_connected s;
     sock_sent := sock_sent s ++ frames;
     sock_write_errors := tail (sock_write_errors s) |}.

(** [MsgSocket.send_message(msg)]: [sendall(msg.to_bytes())] in a [try]
    whose [except socket.error] clause logs the error and raises it again;
    [socket.error] is [OSError].  [to_bytes] raises [struct.error] when a
    header field does not fit its slot, before anything is written.  Of a
    write that fails nothing is counted as sent. *)
Definition MsgSocket_send_message (msg : Request) : M bool :=
  fun st =>
    match Request_to_bytes msg with
    | None => (Raise StructError, st)
    | Some frame =>
        if next_write_fails (my_socket st)
        then (Raise OSError, set_my_socket (written [] (my_socket st)) st)
        else (Ret true, set_my_socket (written [frame] (my_socket st)) st)
    end.

(** The header of [request] as [send_message] completes it. *)
Definition stamp (self : FedProMsgHandler) (request : Request)
    (sending_callback_response : bool) : Request :=
  let b := Request_base request in
  Request_with_base request
    {| my_msg_type := my_msg_type b;
       my_msg_size := my_msg_size b;
       fedProMessage.my_session_id := my_session_id self;
       fedProMessage.my_sequence_num :=
         if sending_callback_response then fedProMessage.my_sequence_num b
         else my_sequence_num self;
       my_last_received_msg := my_last_received_message_number self;
       my_payload := my_payload b |}.

(** [send_message(request, sending_callback_response)]; the result is 1
    for the [True] of the socket wrapper and -1 when not connected. *)
Definition send_message (request : Request) (sending_callback_response : bool)
  : M Z :=
  st <- get ;;
  let request := stamp st request sending_callback_response in
  if is_connected st then
    _ <- MsgSocket_send_message request ;;
    ret 1
  else ret (-1).

(** [send_callback_response(sequence_number, succeded)] *)
Definition send_callback_response (sequence_number : Z) (succeded : bool) : M unit :=
  let response_message := CallbackResponseMessage_init sequence_number succeded in
  _ <- send_message (ReqCallbackResponse response_message) true ;;
  ret tt.

(** *** federateAmbassadorFedPro.py: the callback wrappers *)

(** An invocation of a method of [self.my_Federate_Ambassador]. *)
Definition invoke (meth : AmbMethod) (request : CallbackRequest) : M unit :=
  fun st =>
    match federate_ambassador_handler st with
    | None => (Raise AttributeError, st)
    | Some fa =>
        let call := {| amb_method := meth; amb_request := request |} in
        let st' := set_ambassador_calls (ambassador_calls st ++ [call]) st in
        match behaviour (my_Federate_Ambassador fa) (ambassador_calls st) call with
        | None => (Ret tt, st')
        | Some e => (Raise e, st')
        end
    end.

(** [message.<field>]: an attribute access on the request buffer, which
    raises [AttributeError] when the buffer is [None] or [()]. *)
Definition field_of (message : option CallbackRequest) : M CallbackRequest :=
  match message with
  | Some request => ret request
  | None => raise AttributeError
  end.

(** [except Exception as e: log; send_callback_response(sequence_number,
    False)] *)
Definition respond_failure (sequence_number : Z) (e : exn) : M unit :=
  send_callback_response sequence_number false.

Definition any_Exception (e : exn) : bool := true.

(** [connection_lost(message, sequence_number)]: no [try] around the
    call of the ambassador. *)
Definition connection_lost (message : option CallbackRequest) (sequence_number : Z)
  : M unit :=
  request <- field_of message ;;
  _ <- invoke connectionLost request ;;
  send_callback_response sequence_number true.

(** The wrappers whose whole body is one [try]: decode, call the
    ambassador, respond with success; [except Exception]: respond with
    failure. *)
Definition guarded (meth : AmbMethod) (message : option CallbackRequest)
    (sequence_number : Z) : M unit :=
  try_except
    (request <- field_of message ;;
     _ <- invoke meth request ;;
     send_callback_response sequence_number true)
    any_Exception
    (respond_failure sequence_number).

Definition report_federation_executions := guarded reportFederationExecutions.

(** [report_federation_execution_members]: the first access to [message]
    stands before the [try]. *)
Definition report_federation_execution_members
    (message : option CallbackRequest) (sequence_number : Z) : M unit :=
  request <- field_of message ;;
  try_except
    (_ <- invoke reportFederationExecutionMembers request ;;
     send_callback_response sequence_number true)
    any_Exception
    (respond_failure sequence_number).

Definition report_federation_execution_does_not_exist :=
  guarded reportFederationExecutionDoesNotExist.
Definition federate_resigned := guarded federateResigned.
Definition object_instance_name_reservation_succeeded :=
  guarded objectInstanceNameReservationSucceeded.
Definition object_name_reservation_failed :=
  guarded objectInstanceNameReservationFailed.
Definition discover_object_instance := guarded discoverObjectInstance.
Definition remove_object_instance := guarded removeObjectInstance.

(** [<values>.ListFields()[0][1]] raises [IndexError] when no value is
    listed. *)
Definition listed_values (request : CallbackRequest) : M unit :=
  if CallbackRequest_values_listed request then ret tt else raise IndexError.

(** The two assignments of [receive_interaction] into
    [my_data.my_interaction_parameter_values]. *)
Definition reset_interaction_parameter_values (producing_federate
    interaction_class_handle : bytes) (self : FedProMsgHandler) : FedProMsgHandler :=
  match federate_ambassador_handler self with
  | None => self
  | Some fa =>
      let amb := my_Federate_Ambassador fa in
      let d := my_data amb in
      let d' :=
        {| my_attr_name_handles := my_attr_name_handles d;
           my_attr_handle_names := my_attr_handle_names d;
           my_interaction_parameter_values :=
             <[producing_federate := {[interaction_class_handle := ∅]}]>
               (my_interaction_parameter_values d) |} in
      set_federate_ambassador_handler
        (Some {| my_Federate_Ambassador :=
                   {| behaviour := behaviour amb; my_data := d' |};
                 fa_session_id := fa_session_id fa |}) self
  end.

(** [receive_interaction(message, sequence_number)] *)
Definition receive_interaction (message : option CallbackRequest)
    (sequence_number : Z) : M unit :=
  try_except
    (request <- field_of message ;;
     _ <- modify (reset_interaction_parameter_values
                    (receiveInteraction_producingFederate request)
                    (receiveInteraction_interactionClass request)) ;;
     _ <- listed_values request ;;
     _ <- invoke receiveInteraction request ;;
     send_callback_response sequence_number true)
    any_Exception
    (respond_failure sequence_number).

(** [reflect_attribute_values(message, sequence_number)] *)
Definition reflect_attribute_values (message : option CallbackRequest)
    (sequence_number : Z) : M unit :=
  try_except
    (request <- field_of message ;;
     _ <- listed_values request ;;
     _ <- invoke reflectAttributeValues request ;;
     send_callback_response sequence_number true)
    any_Exception
    (respond_failure sequence_number).

(** [unknown_callback(message, sequence_number)]: [message] is the request
    buffer, which has no attribute [my_hla_msg_type]; the f-string of the
    warning raises [AttributeError] before the response is sent. *)
Definition unknown_callback (message : option CallbackRequest) (sequence_number : Z)
  : M bool :=
  _ <- raise (A := unit) AttributeError ;;
  _ <- send_callback_response sequence_number false ;;
  ret true.

(** Calling a bound method taken from the dispatch table. *)
Definition call_CallbackMethod (m : CallbackMethod)
    (message : option CallbackRequest) (sequence_number : Z) : M unit :=
  match m with
  | m_connection_lost => connection_lost message sequence_number
  | m_report_federation_executions =>
      report_federation_executions message sequence_number
  | m_report_federation_execution_members =>
      report_federation_execution_members message sequence_number
  | m_report_federation_execution_does_not_exist =>
      report_federation_execution_does_not_exist message sequence_number
  | m_federate_resigned => federate_resigned message sequence_number
  | m_object_name_reservation_failed =>
      object_name_reservation_failed message sequence_number
  | m_object_instance_name_reservation_succeeded =>
      object_instance_name_reservation_succeeded message sequence_number
  | m_discover_object_instance => discover_object_instance message sequence_number
  | m_remove_object_instance => remove_object_instance message sequence_number
  | m_reflect_attribute_values => reflect_attribute_values message sequence_number
  | m_receive_interaction => receive_interaction message sequence_number
  | m_unknown_callback => _ <- unknown_callback message sequence_number ;; ret tt
  end.

(** The method of the host's ambassador that a wrapper calls;
    [unknown_callback] calls none. *)
Definition host_method (m : CallbackMethod) : option AmbMethod :=
  match m with
  | m_connection_lost => Some connectionLost
  | m_report_federation_executions => Some reportFederationExecutions
  | m_report_federation_execution_members => Some reportFederationExecutionMembers
  | m_report_federation_execution_does_not_exist =>
      Some reportFederationExecutionDoesNotExist
  | m_federate_resigned => Some federateResigned
  | m_object_name_reservation_failed => Some objectInstanceNameReservationFailed
  | m_object_instance_name_reservation_succeeded =>
      Some objectInstanceNameReservationSucceeded
  | m_discover_object_instance => Some discoverObjectInstance
  | m_remove_object_instance => Some removeObjectInstance
  | m_reflect_attribute_values => Some reflectAttributeValues
  | m_receive_interaction => Some receiveInteraction
  | m_unknown_callback => None
  end.

(** Whether a wrapper's own decoding of the request gets as far as the
    call of the host: [reflect_attribute_values] and [receive_interaction]
    first take the listed values. *)
Definition reaches_host (m : CallbackMethod) (request : CallbackRequest) : bool :=
  match m with
  | m_reflect_attribute_values | m_receive_interaction =>
      CallbackRequest_values_listed request
  | _ => true
  end.

(** [FederateAmbassadorFedPro.__init__]: the registrations made through
    [add_callback_request_callback], in the order of the source; a later
    registration under the same number replaces the earlier one. *)
Definition add_callback_request_callback (request_field_number : Z)
    (callback_request_method : CallbackMethod) (self : FedProMsgHandler)
  : FedProMsgHandler :=
  set_my_callback_functions
    (<[request_field_number := callback_request_method]> (my_callback_functions self))
    self.

Definition registrations : list (Z * CallbackMethod) :=
  [(CONNECTIONLOST_FIELD_NUMBER, m_connection_lost);
   (REPORTFEDERATIONEXECUTIONS_FIELD_NUMBER, m_report_federation_executions);
   (REPORTFEDERATIONEXECUTIONMEMBERS_FIELD_NUMBER, m_report_federation_execution_members);
   (REPORTFEDERATIONEXECUTIONDOESNOTEXIST_FIELD_NUMBER,
      m_report_federation_execution_does_not_exist);
   (FEDERATERESIGNED_FIELD_NUMBER, m_federate_resigned);
   (OBJECTINSTANCENAMERESERVATIONFAILED_FIELD_NUMBER, m_object_name_reservation_failed);
   (OBJECTINSTANCENAMERESERVATIONSUCCEEDED_FIELD_NUMBER,
      m_object_instance_name_reservation_succeeded);
   (DISCOVEROBJECTINSTANCE_FIELD_NUMBER, m_discover_object_instance);
   (REMOVEOBJECTINSTANCE_FIELD_NUMBER, m_remove_object_instance);
   (REFLECTATTRIBUTEVALUES_FIELD_NUMBER, m_reflect_attribute_values);
   (RECEIVEINTERACTION_FIELD_NUMBER, m_receive_interaction);
   (-99, m_unknown_callback)].

Definition FederateAmbassadorFedPro_init (handler : FedProMsgHandler)
    (Federate_Ambassador : FederateAmbassador) (session_id : Z)
  : FederateAmbassadorFedPro * FedProMsgHandler :=
  ({| my_Federate_Ambassador := Federate_Ambassador; fa_session_id := session_id |},
   fold_left (fun h r => add_callback_request_callback (fst r) (snd r) h)
             registrations handler).

(** *** The handlers of inbound messages

    A handler's result is the truth value that [read_and_process] stores
    in [got_message]; a handler that falls off its end returns [None],
    which is false. *)

Definition clear_expectation : M unit :=
  modify (fun st => set_my_expected_response_type (TagMsgType UNKNOWN)
                      (set_my_expected_response_request_number 0 st)).

Definition reraise {A} (e : exn) : M A := raise e.
Definition AttributeError_or_TypeError (e : exn) : bool :=
  match e with AttributeError | TypeError => true | _ => false end.

(** [process_heartbeat_response(heartbeat)] *)
Definition process_heartbeat_response (heartbeat : HeartbeatResponseMessage) : M bool :=
  try_except
    (_ <- modify (set_my_fedPro_response (RespHeartbeatResponse heartbeat)) ;;
     st <- get ;;
     if (Tag_value (my_expected_response_type st) =? my_msg_type (hbr_base heartbeat))
        && (my_expected_response_request_number st
            =? fedProMessage.my_sequence_num (hbr_base heartbeat))
     then _ <- clear_expectation ;; ret false
     else ret false)
    AttributeError_or_TypeError reraise.

(** [process_new_session_status(newsession)] *)
Definition process_new_session_status (newsession : NewSessionStatusMessage) : M bool :=
  try_except
    (_ <- modify (set_my_fedPro_response (RespNewSessionStatus newsession)) ;;
     _ <- modify (set_my_session_id (fedProMessage.my_session_id (nss_base newsession))) ;;
     _ <- modify (set_my_session_status (my_status newsession)) ;;
     st <- get ;;
     if (Tag_value (my_expected_response_type st) =? my_msg_type (nss_base newsession))
        && (my_expected_response_request_number st
            =? fedProMessage.my_sequence_num (nss_base newsession))
     then _ <- clear_expectation ;; ret true
     else if is_UNKNOWN (my_expected_response_type st)
     then raise (FedProMessageError "Unexpected Call Response")
     else ret false)
    AttributeError_or_TypeError reraise.

(** [process_call_response(callresponse)] *)
Definition process_call_response (callresponse : CallResponseMessage) : M bool :=
  try_except
    (_ <- (if negb (my_msg_type (crm_base callresponse) =? MsgType_value HLA_CALL_RESPONSE)
           then raise (FedProMessageError "Unexpected message type")
           else ret tt) ;;
     _ <- modify (set_my_fedPro_response (RespCallResponse callresponse)) ;;
     st <- get ;;
     if (1 <? crm_hla_msg_type callresponse)
        && (Tag_value (my_expected_response_type st) =? crm_hla_msg_type callresponse)
        && (my_expected_response_request_number st
            =? fedProMessage.my_sequence_num (crm_base callresponse))
     then _ <- clear_expectation ;; ret true
     else if is_UNKNOWN (my_expected_response_type st)
     then raise (FedProMessageError "Unexpected Call Response")
     else if crm_hla_msg_type callresponse =? EXCEPTIONDATA_FIELD_NUMBER
     then
       if int_is (fedProMessage.my_sequence_num (crm_base callresponse))
                 (my_expected_response_request_number st)
       then _ <- modify (set_my_expected_response_type
                           (TagInt EXCEPTIONDATA_FIELD_NUMBER)) ;;
            ret false
       else ret false
     else ret false)
    AttributeError_or_TypeError reraise.

(** [handle_callback_request(message)] *)
Definition handle_callback_request (message : CallbackRequestMessage) : M unit :=
  st <- get ;;
  let callback_case :=
    match my_callback_functions st !! cbq_hla_msg_type message with
    | Some m => Some m
    | None => my_callback_functions st !! (-99)
    end in
  match callback_case with
  | Some m => call_CallbackMethod m (my_request_buf message)
                (fedProMessage.my_sequence_num (cbq_base message))
  | None => raise TypeError
  end.

(** [process_callback_request(callbackrequest)] *)
Definition process_callback_request (callbackrequest : CallbackRequestMessage) : M bool :=
  try_except
    (_ <- modify (set_my_fedPro_response (RespCallbackRequest callbackrequest)) ;;
     st <- get ;;
     if my_queue_callback_requests st then
       _ <- modify (fun st => set_my_callback_request_queue
                      (my_callback_request_queue st ++ [callbackrequest]) st) ;;
       _ <- modify (set_my_expected_response_request_number
                      (fedProMessage.my_sequence_num (cbq_base callbackrequest) + 1)) ;;
       ret false
     else
       match federate_ambassador_handler st with
       | None => raise AttributeError
       | Some _ =>
           _ <- modify (set_my_sequence_num
                          (fedProMessage.my_sequence_num (cbq_base callbackrequest))) ;;
           _ <- handle_callback_request callbackrequest ;;
           ret true
       end)
    AttributeError_or_TypeError reraise.

(** *** Reading: [read_and_process]

    What the socket and the clock do is given from outside, as the list of
    what each turn of the reading loop meets. *)
Inductive Event :=
| EvDeadline                   (* the clock is past [max_stop_time]: [break] *)
| EvMessage (m : FedProMessage) (* a message from the buffer or [get_message] *)
| EvNoMessage                  (* [get_message] returns its envelope of type
                                  [INVALID]: nothing came in time *)
| EvRaise (e : exn).           (* [get_message] raises *)

(** The entries of the table [msg_types]: the class to cast to and, but
    for [CTRL_SESSION_TERMINATED], the handler. *)
Inductive MsgTypesEntry :=
| E_NEW_SESSION_STATUS
| E_HEARTBEAT_RESPONSE
| E_SESSION_TERMINATED
| E_CALL_RESPONSE
| E_CALLBACK_REQUEST.

(** [self.msg_types.get(message.my_msg_type)] *)
Definition msg_types (ty : Z) : option MsgTypesEntry :=
  match MsgType_of_Z ty with
  | Some CTRL_NEW_SESSION_STATUS => Some E_NEW_SESSION_STATUS
  | Some CTRL_HEARTBEAT_RESPONSE => Some E_HEARTBEAT_RESPONSE
  | Some CTRL_SESSION_TERMINATED => Some E_SESSION_TERMINATED
  | Some HLA_CALL_RESPONSE => Some E_CALL_RESPONSE
  | Some HLA_CALLBACK_REQUEST => Some E_CALLBACK_REQUEST
  | _ => None
  end.

(** Cast, record the sequence number, call the handler.  For
    [CTRL_SESSION_TERMINATED] the cast is [FedProMessage(message)], a fresh
    envelope with sequence number 0 whose [my_msg_type] is the old message
    object; looking that up in [msg_types] raises [KeyError]. *)
Definition cast_and_handle (entry : MsgTypesEntry) (message : FedProMessage) : M bool :=
  match entry with
  | E_NEW_SESSION_STATUS =>
      m <- lift (NewSessionStatusMessage_init message) ;;
      _ <- modify (set_my_last_received_message_number
                     (fedProMessage.my_sequence_num (nss_base m))) ;;
      process_new_session_status m
  | E_HEARTBEAT_RESPONSE =>
      let m := HeartbeatResponseMessage_init message in
      _ <- modify (set_my_last_received_message_number
                     (fedProMessage.my_sequence_num (hbr_base m))) ;;
      process_heartbeat_response m
  | E_SESSION_TERMINATED =>
      _ <- modify (set_my_last_received_message_number 0) ;;
      raise KeyError
  | E_CALL_RESPONSE =>
      m <- lift (CallResponseMessage_init message) ;;
      _ <- modify (set_my_last_received_message_number
                     (fedProMessage.my_sequence_num (crm_base m))) ;;
      process_call_response m
  | E_CALLBACK_REQUEST =>
      m <- lift (CallbackRequestMessage_init message) ;;
      _ <- modify (set_my_last_received_message_number
                     (fedProMessage.my_sequence_num (cbq_base m))) ;;
      process_callback_request m
  end.

(** The body of the loop from the test on the message on; the result is
    whether the message was counted, and [got_message]. *)
Definition process_message (message : FedProMessage) : M (bool * bool) :=
  if negb (my_msg_type message =? MsgType_value INVALID) && (0 <=? my_msg_size message)
  then
    match msg_types (my_msg_type message) with
    | None => raise (FedProMessageError "Unexpected message type")
    | Some entry =>
        got_message <- cast_and_handle entry message ;;
        _ <- modify (fun st => set_my_sequence_num (my_sequence_num st + 1) st) ;;
        ret (true, got_message)
    end
  else ret (false, false).

(** The [while] loop of [read_and_process].  An envelope of type [INVALID]
    is passed over: the loop goes round again.  When the events are used
    up nothing more arrives: [get_message] returns such envelopes until
    the clock is past [max_stop_time]. *)
Fixpoint read_loop (evs : list Event) (message_count : Z) (st : FedProMsgHandler)
  : result Z * FedProMsgHandler * list Event :=
  if negb (is_connected st) then (Ret message_count, st, evs) else
  match evs with
  | [] => (Ret message_count, st, [])
  | EvDeadline :: evs' => (Ret message_count, st, evs')
  | EvNoMessage :: evs' => read_loop evs' message_count st
  | EvRaise e :: evs' => (Raise e, st, evs')
  | EvMessage message :: evs' =>
      match process_message message st with
      | (Raise e, st') => (Raise e, st', evs')
      | (Ret (counted, got_message), st') =>
          let message_count' := if counted then message_count + 1 else message_count in
          if got_message then (Ret message_count', st', evs')
          else read_loop evs' message_count' st'
      end
  end.

Definition caught_by_read_and_process (e : exn) : bool :=
  match e with OSError | ConnectionError | AttributeError => true | _ => false end.

(** [read_and_process(min_time, max_time)] *)
Definition read_and_process (evs : list Event) (st : FedProMsgHandler)
  : result Z * FedProMsgHandler * list Event :=
  if negb (is_connected st) then (Ret (-1), st, evs) else
  match read_loop evs 0 st with
  | (Raise e, st', evs') =>
      if caught_by_read_and_process e then (Ret (-1), st', evs')
      else (Raise e, st', evs')
  | r => r
  end.

(** *** Polling: [poll_for_call_response] and [send_and_wait] *)

Definition got_response_of (st : FedProMsgHandler) : bool :=
  is_UNKNOWN (my_expected_response_type st)
  || is_EXCEPTIONDATA (my_expected_response_type st).

(** [while read_ok and not got_response: ...]; the loop has no time limit
    of its own.  [None] when the fuel is used up. *)
Fixpoint poll_loop (fuel : nat) (evs : list Event) (st : FedProMsgHandler)
    (read_ok got_response : bool)
  : option (result (bool * bool) * FedProMsgHandler * list Event) :=
  if read_ok && negb got_response then
    match fuel with
    | O => None
    | S fuel' =>
        match read_and_process evs st with
        | (Raise e, st', evs') => Some (Raise e, st', evs')
        | (Ret n, st', evs') => poll_loop fuel' evs' st' (0 <=? n) (got_response_of st')
        end
    end
  else Some (Ret (read_ok, got_response), st, evs).

(** The end of [poll_for_call_response], after the loop. *)
Definition poll_finish (read_ok got_response : bool) (st : FedProMsgHandler)
  : Z * FedProMsgHandler :=
  let st1 :=
    if is_EXCEPTIONDATA (my_expected_response_type st) then set_my_poll_result (-1) st
    else if got_response then set_my_poll_result 1 st
    else set_my_poll_result 0 st in
  let st2 := set_my_expected_response_type (TagMsgType UNKNOWN)
               (set_my_expected_response_request_number 0 st1) in
  (my_poll_result st2, st2).

(** [poll_for_call_response(max_wait, response, heartbeat)].  With one
    turn more than there are events the loop has seen all of them: when it
    still goes on, every further read returns 0 on a silent socket and the
    loop never ends ([poll_loop_silent]). *)
Definition poll_for_call_response (evs : list Event) (response : Tag)
    (st : FedProMsgHandler) : result Z * FedProMsgHandler * list Event :=
  let st0 := set_my_expected_response_type response
               (set_my_expected_response_request_number
                  (my_last_received_message_number st + 1) st) in
  match read_and_process evs st0 with
  | (Raise e, st1, evs1) => (Raise e, st1, evs1)
  | (Ret n, st1, evs1) =>
      match poll_loop (S (length evs1)) evs1 st1 (0 <=? n) (got_response_of st1) with
      | Some (Raise e, st2, evs2) => (Raise e, st2, evs2)
      | Some (Ret (read_ok, got_response), st2, evs2) =>
          let '(r, st3) := poll_finish read_ok got_response st2 in
          (Ret r, st3, evs2)
      | None => (Raise Diverged, st1, evs1)
      end
  end.

(** [send_and_wait(request, expected_response_type, timeout)]; its
    [except (OSError, ConnectionError)] logs and raises again. *)
Definition send_and_wait (evs : list Event) (request : Request)
    (expected_response_type : Tag) (st : FedProMsgHandler)
  : result bool * FedProMsgHandler * list Event :=
  match send_message request false st with
  | (Raise e, st') => (Raise e, st', evs)
  | (Ret sent, st') =>
      if sent =? -1
      then (Raise (FedProMessageError "Socket failed to send message"), st', evs)
      else
        match poll_for_call_response evs expected_response_type st' with
        | (Raise e, st'', evs') => (Raise e, st'', evs')
        | (Ret r, st'', evs') => (Ret (0 <? r), st'', evs')
        end
  end.

(** *** Opening the session: [connect_socket] and [initializeSession] *)

(** What every class of [my_fedPro_response] inherits from the base
    envelope. *)
Definition Response_base (r : Response) : FedProMessage :=
  match r with
  | RespNewSessionStatus m => nss_base m
  | RespHeartbeatResponse m => hbr_base m
  | RespCallResponse m => crm_base m
  | RespCallbackRequest m => cbq_base m
  end.

(** [connect_socket(socket_address)]; [reachable] tells whether
    [socket.create_connection] returns a socket or raises [OSError], which
    the method catches. *)
Definition connect_socket (reachable : bool) : M bool :=
  if reachable then
    _ <- modify (fun st => set_my_socket {| sock_connected := true;
                                            sock_sent := sock_sent (my_socket st);
                                            sock_write_errors :=
                                              sock_write_errors (my_socket st) |} st) ;;
    _ <- modify (set_my_is_connection_ok true) ;;
    ret true
  else
    _ <- modify (set_my_is_connection_ok false) ;;
    ret false.

Definition FEDPRO_VERSION : Z := 1.

(** [initializeSession(fedAmb)] *)
Definition initializeSession (evs : list Event) (reachable : bool)
    (fedAmb : FederateAmbassador) (st : FedProMsgHandler)
  : result bool * FedProMsgHandler * list Event :=
  if sock_connected (my_socket st) then (Ret false, st, evs) else
  match connect_socket reachable st with
  | (Raise e, st0) => (Raise e, st0, evs)
  | (Ret false, st0) => (Ret false, st0, evs)
  | (Ret true, st0) =>
      let a_new_session_message :=
        {| ns_base := ns_base NewSessionMessage_init;
           my_protocol_version := FEDPRO_VERSION |} in
      match send_and_wait evs (ReqNewSession a_new_session_message)
              (TagMsgType CTRL_NEW_SESSION_STATUS) st0 with
      | (Raise e, st1, evs1) => (Raise e, st1, evs1)
      | (Ret false, st1, evs1) => (Ret true, st1, evs1)
      | (Ret true, st1, evs1) =>
          let st2 := set_my_session_id
                       (fedProMessage.my_session_id
                          (Response_base (my_fedPro_response st1))) st1 in
          let '(fa, st3) :=
            FederateAmbassadorFedPro_init st2 fedAmb (my_session_id st2) in
          (Ret true, set_federate_ambassador_handler (Some fa) st3, evs1)
      end
  end.

End Handler.

(** ** rtiAmbassadorFedPro.py: the ambassador façade *)

Module rtiAmbassadorFedPro.
Section Facade.
Context `{Protobuf}.

(** [RtiAmbassadorFedPro]: the handler, the connection flags and the
    object class caches (the interaction and parameter caches are used by
    none of the methods below). *)
Record RtiAmbassadorFedPro := mkRtiAmbassadorFedPro {
  my_msg_handler : FedProMsgHandler;
  rti_connection : bool;
  my_is_connection_ok : bool;
  my_obj_name_handles : gmap string bytes;
  my_obj_handle_names : gmap bytes string
}.

Definition RtiAmbassadorFedPro_init : RtiAmbassadorFedPro :=
  {| my_msg_handler := FedProMsgHandler_init;
     rti_connection := false;
     my_is_connection_ok := false;
     my_obj_name_handles := ∅;
     my_obj_handle_names := ∅ |}.

Definition set_my_msg_handler (h : FedProMsgHandler) (self : RtiAmbassadorFedPro)
  : RtiAmbassadorFedPro :=
  {| my_msg_handler := h;
     rti_connection := rti_connection self;
     my_is_connection_ok := my_is_connection_ok self;
     my_obj_name_handles := my_obj_name_handles self;
     my_obj_handle_names := my_obj_handle_names self |}.

(** [log_warning(self.my_msg_handler.my_fedPro_response)]: the message is
    turned into a string; [__str__] of the call and callback classes walks
    the decoded buffer and raises [AttributeError] when there is none. *)
Definition log_response (r : Response) : result unit :=
  match r with
  | RespNewSessionStatus _ | RespHeartbeatResponse _ => Ret tt
  | RespCallResponse m =>
      match my_response_buf m with Some _ => Ret tt | None => Raise AttributeError end
  | RespCallbackRequest m =>
      match my_request_buf m with Some _ => Ret tt | None => Raise AttributeError end
  end.

(** [self.my_msg_handler.my_fedPro_response.my_response_buf.<field>] *)
Definition response_buf (r : Response) : result CallResponse :=
  match r with
  | RespCallResponse m =>
      match my_response_buf m with Some b => Ret b | None => Raise AttributeError end
  | _ => Raise AttributeError
  end.

(** The two assignments of [get_object_class_handle] into the attribute
    maps of the host's [FederateData]; [None] when the handler has no
    [federate_ambassador_handler] (an [AttributeError]). *)
Definition reset_attr_maps (object_class_handle : bytes) (h : FedProMsgHandler)
  : option FedProMsgHandler :=
  match federate_ambassador_handler h with
  | None => None
  | Some fa =>
      let amb := my_Federate_Ambassador fa in
      let d := my_data amb in
      let d' :=
        {| my_attr_name_handles := <[object_class_handle := ∅]> (my_attr_name_handles d);
           my_attr_handle_names := <[object_class_handle := ∅]> (my_attr_handle_names d);
           my_interaction_parameter_values := my_interaction_parameter_values d |} in
      Some (set_federate_ambassador_handler
              (Some {| my_Federate_Ambassador :=
                         {| behaviour := behaviour amb; my_data := d' |};
                       fa_session_id := fa_session_id fa |}) h)
  end.

(** [get_object_class_handle(object_class_name)] *)
Definition get_object_class_handle (evs : list Event) (object_class_name : string)
    (self : RtiAmbassadorFedPro)
  : result bytes * RtiAmbassadorFedPro * list Event :=
  match my_obj_name_handles self !! object_class_name with
  | Some object_class_handle => (Ret object_class_handle, self, evs)
  | None =>
      let call_request := getObjectClassHandleRequest object_class_name in
      match CallRequestMessage_init call_request with
      | Raise e => (Raise e, self, evs)
      | Ret call_request_msg =>
          match send_and_wait evs (ReqCallRequest call_request_msg)
                  (TagInt GETOBJECTCLASSHANDLERESPONSE_FIELD_NUMBER)
                  (my_msg_handler self) with
          | (Raise e, h, evs') => (Raise e, set_my_msg_handler h self, evs')
          | (Ret true, h, evs') =>
              match response_buf (my_fedPro_response h) with
              | Raise e => (Raise e, set_my_msg_handler h self, evs')
              | Ret buf =>
                  let object_class_handle :=
                    getObjectClassHandleResponse_result_data buf in
                  let self1 :=
                    {| my_msg_handler := h;
                       rti_connection := rti_connection self;
                       my_is_connection_ok := my_is_connection_ok self;
                       my_obj_name_handles :=
                         <[object_class_name := object_class_handle]>
                           (my_obj_name_handles self);
                       my_obj_handle_names :=
                         <[object_class_handle := object_class_name]>
                           (my_obj_handle_names self) |} in
                  match reset_attr_maps object_class_handle h with
                  | None => (Raise AttributeError, self1, evs')
                  | Some h' =>
                      (Ret object_class_handle, set_my_msg_handler h' self1, evs')
                  end
              end
          | (Ret false, h, evs') =>
              match log_response (my_fedPro_response h) with
              | Raise e => (Raise e, set_my_msg_handler h self, evs')
              | Ret _ =>
                  (Raise (RTIinternalError "Failed to get object class handle"),
                   set_my_msg_handler h self, evs')
              end
          end
      end
  end.

(** [update_attribute_values(object_instance_handle, attribute_values,
    user_supplied_tag)]; [attribute_values] is the dictionary as the list
    of its items. *)
Definition update_attribute_values (evs : list Event) (object_instance_handle : bytes)
    (attribute_values : list (bytes * bytes)) (user_supplied_tag : option bytes)
    (self : RtiAmbassadorFedPro)
  : result unit * RtiAmbassadorFedPro * list Event :=
  match attribute_values with
  | [] => (Raise (RTIinternalError "No attribute values provided for update"), self, evs)
  | _ :: _ =>
      let tag := match user_supplied_tag with
                 | Some (_ :: _ as t) => Some t
                 | _ => None
                 end in
      let call_request :=
        updateAttributeValuesRequest object_instance_handle tag attribute_values in
      match CallRequestMessage_init call_request with
      | Raise e => (Raise e, self, evs)
      | Ret call_request_msg =>
          match send_and_wait evs (ReqCallRequest call_request_msg)
                  (TagInt UPDATEATTRIBUTEVALUESRESPONSE_FIELD_NUMBER)
                  (my_msg_handler self) with
          | (Raise e, h, evs') => (Raise e, set_my_msg_handler h self, evs')
          | (Ret true, h, evs') => (Ret tt, set_my_msg_handler h self, evs')
          | (Ret false, h, evs') =>
              match log_response (my_fedPro_response h) with
              | Raise e => (Raise e, set_my_msg_handler h self, evs')
              | Ret _ =>
                  if my_poll_result h =? -1 then
                    (Raise (RTIinternalError
                              "Failed to update attribute values, exception received"),
                     set_my_msg_handler h self, evs')
                  else
                    (Raise (RTIinternalError
                              "Failed to update attribute values due to missing/invalid response"),
                     set_my_msg_handler h self, evs')
              end
          end
      end
  end.

(** [evoke_callback(max_time)]; the result [False] is the integer 0.  An
    exception that escapes [read_and_process] leaves the queueing flag
    off. *)
Definition evoke_callback (evs : list Event) (self : RtiAmbassadorFedPro)
  : result Z * RtiAmbassadorFedPro * list Event :=
  if negb (my_is_connection_ok self) then (Ret 0, self, evs) else
  if my_enable_callback_requests (my_msg_handler self) then
    let h0 := set_my_queue_callback_requests false (my_msg_handler self) in
    match read_and_process evs h0 with
    | (Raise e, h1, evs') => (Raise e, set_my_msg_handler h1 self, evs')
    | (Ret n, h1, evs') =>
        (Ret n, set_my_msg_handler (set_my_queue_callback_requests true h1) self, evs')
    end
  else (Ret 0, self, evs).

End Facade.
End rtiAmbassadorFedPro.

(** ** Notions used to state the properties *)

Section Observations.
Context `{Protobuf}.

(** The response-type tag and the sequence number under which the handlers
    see an inbound envelope that can answer an expectation: the message type
    for a session status or a heartbeat response, the field number of the
    decoded payload for a call response. *)
Definition inbound_tag_seq (m : FedProMessage) : option (Z * Z) :=
  if negb (my_msg_type m =? MsgType_value INVALID) && (0 <=? my_msg_size m) then
    match msg_types (my_msg_type m) with
    | Some E_NEW_SESSION_STATUS =>
        match NewSessionStatusMessage_init m with
        | Ret x => Some (my_msg_type (nss_base x),
                         fedProMessage.my_sequence_num (nss_base x))
        | Raise _ => None
        end
    | Some E_HEARTBEAT_RESPONSE =>
        Some (my_msg_type m, fedProMessage.my_sequence_num m)
    | Some E_CALL_RESPONSE =>
        match CallResponseMessage_init m with
        | Ret x => Some (crm_hla_msg_type x,
                         fedProMessage.my_sequence_num (crm_base x))
        | Raise _ => None
        end
    | _ => None
    end
  else None.

(** The sequence number of an inbound envelope that the handler takes for
    a callback request. *)
Definition callback_request_seq (m : FedProMessage) : option Z :=
  if negb (my_msg_type m =? MsgType_value INVALID) && (0 <=? my_msg_size m) then
    match msg_types (my_msg_type m) with
    | Some E_CALLBACK_REQUEST =>
        match CallbackRequestMessage_init m with
        | Ret x => Some (fedProMessage.my_sequence_num (cbq_base x))
        | Raise _ => None
        end
    | _ => None
    end
  else None.

(** The sequence number field of a frame on the wire: bytes 4 to 8. *)
Definition frame_sequence_num (frame : bytes) : Z :=
  be_value 0 (slice 4 8 frame).

End Observations.

(** ** Relations between states of the handler *)

Abbreviation expected_type := my_expected_response_type.
Abbreviation expected_number := my_expected_response_request_number.

Section Relations.
Context `{Protobuf}.

(** [host_only st st']: from [st] to [st'] only the socket's list of sent
    frames, the record of ambassador invocations and the host's data have
    changed, and the first two have only grown. *)
Record host_only (st st' : FedProMsgHandler) : Prop := mk_host_only {
  ho_rest :
    st' = set_my_socket (my_socket st')
            (set_ambassador_calls (ambassador_calls st')
               (set_federate_ambassador_handler (federate_ambassador_handler st') st));
  ho_connected : sock_connected (my_socket st') = sock_connected (my_socket st);
  ho_sent : exists fs, sock_sent (my_socket st') = sock_sent (my_socket st) ++ fs;
  ho_calls : exists cs, ambassador_calls st' = ambassador_calls st ++ cs;
  ho_handler :
    match federate_ambassador_handler st with
    | Some _ => federate_ambassador_handler st' <> None
    | None => federate_ambassador_handler st' = None
    end
}.

(** A computation all of whose runs are related by [R] to their start. *)
Definition preserves {A} (R : FedProMsgHandler -> FedProMsgHandler -> Prop)
    (c : M A) : Prop :=
  forall st, R st (snd (c st)).

(** The numbers the pending expectation can hold during a wait that
    started with [n0]: [n0] itself, or one more than the sequence number of
    a callback request that came in. *)
Definition pending (all : list Event) (n0 n : Z) : Prop :=
  n = n0 \/
  exists cb s, In (EvMessage cb) all /\ callback_request_seq cb = Some s /\ n = s + 1.

(** Some inbound envelope carried the expected tag and a pending number. *)
Definition accepted (all : list Event) (tagv n0 : Z) : Prop :=
  exists m n, In (EvMessage m) all /\ inbound_tag_seq m = Some (tagv, n) /\
              pending all n0 n.

(** The three stages of a wait for [tag]: still waiting, answered, or
    turned into an exception report. *)
Definition waiting (all : list Event) (tag : Tag) (n0 : Z) (st : FedProMsgHandler)
  : Prop :=
  (expected_type st = tag /\ pending all n0 (expected_number st))
  \/ (expected_type st = TagMsgType UNKNOWN /\ accepted all (Tag_value tag) n0)
  \/ expected_type st = TagInt EXCEPTIONDATA_FIELD_NUMBER.

(** [quiet st st']: nothing was sent and the ambassador was not invoked;
    the outbound counter did not go down; and, if the expectation was
    answered in between, the counter went up. *)
Record quiet (st st' : FedProMsgHandler) : Prop := mk_quiet {
  q_flag : my_queue_callback_requests st' = my_queue_callback_requests st;
  q_socket : my_socket st' = my_socket st;
  q_calls : ambassador_calls st' = ambassador_calls st;
  q_ok : my_is_connection_ok st' = my_is_connection_ok st;
  q_seq : my_sequence_num st <= my_sequence_num st';
  q_answered :
    is_UNKNOWN (expected_type st') = is_UNKNOWN (expected_type st) \/
    my_sequence_num st < my_sequence_num st'
}.

(** What the engine runs while callbacks stay queued: reads and
    synchronous calls, on whatever comes in.  [evoke_callback], which
    turns the queueing off while it reads, is not among them. *)
Inductive queued_step (st : FedProMsgHandler) : FedProMsgHandler -> Prop :=
| queued_read (evs : list Event) :
    queued_step st (snd (fst (read_and_process evs st)))
| queued_call (evs : list Event) (request : Request) (tag : Tag) :
    queued_step st (snd (fst (send_and_wait evs request tag st))).

(** Any number of such runs, one after the other. *)
Definition queued_run : FedProMsgHandler -> FedProMsgHandler -> Prop :=
  rtc queued_step.

(** A handler of a response leaves the counter alone, and changes the
    expectation from or to [UNKNOWN] only when it returns. *)
Definition handled {A} (st : FedProMsgHandler) (out : result A * FedProMsgHandler)
  : Prop :=
  let st' := snd out in
  my_queue_callback_requests st' = my_queue_callback_requests st /\
  my_socket st' = my_socket st /\
  ambassador_calls st' = ambassador_calls st /\
  my_is_connection_ok st' = my_is_connection_ok st /\
  my_sequence_num st' = my_sequence_num st /\
  (is_UNKNOWN (expected_type st') = is_UNKNOWN (expected_type st) \/
   exists a, fst out = Ret a).

End Relations.

(** Tactics that run the monadic definitions. *)
Ltac unfold_monad :=
  unfold bind, ret, raise, reraise, get, modify, lift, try_except in *.

Ltac run_handler :=
  unfold_monad; cbn;
  repeat (case_match; cbn); simplify_eq; cbn.

(** ** A sample schema and sample states

    A small instance of the schema interface, on which the definitions
    above can be run: a message is its own serialization, and its first
    byte is the number of its populated field. *)

Definition sample_number (bs : bytes) : option Z :=
  match bs with
  | [] => None
  | b :: _ => Some (Z_of_byte b)
  end.

Definition sample_schema : Protobuf :=
  {| CallRequest := bytes;
     CallRequest_number := sample_number;
     CallRequest_SerializeToString := fun bs => bs;
     getObjectClassHandleRequest := fun name => x28 :: list_byte_of_string name;
     updateAttributeValuesRequest := fun obj tag avs =>
       x3c :: obj ++ default [] tag ++ concat (map (fun av => fst av ++ snd av) avs);
     CallResponse := bytes;
     CallResponse_ParseFromString := fun bs => Some bs;
     CallResponse_number := sample_number;
     getObjectClassHandleResponse_result_data := fun bs => skipn 1 bs;
     EXCEPTIONDATA_FIELD_NUMBER := 1;
     GETOBJECTCLASSHANDLERESPONSE_FIELD_NUMBER := 41;
     UPDATEATTRIBUTEVALUESRESPONSE_FIELD_NUMBER := 61;
     CallbackRequest := bytes;
     CallbackRequest_ParseFromString := fun bs => Some bs;
     CallbackRequest_number := sample_number;
     CallbackRequest_values_listed := fun bs => (1 <? length bs)%nat;
     receiveInteraction_interactionClass := fun bs => firstn 1 (skipn 1 bs);
     receiveInteraction_producingFederate := fun bs => firstn 1 (skipn 2 bs);
     CONNECTIONLOST_FIELD_NUMBER := 1;
     REPORTFEDERATIONEXECUTIONS_FIELD_NUMBER := 2;
     REPORTFEDERATIONEXECUTIONMEMBERS_FIELD_NUMBER := 3;
     REPORTFEDERATIONEXECUTIONDOESNOTEXIST_FIELD_NUMBER := 4;
     FEDERATERESIGNED_FIELD_NUMBER := 5;
     OBJECTINSTANCENAMERESERVATIONFAILED_FIELD_NUMBER := 6;
     OBJECTINSTANCENAMERESERVATIONSUCCEEDED_FIELD_NUMBER := 7;
     DISCOVEROBJECTINSTANCE_FIELD_NUMBER := 8;
     REMOVEOBJECTINSTANCE_FIELD_NUMBER := 9;
     REFLECTATTRIBUTEVALUES_FIELD_NUMBER := 10;
     RECEIVEINTERACTION_FIELD_NUMBER := 11;
     CallbackResponse := unit;
     CallbackResponse_new := tt;
     CallbackResponse_SerializeToString := fun _ => [];
     CallbackResponse_new_empty := eq_refl |}.

Section Samples.
#[local] Existing Instance sample_schema.

(** A host ambassador all of whose methods return. *)
Definition obliging_ambassador : FederateAmbassador :=
  {| behaviour := fun _ _ => None; my_data := FederateData_init |}.

(** A host ambassador whose [connectionLost] raises. *)
Definition failing_ambassador : FederateAmbassador :=
  {| behaviour := fun _ call =>
       match amb_method call with
       | connectionLost => Some (UserError 1)
       | _ => None
       end;
     my_data := FederateData_init |}.

(** The handler once the socket is connected, before anything was sent. *)
Definition connected_handler : FedProMsgHandler :=
  set_my_is_connection_ok true
    (set_my_socket {| sock_connected := true; sock_sent := [];
                      sock_write_errors := [] |} FedProMsgHandler_init).

(** The handler after a session was initialized with session id 9 for
    the given host ambassador: two messages came in, numbered 1 and 2. *)
Definition session_handler (amb : FederateAmbassador) : FedProMsgHandler :=
  let '(fa, h) :=
    FederateAmbassadorFedPro_init
      (set_my_session_id 9
         (set_my_sequence_num 2
            (set_my_last_received_message_number 2 connected_handler)))
      amb 9 in
  set_federate_ambassador_handler (Some fa) h.

(** An inbound envelope with the given type, sequence number and payload,
    in session 9. *)
Definition inbound (ty : MsgType) (seq : Z) (payload : bytes) : FedProMessage :=
  {| my_msg_type := MsgType_value ty;
     my_msg_size := 24 + Z.of_nat (length payload);
     fedProMessage.my_session_id := 9;
     fedProMessage.my_sequence_num := seq;
     my_last_received_msg := 0;
     my_payload := payload |}.

(** The request of [get_object_class_handle("Ball")]. *)
Definition ball_request : Request :=
  match CallRequestMessage_init (getObjectClassHandleRequest "Ball") with
  | Ret m => ReqCallRequest m
  | Raise _ => ReqHeartbeat HeartbeatMessage_init
  end.

(** A call response numbered [seq] that answers it with the handle [ab]:
    a non-zero four-byte prefix, then field 41 with its data. *)
Definition ball_response (seq : Z) : FedProMessage :=
  inbound HLA_CALL_RESPONSE seq [x00;x00;x00;x01; x29; xab].

(** A [discoverObjectInstance] callback request (field 8) numbered [seq],
    and a [connectionLost] one (field 1). *)
Definition discover_request (seq : Z) : FedProMessage :=
  inbound HLA_CALLBACK_REQUEST seq [x08; x01; x02; x03].
Definition lost_request (seq : Z) : FedProMessage :=
  inbound HLA_CALLBACK_REQUEST seq [x01; x6f; x66; x66].

(** The callback request as the handler holds it. *)
Definition as_callback (m : FedProMessage) : CallbackRequestMessage :=
  match CallbackRequestMessage_init m with
  | Ret cb => cb
  | Raise _ => {| cbq_base := FedProMessage_init (MsgType_value HLA_CALLBACK_REQUEST) 24;
                  cbq_hla_msg_type := -1; my_request_buf := None |}
  end.

(** Scenario S4: while the answer to the "Ball" request is awaited, a
    callback request numbered 42 comes in, then the answer, numbered 43. *)
Definition s4_events : list Event :=
  [EvMessage (discover_request 42); EvMessage (ball_response 43)].

(** An ambassador façade around a handler, connected. *)
Definition facade_of (h : FedProMsgHandler) : rtiAmbassadorFedPro.RtiAmbassadorFedPro :=
  {| rtiAmbassadorFedPro.my_msg_handler := h;
     rtiAmbassadorFedPro.rti_connection := true;
     rtiAmbassadorFedPro.my_is_connection_ok := true;
     rtiAmbassadorFedPro.my_obj_name_handles := ∅;
     rtiAmbassadorFedPro.my_obj_handle_names := ∅ |}.

(** The façade after scenario S4's call. *)
Definition s4_facade : rtiAmbassadorFedPro.RtiAmbassadorFedPro :=
  facade_of (snd (fst (send_and_wait s4_events ball_request (TagInt 41)
                         (session_handler obliging_ambassador)))).

(** The frames of two heartbeats of session 9 numbered 2 and 3. *)
Definition heartbeat_frame_2 : bytes :=
  [x00;x00;x00;x18; x00;x00;x00;x02; x00;x00;x00;x00;x00;x00;x00;x09;
   x00;x00;x00;x00; x00;x00;x00;x03].
Definition heartbeat_frame_3 : bytes :=
  [x00;x00;x00;x18; x00;x00;x00;x03; x00;x00;x00;x00;x00;x00;x00;x09;
   x00;x00;x00;x00; x00;x00;x00;x03].

(** A heartbeat envelope that records 5 as the last number received,
    and the frame of its header. *)
Definition C3_sample : FedProMessage :=
  {| my_msg_type := MsgType_value CTRL_HEARTBEAT; my_msg_size := 24;
     fedProMessage.my_session_id := 77; fedProMessage.my_sequence_num := 3;
     my_last_received_msg := 5; my_payload := [] |}.

Definition C3_sample_frame : bytes :=
  [x00;x00;x00;x18; x00;x00;x00;x03; x00;x00;x00;x00;x00;x00;x00;x4d;
   x00;x00;x00;x00; x00;x00;x00;x03].

End Samples.

(** ** The decoders of the message classes

    [clear], [from_tuple] and [from_bytes] of the message classes, which
    the engine itself does not call, and [to_bytes] of the session
    status. *)

(** The exception that [FedProMessage.from_bytes] lets escape on a buffer
    on which it does not return. *)
Definition from_bytes_exn (buffer : list bytes) : exn :=
  match buffer !! 0%nat with
  | None => IndexError
  | Some b0 =>
      match struct_unpack [fmt_I] b0 with
      | None => StructError
      | Some _ =>
          match buffer !! 1%nat with
          | None => IndexError
          | Some b1 =>
              match struct_unpack [fmt_I; fmt_Q; fmt_I; fmt_I] (slice 0 20 b1) with
              | None => StructError
              | Some _ => ValueError
              end
          end
      end
  end.

(** [FedProMessage.clear]: the payload is left as it is. *)
Definition FedProMessage_clear (self : FedProMessage) : FedProMessage :=
  {| my_msg_type := MsgType_value UNKNOWN; my_msg_size := 0;
     fedProMessage.my_session_id := 0; fedProMessage.my_sequence_num := 0;
     my_last_received_msg := 0; my_payload := my_payload self |}.

(** [NewSessionMessage.from_tuple(buffer)]: the session id comes in two
    halves. *)
Definition NewSessionMessage_from_tuple (self : NewSessionMessage) (buffer : list Z)
  : result NewSessionMessage :=
  match buffer with
  | b0 :: b1 :: b2 :: b3 :: b4 :: _ =>
      Ret {| ns_base :=
               {| my_msg_type := my_msg_type (ns_base self);
                  my_msg_size := b0;
                  fedProMessage.my_session_id := Z.lor (Z.shiftl b2 32) b3;
                  fedProMessage.my_sequence_num := b1;
                  my_last_received_msg := my_last_received_msg (ns_base self);
                  my_payload := my_payload (ns_base self) |};
             my_protocol_version := b4 |}
  | _ => Raise IndexError
  end.

(** [NewSessionMessage.from_bytes(buffer)]: [buffer] is one byte string,
    unpacked as ['>IIQQI']; the protocol version is taken from the fourth
    member. *)
Definition NewSessionMessage_from_bytes (self : NewSessionMessage) (buffer : bytes)
  : result NewSessionMessage :=
  match struct_unpack [fmt_I; fmt_I; fmt_Q; fmt_Q; fmt_I] buffer with
  | Some (b0 :: b1 :: b2 :: b3 :: _) =>
      Ret {| ns_base :=
               {| my_msg_type := my_msg_type (ns_base self);
                  my_msg_size := b0;
                  fedProMessage.my_session_id := b2;
                  fedProMessage.my_sequence_num := b1;
                  my_last_received_msg := my_last_received_msg (ns_base self);
                  my_payload := my_payload (ns_base self) |};
             my_protocol_version := b3 |}
  | _ => Raise StructError
  end.

(** [NewSessionStatusMessage.to_bytes]: the parent's format and members,
    followed by one more ['I'] holding the value of the status. *)
Definition NewSessionStatusMessage_to_bytes (m : NewSessionStatusMessage)
  : option bytes :=
  let parent_bytes := package_bytes (nss_base m) in
  struct_pack (fst parent_bytes ++ [fmt_I])
              (snd parent_bytes ++ [SessionStatus_value (my_status m)]).

(** [NewSessionStatusMessage.from_bytes(buffer)]: the base class reads the
    header, then the status is unpacked from [buffer[1][20:]]. *)
Definition NewSessionStatusMessage_from_bytes (self : NewSessionStatusMessage)
    (buffer : list bytes) : result NewSessionStatusMessage :=
  match from_bytes (nss_base self) buffer with
  | None => Raise (from_bytes_exn buffer)
  | Some base =>
      match buffer !! 1%nat with
      | None => Raise IndexError
      | Some b1 =>
          match struct_unpack [fmt_I] (slice_from 20 b1) with
          | Some [v] =>
              match SessionStatus_of_Z v with
              | Some s => Ret {| nss_base := base; my_status := s |}
              | None => Raise ValueError
              end
          | _ => Raise StructError
          end
      end
  end.

(** [NewSessionStatusMessage.clear] *)
Definition NewSessionStatusMessage_clear (self : NewSessionStatusMessage)
  : NewSessionStatusMessage :=
  {| nss_base := FedProMessage_clear (nss_base self); my_status := UNSET |}.

(** [HeartbeatMessage.from_bytes(buffer)]: [buffer] is one byte string,
    unpacked as ['>IIQQ']; the message type is not read. *)
Definition HeartbeatMessage_from_bytes (self : HeartbeatMessage) (buffer : bytes)
  : result HeartbeatMessage :=
  match struct_unpack [fmt_I; fmt_I; fmt_Q; fmt_Q] buffer with
  | Some (b0 :: b1 :: b2 :: _) =>
      Ret {| hb_base :=
               {| my_msg_type := my_msg_type (hb_base self);
                  my_msg_size := b0;
                  fedProMessage.my_session_id := b2;
                  fedProMessage.my_sequence_num := b1;
                  my_last_received_msg := my_last_received_msg (hb_base self);
                  my_payload := my_payload (hb_base self) |} |}
  | _ => Raise StructError
  end.

Section Decoders.
Context `{Protobuf}.

(** [CallRequestMessage.from_bytes(buffer)]: the first 24 bytes of the
    second segment are unpacked as ['>IIQII']. *)
Definition CallRequestMessage_from_bytes (self : CallRequestMessage)
    (buffer : list bytes) : result CallRequestMessage :=
  match buffer !! 1%nat with
  | None => Raise IndexError
  | Some b1 =>
      match struct_unpack [fmt_I; fmt_I; fmt_Q; fmt_I; fmt_I] (slice 0 24 b1) with
      | Some [i0; i1; i2; i3; i4] =>
          match buffer !! 0%nat with
          | None => Raise IndexError
          | Some b0 =>
              match struct_unpack [fmt_I] b0 with
              | Some [size] =>
                  match MsgType_of_Z i3 with
                  | None => Raise ValueError
                  | Some mt =>
                      Ret {| cq_base :=
                               {| my_msg_type := MsgType_value mt;
                                  my_msg_size := size;
                                  fedProMessage.my_session_id := i1;
                                  fedProMessage.my_sequence_num := i0;
                                  my_last_received_msg := i2;
                                  my_payload := my_payload (cq_base self) |};
                             my_request_type := i4;
                             my_request_data := my_request_data self |}
                  end
              | _ => Raise StructError
              end
          end
      | _ => Raise StructError
      end
  end.

End Decoders.

(** The session id field of a frame on the wire: bytes 8 to 16. *)
Definition frame_session_id (frame : bytes) : Z :=
  be_value 0 (slice 8 16 frame).

(** ** msgSocket.py: [fillBuffer] and [get_message]

    What the operating system's socket holds is given from outside, as the
    list of what each call of [recv] meets: the bytes at hand, of which the
    call takes as many as it asked for and leaves the rest for the next
    call; a timeout; or another error.  When the list is used up nothing
    more arrives. *)
Inductive Recv :=
| RecvBytes (chunk : bytes)
| RecvTimeout                  (* [socket.timeout] *)
| RecvError.                   (* another [OSError] *)

Inductive RecvOutcome :=
| Received (data : bytes)
| TimedOut
| Failed.

(** [socket.recv(size)] *)
Definition recv (size : nat) (incoming : list Recv) : RecvOutcome * list Recv :=
  match incoming with
  | [] => (TimedOut, [])
  | RecvTimeout :: rest => (TimedOut, rest)
  | RecvError :: rest => (Failed, rest)
  | RecvBytes chunk :: rest =>
      (Received (firstn size chunk),
       if (length chunk <=? size)%nat then rest
       else RecvBytes (skipn size chunk) :: rest)
  end.

(** The reading side of [MsgSocket]: [my_socket], which is [None] before
    the socket is connected, and [my_recv_buffer], the segments received
    so far. *)
Record RecvSocket := mkRecvSocket {
  recv_socket : option (list Recv);
  my_recv_buffer : list bytes
}.

(** [fillBuffer(size)] *)
Definition fillBuffer (size : nat) (self : RecvSocket) : result bool * RecvSocket :=
  match recv_socket self with
  | None => (Raise AttributeError, self)
  | Some incoming =>
      match recv size incoming with
      | (Received data, incoming') =>
          (Ret true, {| recv_socket := Some incoming';
                        my_recv_buffer := my_recv_buffer self ++ [data] |})
      | (TimedOut, incoming') =>
          (Ret false, {| recv_socket := Some incoming';
                         my_recv_buffer := my_recv_buffer self |})
      | (Failed, incoming') =>
          (Raise OSError, {| recv_socket := Some incoming';
                             my_recv_buffer := my_recv_buffer self |})
      end
  end.

(** [sum(len(item) for item in self.my_recv_buffer)] *)
Definition buffered (buffer : list bytes) : Z :=
  Z.of_nat (length (concat buffer)).

(** The envelope with which [get_message] starts, of type [INVALID * -1],
    and the one it returns when no message is complete. *)
Definition placeholder_message : FedProMessage :=
  FedProMessage_init (MsgType_value INVALID * -1) 0.
Definition no_message : FedProMessage :=
  FedProMessage_init (MsgType_value INVALID) 0.

(** [rcv_msg.from_bytes(self.my_recv_buffer)] inside [get_message] *)
Definition decode_buffer (msg_length : Z) (self : RecvSocket)
  : result (Z * FedProMessage) * RecvSocket :=
  match from_bytes placeholder_message (my_recv_buffer self) with
  | Some m => (Ret (msg_length, m), self)
  | None => (Raise (from_bytes_exn (my_recv_buffer self)), self)
  end.

(** The first part of the body of [get_message], after the first
    [fillBuffer] has returned [True]: the declared length and the
    envelope. *)
Definition read_segments (self : RecvSocket)
  : result (Z * FedProMessage) * RecvSocket :=
  if (length (my_recv_buffer self) <? 3)%nat then
    match my_recv_buffer self !! 0%nat with
    | None => (Raise IndexError, self)
    | Some b0 =>
        match struct_unpack [fmt_I] b0 with
        | Some [msg_length] =>
            if 24 <=? msg_length then
              match fillBuffer (Z.to_nat (msg_length - 4)) self with
              | (Raise e, self') => (Raise e, self')
              | (Ret _, self') => decode_buffer msg_length self'
              end
            else (Ret (msg_length, placeholder_message), self)
        | _ => (Raise StructError, self)
        end
    end
  else decode_buffer 0 self.

(** [get_message(wait_interval)]; the [except error] clause logs and
    raises again. *)
Definition get_message (self : RecvSocket) : result FedProMessage * RecvSocket :=
  match recv_socket self with
  | None => (Raise (FedProSocketError "Socket is None, cannot get message"), self)
  | Some _ =>
      match fillBuffer 4 self with
      | (Raise e, self1) => (Raise e, self1)
      | (Ret false, self1) => (Ret no_message, self1)
      | (Ret true, self1) =>
          match read_segments self1 with
          | (Raise e, self2) => (Raise e, self2)
          | (Ret (msg_length, rcv_msg), self2) =>
              if msg_length =? buffered (my_recv_buffer self2) then
                (Ret rcv_msg, {| recv_socket := recv_socket self2;
                                 my_recv_buffer := [] |})
              else if msg_length <? buffered (my_recv_buffer self2) then
                (Raise (FedProMessageError "Received message larger than expected"),
                 self2)
              else (Ret no_message, self2)
          end
      end
  end.

(** [n] calls of [get_message], one after the other, with their results. *)
Fixpoint get_messages (n : nat) (self : RecvSocket)
  : list (result FedProMessage) * RecvSocket :=
  match n with
  | O => ([], self)
  | S n' =>
      let '(r, self1) := get_message self in
      let '(rs, self2) := get_messages n' self1 in
      (r :: rs, self2)
  end.

(** The states of the buffer from which no message is returned any more:
    two or more segments are left over, or one that is not four bytes long
    or declares a length of 24 or more. *)
Definition stuck (buffer : list bytes) : Prop :=
  (2 <= length buffer)%nat \/
  exists b0, buffer = [b0] /\ (length b0 <> 4%nat \/ 24 <= be_value 0 b0).

(** What [read_and_process] makes of a result of [get_message] that is no
    message: the envelope of type [INVALID], which it skips, or an
    exception. *)
Definition undelivered (r : result FedProMessage) : Prop :=
  r = Ret no_message \/ exists e, r = Raise e.

(** ** fedProMessageHandler.py: unregistering a callback; what a run keeps *)

Section HandlerInvariants.
Context `{Protobuf}.

(** [remove_callback_request_callback(request_field_number)] *)
Definition remove_callback_request_callback (request_field_number : Z)
    (self : FedProMsgHandler) : FedProMsgHandler :=
  match my_callback_functions self !! request_field_number with
  | Some _ =>
      set_my_callback_functions
        (delete request_field_number (my_callback_functions self)) self
  | None => self
  end.

(** The attribute handle maps of the host's data, when a federate
    ambassador is attached. *)
Definition attr_maps (st : FedProMsgHandler)
  : option (gmap bytes (gmap string bytes) * gmap bytes (gmap bytes string)) :=
  match federate_ambassador_handler st with
  | Some fa =>
      let d := my_data (my_Federate_Ambassador fa) in
      Some (my_attr_name_handles d, my_attr_handle_names d)
  | None => None
  end.

(** [steady st st']: what no run of the engine undoes or touches between
    [st] and [st']: the queueing and connection flags, the dispatch table
    and the attribute handle maps are the same, and the queue of callback
    requests, the frames sent and the record of ambassador invocations have
    only grown. *)
Record steady (st st' : FedProMsgHandler) : Prop := mk_steady {
  sd_flag : my_queue_callback_requests st' = my_queue_callback_requests st;
  sd_enable : my_enable_callback_requests st' = my_enable_callback_requests st;
  sd_ok : my_is_connection_ok st' = my_is_connection_ok st;
  sd_connected : sock_connected (my_socket st') = sock_connected (my_socket st);
  sd_table : my_callback_functions st' = my_callback_functions st;
  sd_attr : attr_maps st' = attr_maps st;
  sd_queue : exists q, my_callback_request_queue st'
                       = my_callback_request_queue st ++ q;
  sd_sent : exists fs, sock_sent (my_socket st') = sock_sent (my_socket st) ++ fs;
  sd_calls : exists cs, ambassador_calls st' = ambassador_calls st ++ cs
}.

End HandlerInvariants.

(** Tactics for the proofs about [steady] and about the wrappers: a state
    that differs from the one before in fields that [steady] does not
    mention, or that has one more queued request, sent frame or recorded
    invocation; and the wrappers unfolded down to the monad. *)
Ltac steady_step :=
  split; cbn;
  first [ reflexivity
        | exists []; rewrite app_nil_r; reflexivity
        | eexists; reflexivity ].

Ltac unfold_wrappers :=
  unfold report_federation_executions, report_federation_execution_members,
    report_federation_execution_does_not_exist, federate_resigned,
    object_name_reservation_failed, object_instance_name_reservation_succeeded,
    discover_object_instance, remove_object_instance, reflect_attribute_values,
    receive_interaction, guarded, listed_values, reset_interaction_parameter_values,
    try_except, bind, field_of, ret, raise, modify, invoke, any_Exception,
    respond_failure.

(** ** rtiAmbassadorFedPro.py: attribute handles and interactions *)

(** Further members of the generated modules, used by the methods
    below. *)
Class ProtobufCalls `{Protobuf} := {
  getAttributeHandleRequest : bytes -> string -> CallRequest;
  getAttributeHandleResponse_result_data : CallResponse -> bytes;
  GETATTRIBUTEHANDLERESPONSE_FIELD_NUMBER : Z;
  sendInteractionRequest : bytes -> option bytes -> list (bytes * bytes) -> CallRequest;
  SENDINTERACTIONRESPONSE_FIELD_NUMBER : Z
}.

Section FacadeCalls.
Context `{ProtobufCalls}.

(** The handler with the host's data replaced. *)
Definition with_data (d : FederateData) (fa : FederateAmbassadorFedPro)
    (h : FedProMsgHandler) : FedProMsgHandler :=
  set_federate_ambassador_handler
    (Some {| my_Federate_Ambassador :=
               {| behaviour := behaviour (my_Federate_Ambassador fa); my_data := d |};
             fa_session_id := fa_session_id fa |}) h.

(** The two assignments of [get_attribute_handle] into the maps of the
    class: [my_attr_handle_names[class_handle][attribute_handle] =
    attr_name], then [my_attr_name_handles[class_handle][attr_name] =
    attribute_handle]; each raises [KeyError] when the class has no entry,
    the second after the first has taken effect. *)
Definition store_attr_handle (class_handle attribute_handle : bytes)
    (attr_name : string) (h : FedProMsgHandler) : result unit * FedProMsgHandler :=
  match federate_ambassador_handler h with
  | None => (Raise AttributeError, h)
  | Some fa =>
      let d := my_data (my_Federate_Ambassador fa) in
      match my_attr_handle_names d !! class_handle with
      | None => (Raise KeyError, h)
      | Some handle_names =>
          let d1 :=
            {| my_attr_name_handles := my_attr_name_handles d;
               my_attr_handle_names :=
                 <[class_handle := <[attribute_handle := attr_name]> handle_names]>
                   (my_attr_handle_names d);
               my_interaction_parameter_values := my_interaction_parameter_values d |} in
          match my_attr_name_handles d !! class_handle with
          | None => (Raise KeyError, with_data d1 fa h)
          | Some name_handles =>
              (Ret tt,
               with_data
                 {| my_attr_name_handles :=
                      <[class_handle := <[attr_name := attribute_handle]> name_handles]>
                        (my_attr_name_handles d1);
                    my_attr_handle_names := my_attr_handle_names d1;
                    my_interaction_parameter_values :=
                      my_interaction_parameter_values d1 |} fa h)
          end
      end
  end.

(** The handle cached for [attr_name] under [class_handle], if any. *)
Definition cached_attr_handle (class_handle : bytes) (attr_name : string)
    (d : FederateData) : option bytes :=
  match my_attr_name_handles d !! class_handle with
  | Some attr_handle_map => attr_handle_map !! attr_name
  | None => None
  end.

(** [get_attribute_handle(class_handle, attr_name)] *)
Definition get_attribute_handle (evs : list Event) (class_handle : bytes)
    (attr_name : string) (self : rtiAmbassadorFedPro.RtiAmbassadorFedPro)
  : result bytes * rtiAmbassadorFedPro.RtiAmbassadorFedPro * list Event :=
  let set_h := rtiAmbassadorFedPro.set_my_msg_handler in
  match federate_ambassador_handler (rtiAmbassadorFedPro.my_msg_handler self) with
  | None => (Raise AttributeError, self, evs)
  | Some fa =>
      match cached_attr_handle class_handle attr_name
              (my_data (my_Federate_Ambassador fa)) with
      | Some attr_handle => (Ret attr_handle, self, evs)
      | None =>
          let call_request := getAttributeHandleRequest class_handle attr_name in
          match CallRequestMessage_init call_request with
          | Raise e => (Raise e, self, evs)
          | Ret call_request_msg =>
              match send_and_wait evs (ReqCallRequest call_request_msg)
                      (TagInt GETATTRIBUTEHANDLERESPONSE_FIELD_NUMBER)
                      (rtiAmbassadorFedPro.my_msg_handler self) with
              | (Raise e, h, evs') => (Raise e, set_h h self, evs')
              | (Ret true, h, evs') =>
                  match rtiAmbassadorFedPro.response_buf (my_fedPro_response h) with
                  | Raise e => (Raise e, set_h h self, evs')
                  | Ret buf =>
                      let attribute_handle :=
                        getAttributeHandleResponse_result_data buf in
                      match store_attr_handle class_handle attribute_handle
                              attr_name h with
                      | (Raise e, h') => (Raise e, set_h h' self, evs')
                      | (Ret _, h') => (Ret attribute_handle, set_h h' self, evs')
                      end
                  end
              | (Ret false, h, evs') =>
                  match rtiAmbassadorFedPro.log_response (my_fedPro_response h) with
                  | Raise e => (Raise e, set_h h self, evs')
                  | Ret _ =>
                      (Raise (RTIinternalError "Failed to get attribute handle"),
                       set_h h self, evs')
                  end
              end
          end
      end
  end.

(** [except Exception as e] in rtiAmbassadorFedPro.py, whose line 10,
    [import libsrc.rtiUtil.exception as Exception], binds the name to a
    module: when an exception reaches the clause, matching it against
    what is no exception class raises [TypeError], and the body of the
    clause is not run.  A call that never returns reaches no clause. *)
Definition except_Exception (e : exn) : exn :=
  match e with
  | Diverged => Diverged
  | _ => TypeError
  end.

(** [send_interaction(interaction_class_handle, parameter_values,
    user_supplied_tag)]: [send_and_wait] returns a truth value, never
    [None], so the test on its result never holds, and the [return False]
    of the [except Exception] clause is never reached. *)
Definition send_interaction (evs : list Event) (interaction_class_handle : bytes)
    (parameter_values : list (bytes * bytes)) (user_supplied_tag : bytes)
    (self : rtiAmbassadorFedPro.RtiAmbassadorFedPro)
  : result bool * rtiAmbassadorFedPro.RtiAmbassadorFedPro * list Event :=
  if negb (rtiAmbassadorFedPro.my_is_connection_ok self) then
    (Raise (RTIinternalError "RTI Ambassador is not connected"), self, evs)
  else
    let tag := match user_supplied_tag with
               | [] => None
               | _ :: _ => Some user_supplied_tag
               end in
    let call_request :=
      sendInteractionRequest interaction_class_handle tag parameter_values in
    match CallRequestMessage_init call_request with
    | Raise e => (Raise (except_Exception e), self, evs)
    | Ret call_request_msg =>
        match send_and_wait evs (ReqCallRequest call_request_msg)
                (TagInt SENDINTERACTIONRESPONSE_FIELD_NUMBER)
                (rtiAmbassadorFedPro.my_msg_handler self) with
        | (Raise e, h, evs') =>
            (Raise (except_Exception e),
             rtiAmbassadorFedPro.set_my_msg_handler h self, evs')
        | (Ret _, h, evs') =>
            (Ret true, rtiAmbassadorFedPro.set_my_msg_handler h self, evs')
        end
    end.

End FacadeCalls.

(** ** Further samples

    The sample schema completed with the members that the attribute and
    interaction calls use, and envelopes, frames and states on which the
    decoders, the socket's reader and those calls can be run. *)

Definition sample_calls : @ProtobufCalls sample_schema :=
  @Build_ProtobufCalls sample_schema
    (* getAttributeHandleRequest *)
    (fun cls name => x2a :: cls ++ list_byte_of_string name)
    (* getAttributeHandleResponse_result_data *)
    (fun bs => skipn 1 bs)
    (* GETATTRIBUTEHANDLERESPONSE_FIELD_NUMBER *)
    43
    (* sendInteractionRequest *)
    (fun cls tag pvs =>
       x50 :: cls ++ default [] tag ++ concat (map (fun pv => fst pv ++ snd pv) pvs))
    (* SENDINTERACTIONRESPONSE_FIELD_NUMBER *)
    81.

Section MoreSamples.
#[local] Existing Instance sample_schema.
#[local] Existing Instance sample_calls.

(** A session status [OUT_OF_RESOURCES] numbered 1 in session 9, and its
    frame. *)
Definition sample_status : NewSessionStatusMessage :=
  {| nss_base :=
       {| my_msg_type := MsgType_value CTRL_NEW_SESSION_STATUS; my_msg_size := 28;
          fedProMessage.my_session_id := 9; fedProMessage.my_sequence_num := 1;
          my_last_received_msg := 0; my_payload := [] |};
     my_status := OUT_OF_RESOURCES |}.

Definition sample_status_frame : bytes :=
  [x00;x00;x00;x1c; x00;x00;x00;x01; x00;x00;x00;x00;x00;x00;x00;x09;
   x00;x00;x00;x00; x00;x00;x00;x02; x00;x00;x00;x02].

(** The frame of a fresh [NewSessionMessage]. *)
Definition new_session_frame : bytes :=
  [x00;x00;x00;x1c; x00;x00;x00;x00; x00;x00;x00;x00;x00;x00;x00;x00;
   x00;x00;x00;x00; x00;x00;x00;x01; x00;x00;x00;x01].

(** The call request for "Ball" in a session whose id needs more than 32
    bits, numbered 2 with 2 as the last number received, and its frame. *)
Definition wide_call_request : CallRequestMessage :=
  {| cq_base :=
       {| my_msg_type := MsgType_value HLA_CALL_REQUEST; my_msg_size := 29;
          fedProMessage.my_session_id := 2 ^ 32 + 9;
          fedProMessage.my_sequence_num := 2;
          my_last_received_msg := 2; my_payload := [] |};
     my_request_type := 40;
     my_request_data := getObjectClassHandleRequest "Ball" |}.

Definition wide_call_request_frame : bytes :=
  [x00;x00;x00;x1d; x00;x00;x00;x02; x00;x00;x00;x01;x00;x00;x00;x09;
   x00;x00;x00;x02; x00;x00;x00;x14; x28;x42;x61;x6c;x6c].

(** The call request for "Ball" as its constructor builds it. *)
Definition ball_message : CallRequestMessage :=
  {| cq_base := FedProMessage_init (MsgType_value HLA_CALL_REQUEST) 29;
     my_request_type := 40;
     my_request_data := getObjectClassHandleRequest "Ball" |}.

(** The heartbeat that [heartbeat_frame_2] carries, as the base decoder
    reads it. *)
Definition heartbeat_2 : FedProMessage :=
  {| my_msg_type := MsgType_value CTRL_HEARTBEAT; my_msg_size := 24;
     fedProMessage.my_session_id := 9; fedProMessage.my_sequence_num := 2;
     my_last_received_msg := 0; my_payload := [] |}.

(** The frame of the callback response to request 42 in session 9, after
    two messages were received. *)
Definition response_frame_42 : bytes :=
  [x00;x00;x00;x18; x00;x00;x00;x2a; x00;x00;x00;x00;x00;x00;x00;x09;
   x00;x00;x00;x02; x00;x00;x00;x17].

(** A callback request numbered [seq] whose variant, field 99, has no
    wrapper. *)
Definition strange_request (seq : Z) : FedProMessage :=
  inbound HLA_CALLBACK_REQUEST seq [x63; x01; x02; x03].

(** The federate ambassador wrapper of [session_handler]. *)
Definition session_wrapper (amb : FederateAmbassador) : FederateAmbassadorFedPro :=
  {| my_Federate_Ambassador := amb; fa_session_id := 9 |}.

(** A call response numbered [seq] that reports an exception (field 1),
    and one that answers an attribute lookup with the handle [07]
    (field 43). *)
Definition exception_response (seq : Z) : FedProMessage :=
  inbound HLA_CALL_RESPONSE seq [x00;x00;x00;x01; x01; x45].
Definition attribute_response (seq : Z) : FedProMessage :=
  inbound HLA_CALL_RESPONSE seq [x00;x00;x00;x01; x2b; x07].

(** The façade with "Ball" in its caches, and the façade after "Ball" was
    looked up through the RTI. *)
Definition cached_facade : rtiAmbassadorFedPro.RtiAmbassadorFedPro :=
  {| rtiAmbassadorFedPro.my_msg_handler := session_handler obliging_ambassador;
     rtiAmbassadorFedPro.rti_connection := true;
     rtiAmbassadorFedPro.my_is_connection_ok := true;
     rtiAmbassadorFedPro.my_obj_name_handles := {[ "Ball"%string := [xab] ]};
     rtiAmbassadorFedPro.my_obj_handle_names := {[ [xab] := "Ball"%string ]} |}.

Definition ball_facade : rtiAmbassadorFedPro.RtiAmbassadorFedPro :=
  snd (fst (rtiAmbassadorFedPro.get_object_class_handle
              [EvMessage (ball_response 3)] "Ball"
              (facade_of (session_handler obliging_ambassador)))).

(** The request of [send_interaction] for the class [c1] with one
    parameter. *)
Definition interaction_message : CallRequestMessage :=
  {| cq_base := FedProMessage_init (MsgType_value HLA_CALL_REQUEST) 28;
     my_request_type := 80;
     my_request_data := sendInteractionRequest [xc1] None [([x01], [x02])] |}.

End MoreSamples.

(** * Properties *)

(** ** Packing and unpacking *)

Lemma Z_of_byte_of_Z z : Z_of_byte (byte_of_Z z) = z mod 256.
Proof.
  unfold Z_of_byte, byte_of_Z.
  assert (Hr : 0 <= z mod 256 < 256) by (apply Z.mod_pos_bound; lia).
  destruct (Byte.of_N (Z.to_N (z mod 256))) as [b|] eqn:E.
  - apply Byte.to_of_N in E. rewrite E. rewrite Z2N.id; lia.
  - apply Byte.of_N_None_iff in E. lia.
Qed.

Lemma length_be_bytes w z : length (be_bytes w z) = w.
Proof. induction w; simpl; congruence. Qed.

Lemma be_value_be_bytes w z acc :
  be_value acc (be_bytes w z) = acc * 256 ^ Z.of_nat w + z mod 256 ^ Z.of_nat w.
Proof.
  revert acc. induction w as [|w IH]; intros acc.
  - simpl. rewrite Z.mod_1_r. lia.
  - cbn [be_bytes be_value]. rewrite IH, Z_of_byte_of_Z.
    rewrite Nat2Z.inj_succ, Z.pow_succ_r by lia.
    assert (Hp : 0 < 256 ^ Z.of_nat w) by (apply Z.pow_pos_nonneg; lia).
    rewrite (Z.mul_comm 256 (256 ^ Z.of_nat w)).
    rewrite (Z.rem_mul_r z (256 ^ Z.of_nat w) 256) by lia.
    lia.
Qed.

Lemma be_bytes_app a b z :
  be_bytes (a + b) z = be_bytes a (z / 256 ^ Z.of_nat b) ++ be_bytes b z.
Proof.
  induction a as [|a IH]; [reflexivity|].
  cbn [Nat.add be_bytes app]. rewrite IH. f_equal. f_equal.
  assert (Hp : 0 < 256 ^ Z.of_nat b) by (apply Z.pow_pos_nonneg; lia).
  assert (Hq : 0 < 256 ^ Z.of_nat a) by (apply Z.pow_pos_nonneg; lia).
  rewrite Z.div_div by lia.
  rewrite Nat2Z.inj_add, Z.pow_add_r by lia. f_equal. lia.
Qed.

Lemma pack_uint_Some w z bs :
  pack_uint w z = Some bs -> 0 <= z < 256 ^ Z.of_nat w /\ bs = be_bytes w z.
Proof.
  unfold pack_uint. destruct (0 <=? z) eqn:E1; destruct (z <? 256 ^ Z.of_nat w) eqn:E2;
    simpl; intros Heq; try discriminate.
  injection Heq as <-. apply Z.leb_le in E1. apply Z.ltb_lt in E2. auto.
Qed.

(** Unpacking one field from the front of a buffer that starts with the
    digits of a value in range. *)
Lemma struct_unpack_cons c fmt v rest :
  0 <= v < 256 ^ Z.of_nat (fmt_width c) ->
  struct_unpack (c :: fmt) (be_bytes (fmt_width c) v ++ rest) =
  match struct_unpack fmt rest with
  | Some vs => Some (v :: vs)
  | None => None
  end.
Proof.
  intros Hv. cbn [struct_unpack].
  assert (Hlen : (length (be_bytes (fmt_width c) v ++ rest) <? fmt_width c)%nat = false).
  { apply Nat.ltb_ge. rewrite length_app, length_be_bytes. lia. }
  rewrite Hlen.
  rewrite skipn_app, firstn_app, length_be_bytes, Nat.sub_diag.
  rewrite (skipn_all2 (be_bytes _ _)) by (rewrite length_be_bytes; lia).
  rewrite (firstn_all2 (be_bytes _ _)) by (rewrite length_be_bytes; lia).
  cbn [skipn firstn app]. rewrite app_nil_r.
  rewrite be_value_be_bytes, Z.mod_small by lia.
  rewrite Z.mul_0_l, Z.add_0_l. change (drop 0 rest) with rest.
  destruct (struct_unpack fmt rest); reflexivity.
Qed.

(** The two instances of [struct_unpack_cons], with the widths computed. *)
Lemma struct_unpack_I fmt v rest :
  0 <= v < 256 ^ 4 ->
  struct_unpack (fmt_I :: fmt) (be_bytes 4 v ++ rest) =
  match struct_unpack fmt rest with Some vs => Some (v :: vs) | None => None end.
Proof. exact (struct_unpack_cons fmt_I fmt v rest). Qed.

Lemma struct_unpack_Q fmt v rest :
  0 <= v < 256 ^ 8 ->
  struct_unpack (fmt_Q :: fmt) (be_bytes 8 v ++ rest) =
  match struct_unpack fmt rest with Some vs => Some (v :: vs) | None => None end.
Proof. exact (struct_unpack_cons fmt_Q fmt v rest). Qed.

Lemma MsgType_of_Z_value t : MsgType_of_Z (MsgType_value t) = Some t.
Proof. destruct t; reflexivity. Qed.

(** ** The base envelope: [to_bytes] and [from_bytes] *)

Lemma to_bytes_Some m frame :
  to_bytes m = Some frame ->
  (0 <= my_msg_size m < 256 ^ 4 /\ 0 <= fedProMessage.my_sequence_num m < 256 ^ 4 /\
   0 <= fedProMessage.my_session_id m < 256 ^ 8 /\ 0 <= my_msg_type m < 256 ^ 8) /\
  frame = be_bytes 4 (my_msg_size m) ++ be_bytes 4 (fedProMessage.my_sequence_num m) ++
          be_bytes 8 (fedProMessage.my_session_id m) ++ be_bytes 8 (my_msg_type m).
Proof.
  unfold to_bytes. cbn [struct_pack fmt_width]. intros Heq.
  destruct (pack_uint 4 (my_msg_size m)) as [a|] eqn:Ea; [|discriminate].
  destruct (pack_uint 4 (fedProMessage.my_sequence_num m)) as [b|] eqn:Eb; [|discriminate].
  destruct (pack_uint 8 (fedProMessage.my_session_id m)) as [c|] eqn:Ec; [|discriminate].
  destruct (pack_uint 8 (my_msg_type m)) as [d|] eqn:Ed; [|discriminate].
  cbn in Heq. injection Heq as <-.
  apply pack_uint_Some in Ea, Eb, Ec, Ed.
  destruct Ea as [Ha ->], Eb as [Hb ->], Ec as [Hc ->], Ed as [Hd ->].
  rewrite ?app_nil_r. auto.
Qed.

(** [to_bytes] reads four fields only. *)
Lemma to_bytes_ext m m' :
  my_msg_size m' = my_msg_size m ->
  fedProMessage.my_sequence_num m' = fedProMessage.my_sequence_num m ->
  fedProMessage.my_session_id m' = fedProMessage.my_session_id m ->
  my_msg_type m' = my_msg_type m ->
  to_bytes m' = to_bytes m.
Proof. unfold to_bytes. intros -> -> -> ->. reflexivity. Qed.

Lemma MsgType_value_small t : 0 <= MsgType_value t < 256 ^ 4.
Proof. destruct t; cbn; lia. Qed.

(** C3 (as amended).  For every base envelope whose type is a member of
    [MsgType] and whose fields fit the header, [to_bytes] gives a frame that
    [from_bytes] parses, whatever the receiving object held before, into an
    envelope with the same message size, sequence number, session id and
    message type; the parsed last-received number is 0, since the frame of
    the base class has zeros in that slot; and serializing the parsed
    envelope again gives the original frame, byte for byte. *)
Theorem C3_header_roundtrip (m self : FedProMessage) (t : MsgType) (frame : bytes) :
  my_msg_type m = MsgType_value t ->
  to_bytes m = Some frame ->
  exists m',
    from_bytes self (frame_segments frame) = Some m' /\
    my_msg_size m' = my_msg_size m /\
    fedProMessage.my_sequence_num m' = fedProMessage.my_sequence_num m /\
    fedProMessage.my_session_id m' = fedProMessage.my_session_id m /\
    my_msg_type m' = my_msg_type m /\
    my_last_received_msg m' = 0 /\
    to_bytes m' = Some frame.
Proof.
  intros Hty Hpack.
  destruct (to_bytes_Some _ _ Hpack) as [(Hsz & Hsq & Hss & _) Hframe].
  pose proof (MsgType_value_small t) as Ht.
  set (rest := be_bytes 4 (fedProMessage.my_sequence_num m) ++
               be_bytes 8 (fedProMessage.my_session_id m) ++
               be_bytes 4 (my_msg_type m / 256 ^ Z.of_nat 4) ++
               be_bytes 4 (my_msg_type m)).
  assert (Hframe' : frame = be_bytes 4 (my_msg_size m) ++ rest).
  { rewrite Hframe. unfold rest. rewrite <- (be_bytes_app 4 4). reflexivity. }
  assert (Hrest : length rest = 20%nat).
  { unfold rest. rewrite !length_app, !length_be_bytes. reflexivity. }
  assert (Hseg : frame_segments frame = [be_bytes 4 (my_msg_size m); rest]).
  { unfold frame_segments. rewrite Hframe'.
    rewrite firstn_app, skipn_app, length_be_bytes.
    rewrite (firstn_all2 (be_bytes _ _)) by (rewrite length_be_bytes; lia).
    rewrite (skipn_all2 (be_bytes _ _)) by (rewrite length_be_bytes; lia).
    rewrite Nat.sub_diag. change (take 0 rest) with (@nil byte).
    change (drop 0 rest) with rest. rewrite app_nil_r. reflexivity. }
  assert (Hhi : my_msg_type m / 256 ^ Z.of_nat 4 = 0).
  { rewrite Hty. apply Z.div_small. exact Ht. }
  assert (Hslice : slice 0 20 rest = rest).
  { unfold slice. cbn [skipn Nat.sub]. change (drop 0 rest) with rest.
    apply firstn_all2. lia. }
  assert (Hsize : struct_unpack [fmt_I] (be_bytes 4 (my_msg_size m)) = Some [my_msg_size m]).
  { rewrite <- (app_nil_r (be_bytes 4 _)).
    rewrite struct_unpack_I by exact Hsz. reflexivity. }
  assert (Hhdr : struct_unpack [fmt_I; fmt_Q; fmt_I; fmt_I] rest =
                 Some [fedProMessage.my_sequence_num m; fedProMessage.my_session_id m;
                       0; my_msg_type m]).
  { unfold rest. rewrite Hhi.
    rewrite struct_unpack_I by exact Hsq.
    rewrite struct_unpack_Q by exact Hss.
    rewrite struct_unpack_I by lia.
    rewrite <- (app_nil_r (be_bytes 4 (my_msg_type m))).
    rewrite struct_unpack_I by (rewrite Hty; exact Ht).
    reflexivity. }
  eexists. split.
  - unfold from_bytes. rewrite Hseg. cbn [lookup list_lookup mbind option_bind].
    rewrite Hsize. cbn [mbind option_bind]. rewrite Hslice, Hhdr.
    cbn [mbind option_bind]. rewrite Hty, MsgType_of_Z_value.
    cbn [mbind option_bind]. reflexivity.
  - cbn [my_msg_size fedProMessage.my_sequence_num fedProMessage.my_session_id
         my_msg_type my_last_received_msg].
    repeat split; try reflexivity; try (symmetry; exact Hty).
    rewrite <- Hpack. apply to_bytes_ext; cbn; auto.
Qed.

Lemma C3_header_roundtrip_witness :
  my_msg_type C3_sample = MsgType_value CTRL_HEARTBEAT /\
  to_bytes C3_sample = Some C3_sample_frame /\
  exists m',
    from_bytes (FedProMessage_init 0 24) (frame_segments C3_sample_frame) = Some m' /\
    my_msg_size m' = my_msg_size C3_sample /\
    fedProMessage.my_sequence_num m' = fedProMessage.my_sequence_num C3_sample /\
    fedProMessage.my_session_id m' = fedProMessage.my_session_id C3_sample /\
    my_msg_type m' = my_msg_type C3_sample /\
    my_last_received_msg m' = 0 /\
    to_bytes m' = Some C3_sample_frame.
Proof.
  split; [reflexivity|]. split; [vm_compute; reflexivity|].
  apply (C3_header_roundtrip C3_sample (FedProMessage_init 0 24) CTRL_HEARTBEAT
           C3_sample_frame); [reflexivity | vm_compute; reflexivity].
Defined.

(** C3 as stated fails: the last-received number 5 of [C3_sample] is not
    in its frame, and the parsed envelope holds 0. *)
Lemma C3_counterexample :
  ~ (forall m frame m',
        to_bytes m = Some frame ->
        from_bytes (FedProMessage_init 0 24) (frame_segments frame) = Some m' ->
        my_msg_size m' = my_msg_size m /\
        fedProMessage.my_sequence_num m' = fedProMessage.my_sequence_num m /\
        fedProMessage.my_session_id m' = fedProMessage.my_session_id m /\
        my_last_received_msg m' = my_last_received_msg m /\
        my_msg_type m' = my_msg_type m /\
        my_payload m' = my_payload m).
Proof.
  intros Hall.
  destruct (Hall C3_sample C3_sample_frame
              {| my_msg_type := 3; my_msg_size := 24;
                 fedProMessage.my_session_id := 77;
                 fedProMessage.my_sequence_num := 3;
                 my_last_received_msg := 0; my_payload := [] |})
    as (_ & _ & _ & Hlrm & _); [vm_compute; reflexivity | vm_compute; reflexivity |].
  cbn in Hlrm. discriminate.
Qed.

(** C9.  A freshly constructed [NewSessionMessage] (protocol version 1,
    sequence number 0, session id 0) serializes to the 28 bytes of the
    handshake frame of scenario S1. *)
Theorem C9_new_session_frame :
  NewSessionMessage_to_bytes NewSessionMessage_init =
  Some [x00;x00;x00;x1c; x00;x00;x00;x00; x00;x00;x00;x00;x00;x00;x00;x00;
        x00;x00;x00;x00; x00;x00;x00;x01; x00;x00;x00;x01].
Proof. vm_compute. reflexivity. Qed.

(** ** The handler: what a dispatch may change *)

Section HandlerProperties.
Context `{Protobuf}.

Lemma host_only_refl st : host_only st st.
Proof.
  split.
  - destruct st; reflexivity.
  - reflexivity.
  - exists []. rewrite app_nil_r. reflexivity.
  - exists []. rewrite app_nil_r. reflexivity.
  - destruct (federate_ambassador_handler st); congruence.
Qed.

Lemma host_only_trans st1 st2 st3 :
  host_only st1 st2 -> host_only st2 st3 -> host_only st1 st3.
Proof.
  intros [E1 C1 [f1 S1] [c1 A1] H1] [E2 C2 [f2 S2] [c2 A2] H2]. split.
  - rewrite E2 at 1. rewrite E1 at 1. reflexivity.
  - congruence.
  - exists (f1 ++ f2). rewrite S2, S1, app_assoc. reflexivity.
  - exists (c1 ++ c2). rewrite A2, A1, app_assoc. reflexivity.
  - destruct (federate_ambassador_handler st1), (federate_ambassador_handler st2);
      try congruence; auto.
Qed.

Section Preserves.
Variable R : FedProMsgHandler -> FedProMsgHandler -> Prop.
Hypothesis R_refl : forall st, R st st.
Hypothesis R_trans : forall a b c, R a b -> R b c -> R a c.

Lemma preserves_ret {A} (a : A) : preserves R (ret a).
Proof. intros st. apply R_refl. Qed.

Lemma preserves_raise {A} e : preserves R (raise (A := A) e).
Proof. intros st. apply R_refl. Qed.

Lemma preserves_lift {A} (r : result A) : preserves R (lift r).
Proof. intros st. apply R_refl. Qed.

Lemma preserves_get : preserves R get.
Proof. intros st. apply R_refl. Qed.

Lemma preserves_modify f : (forall st, R st (f st)) -> preserves R (modify f).
Proof. intros Hf st. apply Hf. Qed.

Lemma preserves_bind {A B} (c : M A) (k : A -> M B) :
  preserves R c -> (forall a, preserves R (k a)) -> preserves R (bind c k).
Proof.
  intros Hc Hk st. unfold bind. specialize (Hc st).
  destruct (c st) as [[a|e] st1]; cbn in *; [|exact Hc].
  eapply R_trans; [exact Hc | apply Hk].
Qed.

Lemma preserves_try_except {A} (body : M A) caught handler :
  preserves R body -> (forall e, preserves R (handler e)) ->
  preserves R (try_except body caught handler).
Proof.
  intros Hb Hh st. unfold try_except. specialize (Hb st).
  destruct (body st) as [[a|e] st1]; cbn in *; [exact Hb|].
  destruct (caught e); [|exact Hb].
  eapply R_trans; [exact Hb | apply Hh].
Qed.

End Preserves.

Lemma MsgSocket_send_message_host_only msg :
  preserves host_only (MsgSocket_send_message msg).
Proof.
  intros st. unfold MsgSocket_send_message.
  destruct (Request_to_bytes msg) as [frame|]; cbn; [|apply host_only_refl].
  destruct (next_write_fails (my_socket st)); split; cbn;
    try (destruct st; reflexivity); try reflexivity; eauto;
    try (exists []; rewrite app_nil_r; reflexivity);
    destruct (federate_ambassador_handler st); congruence.
Qed.

Lemma send_message_host_only request scr :
  preserves host_only (send_message request scr).
Proof.
  intros st. unfold send_message. unfold bind at 1. unfold get. cbn.
  destruct (is_connected st).
  - apply (preserves_bind host_only host_only_trans).
    + apply MsgSocket_send_message_host_only.
    + intros a. apply preserves_ret, host_only_refl.
  - apply host_only_refl.
Qed.

Lemma send_callback_response_host_only seq succ :
  preserves host_only (send_callback_response seq succ).
Proof.
  unfold send_callback_response.
  apply (preserves_bind host_only host_only_trans).
  - apply send_message_host_only.
  - intros a. apply preserves_ret, host_only_refl.
Qed.

Lemma invoke_host_only meth request : preserves host_only (invoke meth request).
Proof.
  intros st. unfold invoke.
  destruct (federate_ambassador_handler st) as [fa|] eqn:Hfa; [|apply host_only_refl].
  assert (Hst : host_only st
            (set_ambassador_calls
               (ambassador_calls st ++ [{| amb_method := meth; amb_request := request |}])
               st)).
  { split; cbn.
    - destruct st; reflexivity.
    - reflexivity.
    - exists []. rewrite app_nil_r. reflexivity.
    - eauto.
    - rewrite Hfa. congruence. }
  destruct (behaviour _ _ _); exact Hst.
Qed.

Lemma reset_interaction_parameter_values_host_only pf ic st :
  host_only st (reset_interaction_parameter_values pf ic st).
Proof.
  unfold reset_interaction_parameter_values.
  destruct (federate_ambassador_handler st) as [fa|] eqn:Hfa; [|apply host_only_refl].
  split; cbn.
  - destruct st; reflexivity.
  - reflexivity.
  - exists []. rewrite app_nil_r. reflexivity.
  - exists []. rewrite app_nil_r. reflexivity.
  - rewrite Hfa. congruence.
Qed.

Lemma ho_ret {A} (a : A) : preserves host_only (ret a).
Proof. apply preserves_ret, host_only_refl. Qed.

Lemma ho_raise {A} e : preserves host_only (raise (A := A) e).
Proof. apply preserves_raise, host_only_refl. Qed.

Lemma ho_bind {A B} (c : M A) (k : A -> M B) :
  preserves host_only c -> (forall a, preserves host_only (k a)) ->
  preserves host_only (bind c k).
Proof. apply preserves_bind, host_only_trans. Qed.

Lemma ho_try_except {A} (body : M A) caught handler :
  preserves host_only body -> (forall e, preserves host_only (handler e)) ->
  preserves host_only (try_except body caught handler).
Proof. apply preserves_try_except, host_only_trans. Qed.

Lemma ho_field_of message : preserves host_only (field_of message).
Proof. destruct message; [apply ho_ret | apply ho_raise]. Qed.

Lemma ho_listed_values request : preserves host_only (listed_values request).
Proof.
  unfold listed_values.
  destruct (CallbackRequest_values_listed request); [apply ho_ret | apply ho_raise].
Qed.

Lemma ho_respond_failure seq e : preserves host_only (respond_failure seq e).
Proof. apply send_callback_response_host_only. Qed.

Lemma ho_reset pf ic :
  preserves host_only (modify (reset_interaction_parameter_values pf ic)).
Proof. apply preserves_modify, reset_interaction_parameter_values_host_only. Qed.

Create HintDb host discriminated.
#[local] Hint Resolve ho_ret ho_raise ho_bind ho_try_except ho_field_of
  ho_listed_values ho_respond_failure ho_reset send_callback_response_host_only
  invoke_host_only send_message_host_only : host.

Lemma guarded_host_only meth message seq :
  preserves host_only (guarded meth message seq).
Proof. unfold guarded. auto 10 with host. Qed.

#[local] Hint Resolve guarded_host_only : host.

(** Whatever bound method the dispatch table holds, calling it changes the
    host's side only. *)
Lemma call_CallbackMethod_host_only m message seq :
  preserves host_only (call_CallbackMethod m message seq).
Proof.
  destruct m; cbn [call_CallbackMethod];
    unfold connection_lost, report_federation_executions,
      report_federation_execution_members,
      report_federation_execution_does_not_exist, federate_resigned,
      object_name_reservation_failed, object_instance_name_reservation_succeeded,
      discover_object_instance, remove_object_instance, reflect_attribute_values,
      receive_interaction, unknown_callback;
    auto 12 with host.
Qed.

Lemma handle_callback_request_host_only message :
  preserves host_only (handle_callback_request message).
Proof.
  intros st. unfold handle_callback_request. unfold bind at 1. unfold get. cbn.
  destruct (my_callback_functions st !! cbq_hla_msg_type message) as [m|].
  - apply call_CallbackMethod_host_only.
  - destruct (my_callback_functions st !! (-99)) as [m|].
    + apply call_CallbackMethod_host_only.
    + apply host_only_refl.
Qed.

(** ** The handlers and the pending expectation *)

Lemma process_heartbeat_response_expectation hb st :
  let st' := snd (process_heartbeat_response hb st) in
  (expected_type st' = expected_type st /\ expected_number st' = expected_number st)
  \/ (expected_type st' = TagMsgType UNKNOWN /\
      Tag_value (expected_type st) = my_msg_type (hbr_base hb) /\
      expected_number st = fedProMessage.my_sequence_num (hbr_base hb)).
Proof.
  unfold process_heartbeat_response. run_handler; auto.
  right. repeat split; auto; lia.
Qed.

Lemma process_new_session_status_expectation ns st :
  let st' := snd (process_new_session_status ns st) in
  (expected_type st' = expected_type st /\ expected_number st' = expected_number st)
  \/ (expected_type st' = TagMsgType UNKNOWN /\
      Tag_value (expected_type st) = my_msg_type (nss_base ns) /\
      expected_number st = fedProMessage.my_sequence_num (nss_base ns)).
Proof.
  unfold process_new_session_status. run_handler; auto.
  right. repeat split; auto; lia.
Qed.

Lemma process_call_response_expectation cr st :
  let st' := snd (process_call_response cr st) in
  (expected_type st' = expected_type st /\ expected_number st' = expected_number st)
  \/ (expected_type st' = TagMsgType UNKNOWN /\
      1 < crm_hla_msg_type cr /\
      Tag_value (expected_type st) = crm_hla_msg_type cr /\
      expected_number st = fedProMessage.my_sequence_num (crm_base cr))
  \/ expected_type st' = TagInt EXCEPTIONDATA_FIELD_NUMBER.
Proof.
  unfold process_call_response. run_handler; auto.
  right. left. repeat split; auto; lia.
Qed.

#[local] Arguments handle_callback_request : simpl never.

(** [process_callback_request] spelled out. *)
Lemma process_callback_request_unfold cb st :
  process_callback_request cb st =
  let st1 := set_my_fedPro_response (RespCallbackRequest cb) st in
  if my_queue_callback_requests st then
    (Ret false,
     set_my_expected_response_request_number
       (fedProMessage.my_sequence_num (cbq_base cb) + 1)
       (set_my_callback_request_queue (my_callback_request_queue st ++ [cb]) st1))
  else
    match federate_ambassador_handler st with
    | None => (Raise AttributeError, st1)
    | Some _ =>
        match handle_callback_request cb
                (set_my_sequence_num (fedProMessage.my_sequence_num (cbq_base cb)) st1)
        with
        | (Ret _, st2) => (Ret true, st2)
        | (Raise e, st2) => (Raise e, st2)
        end
    end.
Proof.
  unfold process_callback_request, try_except, bind at 1, modify at 1. cbn.
  destruct (my_queue_callback_requests st); [reflexivity|].
  destruct (federate_ambassador_handler st) as [fa|]; [|reflexivity].
  unfold bind at 1, modify at 1. cbn. unfold bind at 1.
  destruct (handle_callback_request cb _) as [[u|e] st2]; cbn; [reflexivity|].
  destruct (AttributeError_or_TypeError e); reflexivity.
Qed.

Lemma process_callback_request_expectation cb st :
  let st' := snd (process_callback_request cb st) in
  expected_type st' = expected_type st /\
  (expected_number st' = expected_number st \/
   expected_number st' = fedProMessage.my_sequence_num (cbq_base cb) + 1).
Proof.
  rewrite process_callback_request_unfold. cbn.
  destruct (my_queue_callback_requests st); [cbn; auto|].
  destruct (federate_ambassador_handler st) as [fa|]; [|cbn; auto].
  match goal with
  | |- context [handle_callback_request cb ?s] =>
      pose proof (handle_callback_request_host_only cb s) as Hh; cbn in Hh;
      destruct (handle_callback_request cb s) as [[u|e] st2]
  end; cbn in *; rewrite (ho_rest _ _ Hh); cbn; auto.
Qed.

(** ** Reading one message *)

Lemma MsgType_of_Z_Some n t : MsgType_of_Z n = Some t -> MsgType_value t = n.
Proof.
  unfold MsgType_of_Z. intros Hf. apply find_some in Hf as [_ Hv].
  apply Z.eqb_eq in Hv. exact Hv.
Qed.

Lemma msg_types_Some ty entry :
  msg_types ty = Some entry ->
  ty = match entry with
       | E_NEW_SESSION_STATUS => 2
       | E_HEARTBEAT_RESPONSE => 4
       | E_SESSION_TERMINATED => 7
       | E_CALL_RESPONSE => 21
       | E_CALLBACK_REQUEST => 22
       end.
Proof.
  unfold msg_types. destruct (MsgType_of_Z ty) as [t|] eqn:Ht; [|discriminate].
  apply MsgType_of_Z_Some in Ht. subst ty.
  destruct t; intros Heq; simplify_eq; reflexivity.
Qed.

(** [cast_and_handle] and [process_message] spelled out. *)
Lemma cast_and_handle_unfold entry message st :
  cast_and_handle entry message st =
  match entry with
  | E_NEW_SESSION_STATUS =>
      match NewSessionStatusMessage_init message with
      | Raise e => (Raise e, st)
      | Ret m =>
          process_new_session_status m
            (set_my_last_received_message_number
               (fedProMessage.my_sequence_num (nss_base m)) st)
      end
  | E_HEARTBEAT_RESPONSE =>
      process_heartbeat_response (HeartbeatResponseMessage_init message)
        (set_my_last_received_message_number
           (fedProMessage.my_sequence_num message) st)
  | E_SESSION_TERMINATED =>
      (Raise KeyError, set_my_last_received_message_number 0 st)
  | E_CALL_RESPONSE =>
      match CallResponseMessage_init message with
      | Raise e => (Raise e, st)
      | Ret m =>
          process_call_response m
            (set_my_last_received_message_number
               (fedProMessage.my_sequence_num (crm_base m)) st)
      end
  | E_CALLBACK_REQUEST =>
      match CallbackRequestMessage_init message with
      | Raise e => (Raise e, st)
      | Ret m =>
          process_callback_request m
            (set_my_last_received_message_number
               (fedProMessage.my_sequence_num (cbq_base m)) st)
      end
  end.
Proof.
  destruct entry; cbn [cast_and_handle]; unfold bind at 1, lift, modify; cbn;
    try reflexivity.
Qed.

Lemma process_message_unfold message st :
  process_message message st =
  if negb (my_msg_type message =? MsgType_value INVALID) && (0 <=? my_msg_size message)
  then
    match msg_types (my_msg_type message) with
    | None => (Raise (FedProMessageError "Unexpected message type"), st)
    | Some entry =>
        match cast_and_handle entry message st with
        | (Ret got_message, st1) =>
            (Ret (true, got_message), set_my_sequence_num (my_sequence_num st1 + 1) st1)
        | (Raise e, st1) => (Raise e, st1)
        end
    end
  else (Ret (false, false), st).
Proof.
  unfold process_message.
  destruct (negb _ && _); [|reflexivity].
  destruct (msg_types _) as [entry|]; [|reflexivity].
  unfold bind at 1. destruct (cast_and_handle entry message st) as [[g|e] st1];
    reflexivity.
Qed.

#[local] Opaque process_new_session_status process_heartbeat_response
  process_call_response process_callback_request.

Lemma process_message_expectation m st :
  let st' := snd (process_message m st) in
  (expected_type st' = expected_type st /\
   (expected_number st' = expected_number st \/
    exists s, callback_request_seq m = Some s /\ expected_number st' = s + 1))
  \/ (expected_type st' = TagMsgType UNKNOWN /\
      1 < Tag_value (expected_type st) /\
      inbound_tag_seq m = Some (Tag_value (expected_type st), expected_number st))
  \/ expected_type st' = TagInt EXCEPTIONDATA_FIELD_NUMBER.
Proof.
  rewrite process_message_unfold. unfold inbound_tag_seq, callback_request_seq.
  destruct (negb _ && _) eqn:Hfilter; [|cbn; auto].
  destruct (msg_types (my_msg_type m)) as [entry|] eqn:Hentry; [|cbn; auto].
  pose proof (msg_types_Some _ _ Hentry) as Hty.
  rewrite cast_and_handle_unfold. destruct entry.
  - destruct (NewSessionStatusMessage_init m) as [ns|e] eqn:Hinit; [|cbn; auto].
    assert (Hns : my_msg_type (nss_base ns) = 2).
    { unfold NewSessionStatusMessage_init in Hinit.
      repeat case_match; simplify_eq; cbn; auto. }
    match goal with |- context [process_new_session_status ns ?s] =>
      pose proof (process_new_session_status_expectation ns s) as Hh;
      destruct (process_new_session_status ns s) as [[g|e] st1] end;
      cbn in *; destruct Hh as [[-> ->]|(-> & Ht & Hn)]; auto;
      right; left; (split; [reflexivity|]); rewrite Ht, Hn; (split; [lia|reflexivity]).
  - match goal with |- context [process_heartbeat_response ?hb ?s] =>
      pose proof (process_heartbeat_response_expectation hb s) as Hh;
      destruct (process_heartbeat_response hb s) as [[g|e] st1] end;
      cbn in *; destruct Hh as [[-> ->]|(-> & Ht & Hn)]; auto;
      right; left; (split; [reflexivity|]); rewrite Ht, Hn; (split; [lia|reflexivity]).
  - cbn. auto.
  - destruct (CallResponseMessage_init m) as [cr|e] eqn:Hinit; [|cbn; auto].
    match goal with |- context [process_call_response cr ?s] =>
      pose proof (process_call_response_expectation cr s) as Hh;
      destruct (process_call_response cr s) as [[g|e] st1] end;
      cbn in *; destruct Hh as [[-> ->]|[(-> & Hgt & Ht & Hn)| ->]]; auto;
      right; left; (split; [reflexivity|]); rewrite Ht, Hn; (split; [lia|reflexivity]).
  - destruct (CallbackRequestMessage_init m) as [cb|e] eqn:Hinit; [|cbn; auto].
    match goal with |- context [process_callback_request cb ?s] =>
      pose proof (process_callback_request_expectation cb s) as Hh;
      destruct (process_callback_request cb s) as [[g|e] st1] end;
      cbn in *; destruct Hh as [Ht [Hn|Hn]]; rewrite Ht, Hn; auto;
      left; (split; [reflexivity|]); right; eexists; split; reflexivity.
Qed.

(** ** The expectation during a wait *)

Lemma waiting_step all tag n0 m st :
  EXCEPTIONDATA_FIELD_NUMBER <= 1 ->
  In (EvMessage m) all ->
  waiting all tag n0 st ->
  waiting all tag n0 (snd (process_message m st)).
Proof.
  intros Hexc Hin Hw.
  destruct (process_message_expectation m st)
    as [[Ht Hn]|[(Ht & Hgt & Hacc)|Ht]]; unfold waiting.
  - rewrite Ht. destruct Hw as [[Hw Hp]|[[Hw Ha]|Hw]]; auto.
    left. split; [exact Hw|].
    destruct Hn as [->|(s & Hs & ->)]; [exact Hp|].
    right. exists m, s. auto.
  - destruct Hw as [[Hw Hp]|[[Hw Ha]|Hw]].
    + right; left. split; [exact Ht|]. subst tag. exists m, (expected_number st). auto.
    + rewrite Hw in Hgt. cbn in Hgt. lia.
    + rewrite Hw in Hgt. cbn in Hgt. lia.
  - auto.
Qed.

Lemma waiting_read_loop all tag n0 evs :
  EXCEPTIONDATA_FIELD_NUMBER <= 1 ->
  forall count st,
  incl evs all ->
  waiting all tag n0 st ->
  waiting all tag n0 (snd (fst (read_loop evs count st))) /\
  incl (snd (read_loop evs count st)) all.
Proof.
  intros Hexc. induction evs as [|ev evs IH]; intros count st Hincl Hw.
  - cbn. destruct (negb (is_connected st)); cbn; auto.
  - assert (Hincl' : incl evs all) by (intros x Hx; apply Hincl; right; exact Hx).
    cbn [read_loop]. destruct (negb (is_connected st)); [cbn; auto|].
    destruct ev as [|m| |e]; cbn; auto.
    pose proof (waiting_step all tag n0 m st Hexc (Hincl _ (or_introl eq_refl)) Hw) as Hs.
    destruct (process_message m st) as [[[counted got]|e] st1]; cbn in *; auto.
    destruct got; cbn; auto.
Qed.

Lemma waiting_read_and_process all tag n0 evs st :
  EXCEPTIONDATA_FIELD_NUMBER <= 1 ->
  incl evs all ->
  waiting all tag n0 st ->
  waiting all tag n0 (snd (fst (read_and_process evs st))) /\
  incl (snd (read_and_process evs st)) all.
Proof.
  intros Hexc Hincl Hw. unfold read_and_process.
  destruct (negb (is_connected st)); [cbn; auto|].
  pose proof (waiting_read_loop all tag n0 evs Hexc 0 st Hincl Hw) as Hl.
  destruct (read_loop evs 0 st) as [[[n|e] st1] evs1]; cbn in *; auto.
  destruct (caught_by_read_and_process e); cbn; auto.
Qed.

(** The loop keeps the stage, and the flag it hands back is the one of the
    state it hands back. *)
Lemma waiting_poll_loop all tag n0 fuel :
  EXCEPTIONDATA_FIELD_NUMBER <= 1 ->
  forall evs st read_ok r st' evs',
  incl evs all ->
  waiting all tag n0 st ->
  poll_loop fuel evs st read_ok (got_response_of st) = Some (r, st', evs') ->
  waiting all tag n0 st' /\
  forall ro gr, r = Ret (ro, gr) -> gr = got_response_of st'.
Proof.
  intros Hexc. induction fuel as [|fuel IH];
    intros evs st read_ok r st' evs' Hincl Hw Hrun; cbn [poll_loop] in Hrun.
  - destruct (read_ok && negb (got_response_of st)); simplify_eq.
    split; [exact Hw|]. intros ro gr Heq. simplify_eq. reflexivity.
  - destruct (read_ok && negb (got_response_of st)).
    + pose proof (waiting_read_and_process all tag n0 evs st Hexc Hincl Hw) as [Hw1 Hi1].
      destruct (read_and_process evs st) as [[[n|e] st1] evs1]; cbn in *.
      * eapply IH; eauto.
      * simplify_eq. split; [exact Hw1|]. intros ro gr Heq. discriminate.
    + simplify_eq. split; [exact Hw|]. intros ro gr Heq. simplify_eq. reflexivity.
Qed.

(** ** The polling loop ends *)

Lemma read_loop_length evs :
  forall count st,
  (length (snd (read_loop evs count st)) <= length evs)%nat /\
  (is_connected st = true -> evs <> [] ->
   (length (snd (read_loop evs count st)) < length evs)%nat).
Proof.
  induction evs as [|ev evs IH]; intros count st.
  - cbn. destruct (negb (is_connected st)); cbn; split; auto; congruence.
  - cbn [read_loop]. destruct (is_connected st) eqn:Hc; cbn [negb].
    + assert (Hlt : (length (snd (read_loop (ev :: evs) count st)) < length (ev :: evs))%nat).
      { cbn [read_loop]. rewrite Hc. cbn [negb].
        destruct ev as [|m| |e]; cbn; try lia.
        - destruct (process_message m st) as [[[counted got]|e] st1]; cbn; try lia.
          destruct got; cbn; try lia.
          destruct (IH (if counted then count + 1 else count) st1) as [Hle _]. lia.
        - destruct (IH count st) as [Hle _]. lia. }
      cbn [read_loop] in Hlt. rewrite Hc in Hlt. cbn [negb] in Hlt.
      split; [lia | auto].
    + cbn. split; [lia | congruence].
Qed.

(** A read that reports no error has taken at least one event, when
    there was one. *)
Lemma read_and_process_consumes evs st n st' evs' :
  read_and_process evs st = (Ret n, st', evs') ->
  0 <= n ->
  evs <> [] ->
  (length evs' < length evs)%nat.
Proof.
  unfold read_and_process. destruct (is_connected st) eqn:Hc; cbn [negb].
  - intros Hrun Hn Hevs.
    destruct (read_loop_length evs 0 st) as [_ Hlt].
    specialize (Hlt Hc Hevs).
    destruct (read_loop evs 0 st) as [[[k|e] st1] evs1]; cbn in *.
    + simplify_eq. exact Hlt.
    + destruct (caught_by_read_and_process e); simplify_eq; try lia.
  - intros Hrun Hn. simplify_eq. lia.
Qed.

(** On a silent socket a read changes nothing: it returns 0 when the
    deadline has passed, or -1 at once when the handler is not connected. *)
Lemma read_and_process_silent st :
  read_and_process [] st = (Ret (if is_connected st then 0 else -1), st, []).
Proof.
  unfold read_and_process. cbn [read_loop].
  destruct (is_connected st); reflexivity.
Qed.

(** On a silent socket the wait for a response that is still pending goes
    on, whatever the fuel. *)
Lemma poll_loop_silent st :
  is_connected st = true ->
  got_response_of st = false ->
  forall fuel, poll_loop fuel [] st true false = None.
Proof.
  intros Hc Hg fuel. induction fuel as [|fuel IH]; cbn [poll_loop andb negb];
    [reflexivity|].
  rewrite read_and_process_silent, Hc, Hg. exact IH.
Qed.

(** With more fuel than events, the loop that uses up its fuel is one that
    never ends: it uses up any other fuel as well. *)
Lemma poll_loop_fuel fuel :
  forall evs st read_ok got_response,
  (length evs < fuel)%nat ->
  poll_loop fuel evs st read_ok got_response = None ->
  forall fuel', poll_loop fuel' evs st read_ok got_response = None.
Proof.
  induction fuel as [|fuel IH]; intros evs st read_ok got_response Hfuel Hrun;
    [lia|].
  cbn [poll_loop] in Hrun.
  destruct (read_ok && negb got_response) eqn:Hgo; [|discriminate].
  destruct (read_and_process evs st) as [[[n|e] st1] evs1] eqn:Hread;
    [|discriminate].
  assert (Hok : (0 <=? n) = true).
  { destruct (0 <=? n); [reflexivity|].
    destruct fuel; cbn in Hrun; discriminate. }
  rewrite Hok in Hrun.
  assert (Hg : got_response_of st1 = false).
  { destruct (got_response_of st1); [|reflexivity].
    destruct fuel; cbn in Hrun; discriminate. }
  rewrite Hg in Hrun.
  assert (Hall : forall fuel', poll_loop fuel' evs1 st1 true false = None).
  { destruct evs as [|ev evs].
    - rewrite read_and_process_silent in Hread.
      destruct (is_connected st) eqn:Hc; simplify_eq.
      apply poll_loop_silent; assumption.
    - apply Z.leb_le in Hok.
      pose proof (read_and_process_consumes _ _ _ _ _ Hread Hok
                    ltac:(discriminate)) as Hlt.
      assert (Hlt' : (length evs1 < fuel)%nat) by (cbn [length] in *; lia).
      exact (IH evs1 st1 true false Hlt' Hrun). }
  intros [|fuel']; cbn [poll_loop]; rewrite Hgo; [reflexivity|].
  rewrite Hread, Hok, Hg. apply Hall.
Qed.

(** ** C1 *)

Lemma send_message_keeps request scr st :
  let st' := snd (send_message request scr st) in
  my_last_received_message_number st' = my_last_received_message_number st /\
  my_sequence_num st' = my_sequence_num st /\
  my_queue_callback_requests st' = my_queue_callback_requests st /\
  ambassador_calls st' = ambassador_calls st /\
  my_is_connection_ok st' = my_is_connection_ok st.
Proof.
  unfold send_message, bind, get, MsgSocket_send_message, ret. cbn.
  repeat case_match; simplify_eq; cbn; auto.
Qed.

(** C1 (as amended).  When [send_and_wait], called for a response tag that
    is not [MsgType.UNKNOWN], returns [True], some envelope among those that
    came in carried that tag together with the sequence number that the
    pending expectation held: one more than the last sequence number
    received before the call, or one more than the sequence number of a
    callback request that came in during the wait.  The number minted for
    the outbound request plays no part.  (The field number of exception
    data is taken to be at most 1, as the handler's own test
    [my_hla_msg_type > 1] for proper responses presupposes.) *)
Theorem C1_accepted_response_matches_expectation
    (evs : list Event) (request : Request) (tag : Tag) (st : FedProMsgHandler) :
  EXCEPTIONDATA_FIELD_NUMBER <= 1 ->
  is_UNKNOWN tag = false ->
  fst (fst (send_and_wait evs request tag st)) = Ret true ->
  exists m n,
    In (EvMessage m) evs /\
    inbound_tag_seq m = Some (Tag_value tag, n) /\
    (n = my_last_received_message_number st + 1 \/
     exists cb s, In (EvMessage cb) evs /\ callback_request_seq cb = Some s /\
                  n = s + 1).
Proof.
  intros Hexc Htag Hrun. unfold send_and_wait in Hrun.
  destruct (send_message_keeps request false st) as (Hlast & _).
  destruct (send_message request false st) as [[sent|e] st0]; cbn in *;
    [|discriminate].
  destruct (sent =? -1); [discriminate|].
  unfold poll_for_call_response in Hrun.
  set (n0 := my_last_received_message_number st + 1) in *.
  set (st1 := set_my_expected_response_type tag _) in Hrun.
  assert (Hw : waiting evs tag n0 st1).
  { left. subst st1. cbn. rewrite Hlast. split; [reflexivity | left; reflexivity]. }
  destruct (waiting_read_and_process evs tag n0 evs st1 Hexc (incl_refl _) Hw)
    as [Hw2 Hi2].
  destruct (read_and_process evs st1) as [[[k|e] st2] evs2]; cbn [fst snd] in *;
    [|discriminate].
  destruct (poll_loop (S (length evs2)) evs2 st2 (0 <=? k) (got_response_of st2))
    as [[[r st3] evs3]|] eqn:Hp; [|discriminate].
  destruct (waiting_poll_loop evs tag n0 _ Hexc _ _ _ _ _ _ Hi2 Hw2 Hp) as [Hw3 Hgr].
  destruct r as [[ro gr]|e]; [|discriminate].
  specialize (Hgr ro gr eq_refl). subst gr.
  unfold poll_finish in Hrun. cbn in Hrun.
  destruct (is_EXCEPTIONDATA (expected_type st3)) eqn:Hx; cbn in Hrun;
    [discriminate|].
  destruct (got_response_of st3) eqn:Hg; cbn in Hrun; [|discriminate].
  unfold got_response_of in Hg. rewrite Hx, orb_false_r in Hg.
  destruct Hw3 as [[Ht _]|[[_ Ha]|Ht]].
  - rewrite Ht in Hg. congruence.
  - exact Ha.
  - rewrite Ht in Hx. cbn in Hx. rewrite Z.eqb_refl in Hx. discriminate.
Qed.

(** ** Reading while callbacks are queued *)

Lemma quiet_refl st : quiet st st.
Proof. split; auto; lia. Qed.

Lemma quiet_trans st1 st2 st3 : quiet st1 st2 -> quiet st2 st3 -> quiet st1 st3.
Proof.
  intros [F1 S1 C1 O1 L1 A1] [F2 S2 C2 O2 L2 A2].
  split; try congruence; try lia.
  destruct A1 as [A1|A1], A2 as [A2|A2]; try (right; lia). left. congruence.
Qed.

#[local] Transparent process_new_session_status process_heartbeat_response
  process_call_response.

Lemma process_heartbeat_response_handled hb st :
  handled st (process_heartbeat_response hb st).
Proof.
  unfold handled, process_heartbeat_response. run_handler; repeat split; eauto.
Qed.

Lemma process_new_session_status_handled ns st :
  handled st (process_new_session_status ns st).
Proof.
  unfold handled, process_new_session_status. run_handler; repeat split; eauto.
Qed.

Lemma process_call_response_handled cr st :
  handled st (process_call_response cr st).
Proof.
  unfold handled, process_call_response. run_handler; repeat split; eauto.
Qed.

Lemma process_callback_request_handled cb st :
  my_queue_callback_requests st = true ->
  handled st (process_callback_request cb st).
Proof.
  intros Hq. unfold handled. rewrite process_callback_request_unfold, Hq. cbn.
  repeat split; auto.
Qed.

#[local] Opaque process_new_session_status process_heartbeat_response
  process_call_response.

Lemma process_message_quiet m st :
  my_queue_callback_requests st = true ->
  quiet st (snd (process_message m st)).
Proof.
  intros Hq. rewrite process_message_unfold.
  destruct (negb _ && _); [|apply quiet_refl].
  destruct (msg_types (my_msg_type m)) as [entry|]; [|apply quiet_refl].
  rewrite cast_and_handle_unfold.
  assert (Hdone : forall (s : FedProMsgHandler) (out : result bool * FedProMsgHandler),
             quiet st s -> my_sequence_num s = my_sequence_num st ->
             is_UNKNOWN (expected_type s) = is_UNKNOWN (expected_type st) ->
             handled s out ->
             quiet st (snd (let '(r, st1) := out in
                            match r with
                            | Ret g => (Ret (true, g),
                                        set_my_sequence_num (my_sequence_num st1 + 1) st1)
                            | Raise e => (Raise e, st1)
                            end))).
  { intros s [[g|e] st1] [F S C O L A] Hs Hu (F1 & S1 & C1 & O1 & L1 & A1);
      cbn in *; split; cbn; try congruence; try lia.
    destruct A1 as [A1|[a Ha]]; [left; congruence | discriminate]. }
  destruct entry.
  - destruct (NewSessionStatusMessage_init m) as [ns|e]; [|apply quiet_refl].
    match goal with |- context [process_new_session_status ns ?s] =>
      apply (Hdone s); try reflexivity; [split; cbn; auto; lia|] end.
    apply process_new_session_status_handled.
  - match goal with |- context [process_heartbeat_response ?hb ?s] =>
      apply (Hdone s); try reflexivity; [split; cbn; auto; lia|] end.
    apply process_heartbeat_response_handled.
  - split; cbn; auto; lia.
  - destruct (CallResponseMessage_init m) as [cr|e]; [|apply quiet_refl].
    match goal with |- context [process_call_response cr ?s] =>
      apply (Hdone s); try reflexivity; [split; cbn; auto; lia|] end.
    apply process_call_response_handled.
  - destruct (CallbackRequestMessage_init m) as [cb|e]; [|apply quiet_refl].
    match goal with |- context [process_callback_request cb ?s] =>
      apply (Hdone s); try reflexivity; [split; cbn; auto; lia|] end.
    apply process_callback_request_handled. exact Hq.
Qed.

Lemma read_loop_quiet evs :
  forall count st,
  my_queue_callback_requests st = true ->
  quiet st (snd (fst (read_loop evs count st))).
Proof.
  induction evs as [|ev evs IH]; intros count st Hq; cbn [read_loop].
  - destruct (negb (is_connected st)); apply quiet_refl.
  - destruct (negb (is_connected st)); [apply quiet_refl|].
    destruct ev as [|m| |e]; try apply quiet_refl; [|apply IH; exact Hq].
    pose proof (process_message_quiet m st Hq) as Hs.
    destruct (process_message m st) as [[[counted got]|e] st1]; cbn in *; auto.
    destruct got; cbn; auto.
    eapply quiet_trans; [exact Hs|]. apply IH.
    rewrite (q_flag _ _ Hs). exact Hq.
Qed.

Lemma read_and_process_quiet evs st :
  my_queue_callback_requests st = true ->
  quiet st (snd (fst (read_and_process evs st))).
Proof.
  intros Hq. unfold read_and_process.
  destruct (negb (is_connected st)); [apply quiet_refl|].
  pose proof (read_loop_quiet evs 0 st Hq) as Hl.
  destruct (read_loop evs 0 st) as [[[n|e] st1] evs1]; cbn in *; auto.
  destruct (caught_by_read_and_process e); cbn; auto.
Qed.

Lemma poll_loop_quiet fuel :
  forall evs st read_ok got_response r st' evs',
  my_queue_callback_requests st = true ->
  poll_loop fuel evs st read_ok got_response = Some (r, st', evs') ->
  quiet st st'.
Proof.
  induction fuel as [|fuel IH]; intros evs st read_ok got_response r st' evs' Hq Hrun;
    cbn [poll_loop] in Hrun.
  - destruct (read_ok && negb got_response); simplify_eq. apply quiet_refl.
  - destruct (read_ok && negb got_response); [|simplify_eq; apply quiet_refl].
    pose proof (read_and_process_quiet evs st Hq) as Hr.
    destruct (read_and_process evs st) as [[[n|e] st1] evs1]; cbn in *.
    + eapply quiet_trans; [exact Hr|]. eapply IH; [|exact Hrun].
      rewrite (q_flag _ _ Hr). exact Hq.
    + simplify_eq. exact Hr.
Qed.

(** The flag that the loop hands back is the one of its final state. *)
Lemma poll_loop_got_response fuel :
  forall evs st read_ok ro gr st' evs',
  poll_loop fuel evs st read_ok (got_response_of st) = Some (Ret (ro, gr), st', evs') ->
  gr = got_response_of st'.
Proof.
  induction fuel as [|fuel IH]; intros evs st read_ok ro gr st' evs' Hrun;
    cbn [poll_loop] in Hrun.
  - destruct (read_ok && negb (got_response_of st)); simplify_eq. reflexivity.
  - destruct (read_ok && negb (got_response_of st)); [|simplify_eq; reflexivity].
    destruct (read_and_process evs st) as [[[n|e] st1] evs1]; [|discriminate].
    eapply IH. exact Hrun.
Qed.

(** ** Sequence numbers on the wire *)

Lemma frame_sequence_num_pack fmt a b vals bs extra :
  struct_pack (fmt_I :: fmt_I :: fmt) (a :: b :: vals) = Some bs ->
  frame_sequence_num (bs ++ extra) = b.
Proof.
  cbn [struct_pack fmt_width]. intros Hp.
  destruct (pack_uint 4 a) as [ba|] eqn:Ea; [|discriminate].
  destruct (pack_uint 4 b) as [bb|] eqn:Eb; [|discriminate].
  destruct (struct_pack fmt vals) as [rest|]; [|discriminate].
  cbn in Hp. injection Hp as <-.
  apply pack_uint_Some in Ea as [_ ->], Eb as [Hb ->].
  unfold frame_sequence_num, slice.
  rewrite <- !app_assoc.
  rewrite skipn_app, length_be_bytes.
  rewrite (skipn_all2 (be_bytes 4 a)) by (rewrite length_be_bytes; lia).
  cbn [Nat.sub app]. change (drop 0 ?l) with l.
  rewrite firstn_app, length_be_bytes.
  rewrite (firstn_all2 (be_bytes 4 b)) by (rewrite length_be_bytes; lia).
  cbn [Nat.sub]. change (take 0 ?l) with (@nil byte). rewrite app_nil_r.
  rewrite be_value_be_bytes, Z.mod_small by exact Hb. lia.
Qed.

(** Whatever its class, the frame of a request carries the sequence
    number of its header in bytes 4 to 8. *)
Lemma Request_frame_sequence_num r frame :
  Request_to_bytes r = Some frame ->
  frame_sequence_num frame = fedProMessage.my_sequence_num (Request_base r).
Proof.
  destruct r as [m|m|m|m]; cbn [Request_to_bytes Request_base].
  - unfold NewSessionMessage_to_bytes, package_bytes. cbn [fst snd app].
    intros Hp. rewrite <- (app_nil_r frame).
    eapply frame_sequence_num_pack. exact Hp.
  - unfold to_bytes. intros Hp. rewrite <- (app_nil_r frame).
    eapply frame_sequence_num_pack. exact Hp.
  - unfold CallRequestMessage_to_bytes.
    destruct (struct_pack _ _) as [hdr|] eqn:Hp; [|discriminate].
    cbn. intros Heq. injection Heq as <-.
    eapply frame_sequence_num_pack. exact Hp.
  - unfold CallbackResponseMessage_to_bytes.
    destruct (struct_pack _ _) as [hdr|] eqn:Hp; [|discriminate].
    cbn. intros Heq. injection Heq as <-.
    eapply frame_sequence_num_pack. exact Hp.
Qed.

Lemma struct_pack_cons_Some c fmt v vs bs :
  struct_pack (c :: fmt) (v :: vs) = Some bs ->
  exists rest, 0 <= v < 256 ^ Z.of_nat (fmt_width c) /\
               struct_pack fmt vs = Some rest /\
               bs = be_bytes (fmt_width c) v ++ rest.
Proof.
  cbn [struct_pack]. intros Heq.
  destruct (pack_uint (fmt_width c) v) as [b|] eqn:Eb; [|discriminate].
  destruct (struct_pack fmt vs) as [rest|] eqn:Er; [|discriminate].
  cbn in Heq. injection Heq as <-.
  apply pack_uint_Some in Eb. destruct Eb as [Hv ->]. eauto.
Qed.

Lemma frame_session_id_pack fmt a b c vals bs extra :
  struct_pack (fmt_I :: fmt_I :: fmt_Q :: fmt) (a :: b :: c :: vals) = Some bs ->
  frame_session_id (bs ++ extra) = c.
Proof.
  intros Hp.
  apply struct_pack_cons_Some in Hp. destruct Hp as (r1 & _ & Hp & ->).
  apply struct_pack_cons_Some in Hp. destruct Hp as (r2 & _ & Hp & ->).
  apply struct_pack_cons_Some in Hp. destruct Hp as (r3 & Hc & Hp & ->).
  cbn [fmt_width] in *.
  unfold frame_session_id, slice.
  rewrite <- !app_assoc.
  rewrite (app_assoc (be_bytes 4 a) (be_bytes 4 b)).
  rewrite skipn_app.
  rewrite skipn_all2 by (rewrite length_app, !length_be_bytes; lia).
  rewrite length_app, !length_be_bytes. cbn [Nat.add Nat.sub app skipn].
  change (drop 0 ?l) with l.
  rewrite firstn_app, length_be_bytes.
  rewrite (firstn_all2 (be_bytes 8 c)) by (rewrite length_be_bytes; lia).
  cbn [Nat.sub firstn]. rewrite app_nil_r.
  rewrite be_value_be_bytes, Z.mod_small by exact Hc. lia.
Qed.

Lemma Request_frame_session_id r frame :
  Request_to_bytes r = Some frame ->
  frame_session_id frame = fedProMessage.my_session_id (Request_base r).
Proof.
  destruct r as [m|m|m|m]; cbn [Request_to_bytes Request_base].
  - unfold NewSessionMessage_to_bytes, package_bytes. cbn [fst snd app].
    intros Hp. rewrite <- (app_nil_r frame).
    eapply frame_session_id_pack. exact Hp.
  - unfold to_bytes. intros Hp. rewrite <- (app_nil_r frame).
    eapply frame_session_id_pack. exact Hp.
  - unfold CallRequestMessage_to_bytes.
    destruct (struct_pack _ _) as [hdr|] eqn:Hp; [|discriminate].
    cbn. intros Heq. injection Heq as <-.
    eapply frame_session_id_pack. exact Hp.
  - unfold CallbackResponseMessage_to_bytes.
    destruct (struct_pack _ _) as [hdr|] eqn:Hp; [|discriminate].
    cbn. intros Heq. injection Heq as <-.
    eapply frame_session_id_pack. exact Hp.
Qed.

Lemma Request_base_with_base r b : Request_base (Request_with_base r b) = b.
Proof. destruct r; reflexivity. Qed.

(** [send_message] spelled out. *)
Lemma send_message_unfold request scr st :
  send_message request scr st =
  if is_connected st then
    match Request_to_bytes (stamp st request scr) with
    | None => (Raise StructError, st)
    | Some frame =>
        if next_write_fails (my_socket st)
        then (Raise OSError, set_my_socket (written [] (my_socket st)) st)
        else (Ret 1, set_my_socket (written [frame] (my_socket st)) st)
    end
  else (Ret (-1), st).
Proof.
  unfold send_message, bind, get, MsgSocket_send_message, ret.
  destruct (is_connected st); [|reflexivity].
  destruct (Request_to_bytes _); [|reflexivity].
  destruct (next_write_fails _); reflexivity.
Qed.

(** ** C2 *)

(** One synchronous call made while callbacks are queued: at most the
    request itself goes out, stamped with the counter as it stood; the
    counter does not go down, and goes up when the call returns [True]. *)
Lemma send_and_wait_queueing evs request tag st :
  my_queue_callback_requests st = true ->
  let run := send_and_wait evs request tag st in
  let st' := snd (fst run) in
  my_queue_callback_requests st' = true /\
  ambassador_calls st' = ambassador_calls st /\
  my_sequence_num st <= my_sequence_num st' /\
  (fst (fst run) = Ret true -> is_UNKNOWN tag = false ->
   my_sequence_num st < my_sequence_num st') /\
  (sock_sent (my_socket st') = sock_sent (my_socket st) \/
   exists frame, frame_sequence_num frame = my_sequence_num st /\
                 sock_sent (my_socket st') = sock_sent (my_socket st) ++ [frame]).
Proof.
  intros Hq. cbv zeta. unfold send_and_wait. rewrite send_message_unfold.
  destruct (is_connected st); [|cbn; repeat split; auto; try lia; discriminate].
  destruct (Request_to_bytes (stamp st request false)) as [frame|] eqn:Hframe;
    [|cbn; repeat split; auto; try lia; discriminate].
  destruct (next_write_fails (my_socket st));
    [cbn; rewrite app_nil_r; repeat split; auto; try lia; discriminate|].
  cbn [Z.eqb fst snd].
  change (1 =? -1) with false. cbv iota.
  set (st0 := set_my_socket _ st).
  assert (Hseq : frame_sequence_num frame = my_sequence_num st).
  { rewrite (Request_frame_sequence_num _ _ Hframe). unfold stamp.
    rewrite Request_base_with_base. reflexivity. }
  unfold poll_for_call_response.
  set (st1 := set_my_expected_response_type tag _).
  assert (Hq1 : my_queue_callback_requests st1 = true) by exact Hq.
  pose proof (read_and_process_quiet evs st1 Hq1) as Hr.
  destruct (read_and_process evs st1) as [[[k|e] st2] evs2]; cbn [fst snd] in *.
  2:{ destruct Hr as [F S C O L A]. cbn in *.
      repeat split; try congruence; try lia; try discriminate.
      right. exists frame. rewrite S. auto. }
  destruct (poll_loop (S (length evs2)) evs2 st2 (0 <=? k) (got_response_of st2))
    as [[[r st3] evs3]|] eqn:Hp.
  2:{ destruct Hr as [F S C O L A]. cbn in *.
      repeat split; try congruence; try lia; try discriminate.
      right. exists frame. rewrite S. auto. }
  assert (Hq2 : my_queue_callback_requests st2 = true)
    by (rewrite (q_flag _ _ Hr); exact Hq1).
  pose proof (quiet_trans _ _ _ Hr (poll_loop_quiet _ _ _ _ _ _ _ _ Hq2 Hp)) as Hall.
  destruct Hall as [F S C O L A]. cbn in F, S, C, O, L, A.
  destruct r as [[ro gr]|e]; cbn [fst snd].
  2:{ repeat split; try congruence; try lia; try discriminate.
      right. exists frame. rewrite S. auto. }
  apply poll_loop_got_response in Hp. subst gr.
  unfold poll_finish. cbn.
  destruct (is_EXCEPTIONDATA (expected_type st3)) eqn:Hx; cbn.
  - repeat split; try congruence; try lia; try discriminate.
    right. exists frame. rewrite S. auto.
  - destruct (got_response_of st3) eqn:Hg; cbn;
      repeat split; try congruence; try lia; try discriminate;
      try (right; exists frame; rewrite S; auto).
    intros _ Htag. unfold got_response_of in Hg. rewrite Hx, orb_false_r in Hg.
    destruct A as [A|A]; [|exact A]. rewrite Hg, Htag in A. discriminate.
Qed.

(** The frames that go out in a run made while callbacks are queued carry
    numbers between the counter at its start and the counter at its end,
    and the counter does not go down. *)
Lemma queued_step_frames st st' :
  my_queue_callback_requests st = true ->
  queued_step st st' ->
  my_queue_callback_requests st' = true /\
  my_sequence_num st <= my_sequence_num st' /\
  exists fs, sock_sent (my_socket st') = sock_sent (my_socket st) ++ fs /\
             Forall (fun f => my_sequence_num st <= frame_sequence_num f
                              <= my_sequence_num st') fs.
Proof.
  intros Hq [evs|evs request tag].
  - destruct (read_and_process_quiet evs st Hq) as [F S C O L A].
    split; [congruence|]. split; [exact L|].
    exists []. rewrite S, app_nil_r. split; [reflexivity | constructor].
  - destruct (send_and_wait_queueing evs request tag st Hq)
      as (Hq' & _ & Hle & _ & [Hs|(frame & Hseq & Hs)]).
    + split; [exact Hq'|]. split; [exact Hle|].
      exists []. rewrite Hs, app_nil_r. split; [reflexivity | constructor].
    + split; [exact Hq'|]. split; [exact Hle|].
      exists [frame]. split; [exact Hs|].
      constructor; [lia | constructor].
Qed.

Lemma queued_run_frames st st' :
  my_queue_callback_requests st = true ->
  queued_run st st' ->
  my_queue_callback_requests st' = true /\
  my_sequence_num st <= my_sequence_num st' /\
  exists fs, sock_sent (my_socket st') = sock_sent (my_socket st) ++ fs /\
             Forall (fun f => my_sequence_num st <= frame_sequence_num f
                              <= my_sequence_num st') fs.
Proof.
  intros Hq Hrun. induction Hrun as [st|st st1 st2 Hstep Hrun IH].
  - split; [exact Hq|]. split; [lia|].
    exists []. rewrite app_nil_r. split; [reflexivity | constructor].
  - destruct (queued_step_frames st st1 Hq Hstep) as (Hq1 & Hle1 & fs1 & Hs1 & Hf1).
    destruct (IH Hq1) as (Hq2 & Hle2 & fs2 & Hs2 & Hf2).
    split; [exact Hq2|]. split; [lia|].
    exists (fs1 ++ fs2). split; [rewrite Hs2, Hs1, app_assoc; reflexivity|].
    apply Forall_app. split.
    + eapply Forall_impl; [exact Hf1|]. cbn. intros f Hf. lia.
    + eapply Forall_impl; [exact Hf2|]. cbn. intros f Hf. lia.
Qed.

(** C2 (as amended).  While callbacks are queued, [send_message] stamps a
    request with the handler's counter as it stands and does not advance
    it; the counter goes up with the inbound messages that are processed.
    So let [E1] be the envelope that a call of [send_and_wait] sends, and
    [E2] any envelope sent after that call, with reads and synchronous
    calls only in between, however many and whatever comes in: [E1]
    carries the counter as it stood, [E2] a number that is at least
    [E1]'s, and a greater one when the call that sent [E1] returned [True]
    for a response tag other than [MsgType.UNKNOWN]. *)
Theorem C2_consecutive_requests
    (evs1 : list Event) (request1 : Request) (tag1 : Tag)
    (st st2 : FedProMsgHandler) (frame1 frame2 : bytes) (later : list bytes) :
  my_queue_callback_requests st = true ->
  let run1 := send_and_wait evs1 request1 tag1 st in
  let st1 := snd (fst run1) in
  sock_sent (my_socket st1) = sock_sent (my_socket st) ++ [frame1] ->
  queued_run st1 st2 ->
  sock_sent (my_socket st2) = sock_sent (my_socket st1) ++ later ->
  In frame2 later ->
  frame_sequence_num frame1 = my_sequence_num st /\
  my_sequence_num st1 <= frame_sequence_num frame2 <= my_sequence_num st2 /\
  frame_sequence_num frame1 <= frame_sequence_num frame2 /\
  (fst (fst run1) = Ret true -> is_UNKNOWN tag1 = false ->
   frame_sequence_num frame1 < frame_sequence_num frame2).
Proof.
  intros Hq run1 st1 Hsent1 Hrun Hsent2 Hin.
  destruct (send_and_wait_queueing evs1 request1 tag1 st Hq)
    as (Hq1 & _ & Hle & Hlt & Hs1).
  fold run1 in Hq1, Hle, Hlt, Hs1. fold st1 in Hq1, Hle, Hlt, Hs1.
  assert (Hframe1 : frame_sequence_num frame1 = my_sequence_num st).
  { destruct Hs1 as [Hs1|(g1 & Hg1 & Hs1)]; rewrite Hs1 in Hsent1.
    - apply (f_equal length) in Hsent1. rewrite length_app in Hsent1.
      cbn in Hsent1. lia.
    - apply app_inv_head in Hsent1. injection Hsent1 as ->. exact Hg1. }
  destruct (queued_run_frames st1 st2 Hq1 Hrun) as (_ & _ & fs & Hs2 & Hfs).
  rewrite Hs2 in Hsent2. apply app_inv_head in Hsent2. subst fs.
  pose proof (proj1 (List.Forall_forall _ _) Hfs frame2 Hin) as Hf2.
  cbv beta in Hf2. rewrite Hframe1. repeat split; try lia.
  intros Hret Htag. specialize (Hlt Hret Htag). lia.
Qed.

(** ** C8 *)

(** [send_callback_response] on a handler that is not connected:
    [send_message] logs and returns -1, which the method drops. *)
Lemma send_callback_response_offline seq b st :
  is_connected st = false ->
  send_callback_response seq b st = (Ret tt, st).
Proof.
  intros Hconn. unfold send_callback_response, bind.
  rewrite send_message_unfold, Hconn. reflexivity.
Qed.

(** ... and when the response does not fit the header's slots. *)
Lemma send_callback_response_unpackable seq b st :
  is_connected st = true ->
  Request_to_bytes
    (stamp st (ReqCallbackResponse (CallbackResponseMessage_init seq true)) true)
  = None ->
  send_callback_response seq b st = (Raise StructError, st).
Proof.
  intros Hconn Hframe. unfold send_callback_response, bind.
  rewrite send_message_unfold, Hconn.
  assert (Hb : Request_to_bytes
                 (stamp st (ReqCallbackResponse (CallbackResponseMessage_init seq b)) true)
               = None).
  { rewrite <- Hframe. destruct b; reflexivity. }
  rewrite Hb. reflexivity.
Qed.

(** ... and when it does: one write, which goes through or raises. *)
Lemma send_callback_response_run seq b st frame :
  is_connected st = true ->
  Request_to_bytes
    (stamp st (ReqCallbackResponse (CallbackResponseMessage_init seq true)) true)
  = Some frame ->
  send_callback_response seq b st =
  if next_write_fails (my_socket st)
  then (Raise OSError, set_my_socket (written [] (my_socket st)) st)
  else (Ret tt, set_my_socket (written [frame] (my_socket st)) st).
Proof.
  intros Hconn Hframe. unfold send_callback_response, bind.
  rewrite send_message_unfold, Hconn.
  assert (Hb : Request_to_bytes
                 (stamp st (ReqCallbackResponse (CallbackResponseMessage_init seq b)) true)
               = Some frame).
  { rewrite <- Hframe. destruct b; reflexivity. }
  rewrite Hb. destruct (next_write_fails (my_socket st)); reflexivity.
Qed.

(** A wrapper that returns has called the host's method once, on the
    request as it was decoded, unless its own decoding failed; and on a
    connected handler it has put exactly one frame on the wire, the
    response to the request. *)
Lemma wrapper_returns m message seq st st' fa :
  federate_ambassador_handler st = Some fa ->
  call_CallbackMethod m message seq st = (Ret tt, st') ->
  host_method m <> None /\
  ambassador_calls st' =
    ambassador_calls st ++
    match host_method m, message with
    | Some meth, Some request =>
        if reaches_host m request
        then [{| amb_method := meth; amb_request := request |}]
        else []
    | _, _ => []
    end /\
  (is_connected st = true ->
   exists frame,
     Request_to_bytes
       (stamp st (ReqCallbackResponse (CallbackResponseMessage_init seq true)) true)
     = Some frame /\
     sock_sent (my_socket st') = sock_sent (my_socket st) ++ [frame]).
Proof.
  intros Hfa.
  destruct (is_connected st) eqn:Hconn;
    [destruct (Request_to_bytes
                 (stamp st (ReqCallbackResponse
                              (CallbackResponseMessage_init seq true)) true))
       as [frame|] eqn:Hframe|];
    destruct m; cbn [call_CallbackMethod host_method reaches_host];
    unfold connection_lost, unknown_callback; unfold_wrappers;
    destruct message as [request|]; cbn;
    try rewrite Hfa; cbn;
    try destruct (CallbackRequest_values_listed request); cbn;
    try rewrite Hfa; cbn;
    try (destruct (behaviour _ _ _)); cbn;
    repeat (match goal with
            | |- context [send_callback_response ?s ?b ?st1] =>
                first [ rewrite (send_callback_response_run s b st1 _ Hconn Hframe)
                      | rewrite (send_callback_response_unpackable s b st1 Hconn Hframe)
                      | rewrite (send_callback_response_offline s b st1 Hconn) ]; cbn
            | |- context [next_write_fails ?s] =>
                destruct (next_write_fails s) eqn:?; cbn
            end);
    intros Hrun; try discriminate; injection Hrun as <-; cbn;
    rewrite ?app_nil_r;
    (split; [discriminate|]); (split; [reflexivity|]);
    intros Hc; try discriminate; eauto.
Qed.

(** C8.  A callback request that [process_callback_request] processes is
    treated by the queueing flag alone.  With the flag on, the request is
    appended to the callback queue and nothing else happens to it: the
    ambassador is not invoked and nothing is sent, and no read made in that
    mode invokes the ambassador.  With the flag off, the request is handed
    to [handle_callback_request], which dispatches it: the wrapper
    registered for the request's variant (or, when there is none, the one
    registered under -99) is called on the decoded request with the
    request's sequence number; the host's method of that wrapper is
    invoked once on the request, unless the wrapper's own decoding fails;
    and on a connected handler exactly one frame goes out, which carries
    the request's sequence number and the handler's session id. *)
Theorem C8_queue_flag_gates_dispatch
    (cb : CallbackRequestMessage) (st : FedProMsgHandler) (b : bool) :
  fst (process_callback_request cb st) = Ret b ->
  let st' := snd (process_callback_request cb st) in
  (my_queue_callback_requests st = true /\ b = false /\
   my_callback_request_queue st' = my_callback_request_queue st ++ [cb] /\
   ambassador_calls st' = ambassador_calls st /\
   my_socket st' = my_socket st /\
   forall evs, ambassador_calls (snd (fst (read_and_process evs st)))
               = ambassador_calls st)
  \/
  (my_queue_callback_requests st = false /\ b = true /\
   my_callback_request_queue st' = my_callback_request_queue st /\
   handle_callback_request cb
     (set_my_sequence_num (fedProMessage.my_sequence_num (cbq_base cb))
        (set_my_fedPro_response (RespCallbackRequest cb) st))
   = (Ret tt, st') /\
   exists m,
     match my_callback_functions st !! cbq_hla_msg_type cb with
     | Some registered => registered = m
     | None => my_callback_functions st !! (-99) = Some m
     end /\
     call_CallbackMethod m (my_request_buf cb)
       (fedProMessage.my_sequence_num (cbq_base cb))
       (set_my_sequence_num (fedProMessage.my_sequence_num (cbq_base cb))
          (set_my_fedPro_response (RespCallbackRequest cb) st))
     = (Ret tt, st') /\
     host_method m <> None /\
     ambassador_calls st' =
       ambassador_calls st ++
       match host_method m, my_request_buf cb with
       | Some meth, Some request =>
           if reaches_host m request
           then [{| amb_method := meth; amb_request := request |}]
           else []
       | _, _ => []
       end /\
     (is_connected st = true ->
      exists frame,
        sock_sent (my_socket st') = sock_sent (my_socket st) ++ [frame] /\
        frame_sequence_num frame = fedProMessage.my_sequence_num (cbq_base cb) /\
        frame_session_id frame = my_session_id st)).
Proof.
  cbv zeta. rewrite process_callback_request_unfold. cbv zeta.
  destruct (my_queue_callback_requests st) eqn:Hq.
  - cbn. intros Hb. injection Hb as <-. left. repeat split; auto.
    intros evs. apply (q_calls _ _ (read_and_process_quiet evs st Hq)).
  - destruct (federate_ambassador_handler st) as [fa|] eqn:Hfa; [|discriminate].
    set (st0 := set_my_sequence_num (fedProMessage.my_sequence_num (cbq_base cb))
                  (set_my_fedPro_response (RespCallbackRequest cb) st)).
    pose proof (handle_callback_request_host_only cb st0) as Hh.
    destruct (handle_callback_request cb st0) as [[[]|e] st2] eqn:Hrun;
      cbn [fst snd bind ret] in *; [|discriminate].
    intros Hb. injection Hb as <-. right.
    split; [reflexivity|]. split; [reflexivity|].
    split; [rewrite (ho_rest _ _ Hh); reflexivity|].
    split; [reflexivity|].
    unfold handle_callback_request, bind at 1, get in Hrun.
    change (my_callback_functions st0) with (my_callback_functions st) in Hrun.
    assert (Hcall : exists m,
              match my_callback_functions st !! cbq_hla_msg_type cb with
              | Some registered => registered = m
              | None => my_callback_functions st !! (-99) = Some m
              end /\
              call_CallbackMethod m (my_request_buf cb)
                (fedProMessage.my_sequence_num (cbq_base cb)) st0 = (Ret tt, st2)).
    { destruct (my_callback_functions st !! cbq_hla_msg_type cb) as [m|].
      - exists m. auto.
      - destruct (my_callback_functions st !! (-99)) as [m|]; [|discriminate].
        exists m. auto. }
    destruct Hcall as (m & Hm & Hcall). exists m.
    split; [exact Hm|]. split; [exact Hcall|].
    destruct (wrapper_returns m _ _ st0 st2 fa Hfa Hcall) as (Hhost & Hcalls & Hsent).
    split; [exact Hhost|]. split; [exact Hcalls|].
    intros Hconn. destruct (Hsent Hconn) as (frame & Hframe & Hs).
    exists frame. split; [exact Hs|].
    rewrite (Request_frame_sequence_num _ _ Hframe),
            (Request_frame_session_id _ _ Hframe).
    unfold stamp. rewrite Request_base_with_base. split; reflexivity.
Qed.

(** ** C4 *)

(** C4, at the input on which the code departs from it.  When the host's
    [connectionLost] raises, [connection_lost] lets the exception through:
    it ends by raising, and no frame has been sent, neither a success nor a
    failure response. *)
Theorem C4_connection_lost_raise_sends_no_response
    (st : FedProMsgHandler) (fa : FederateAmbassadorFedPro)
    (request : CallbackRequest) (sequence_number : Z) (e : exn) :
  federate_ambassador_handler st = Some fa ->
  behaviour (my_Federate_Ambassador fa) (ambassador_calls st)
    {| amb_method := connectionLost; amb_request := request |} = Some e ->
  fst (connection_lost (Some request) sequence_number st) = Raise e /\
  sock_sent (my_socket (snd (connection_lost (Some request) sequence_number st)))
  = sock_sent (my_socket st).
Proof.
  intros Hfa Hraise. unfold connection_lost, field_of, invoke, bind, ret.
  rewrite Hfa, Hraise. cbn. auto.
Qed.

(** The other wrappers do what [connection_lost] misses: when the host's
    method raises, a failure response with the request's sequence number
    goes out. *)
Lemma guarded_raise_sends_failure meth st fa request sequence_number e frame :
  federate_ambassador_handler st = Some fa ->
  behaviour (my_Federate_Ambassador fa) (ambassador_calls st)
    {| amb_method := meth; amb_request := request |} = Some e ->
  is_connected st = true ->
  next_write_fails (my_socket st) = false ->
  Request_to_bytes
    (stamp st (ReqCallbackResponse
                 (CallbackResponseMessage_init sequence_number false)) true)
  = Some frame ->
  fst (guarded meth (Some request) sequence_number st) = Ret tt /\
  sock_sent (my_socket (snd (guarded meth (Some request) sequence_number st)))
  = sock_sent (my_socket st) ++ [frame] /\
  frame_sequence_num frame = sequence_number.
Proof.
  intros Hfa Hraise Hconn Hwrite Hframe.
  set (st1 := set_ambassador_calls
                (ambassador_calls st ++ [{| amb_method := meth; amb_request := request |}])
                st).
  assert (Hrun : guarded meth (Some request) sequence_number st =
                 (Ret tt, set_my_socket (written [frame] (my_socket st)) st1)).
  { unfold guarded, try_except, field_of, invoke, bind at 1 2, ret.
    rewrite Hfa, Hraise. cbn [any_Exception]. fold st1.
    assert (Hconn1 : is_connected st1 = true) by exact Hconn.
    unfold respond_failure, send_callback_response, bind.
    rewrite send_message_unfold, Hconn1.
    change (stamp st1 ?r true) with (stamp st r true).
    change (my_socket st1) with (my_socket st).
    rewrite Hframe, Hwrite. reflexivity. }
  rewrite Hrun. split; [reflexivity|]. split; [reflexivity|].
  rewrite (Request_frame_sequence_num _ _ Hframe). reflexivity.
Qed.

(** ** C10 *)

(** C10.  For every sequence number, the callback responses built for
    success and for failure serialize to the same bytes, and so do they once
    [send_message] has completed their headers: the outcome lives in
    [my_succeeded] and [my_response_type] only, and the payload is empty in
    both, so that a frame that is produced is the bare 24-byte header. *)
Theorem C10_callback_outcome_not_on_the_wire (s : Z) (st : FedProMsgHandler) :
  CallbackResponseMessage_to_bytes (CallbackResponseMessage_init s true)
  = CallbackResponseMessage_to_bytes (CallbackResponseMessage_init s false) /\
  Request_to_bytes (stamp st (ReqCallbackResponse (CallbackResponseMessage_init s true)) true)
  = Request_to_bytes (stamp st (ReqCallbackResponse (CallbackResponseMessage_init s false)) true) /\
  my_succeeded (CallbackResponseMessage_init s true) = true /\
  my_succeeded (CallbackResponseMessage_init s false) = false /\
  my_response_type (CallbackResponseMessage_init s true) = 0 /\
  my_response_type (CallbackResponseMessage_init s false) = 1 /\
  CallbackResponse_SerializeToString
    (my_response_data (CallbackResponseMessage_init s true)) = [] /\
  CallbackResponse_SerializeToString
    (my_response_data (CallbackResponseMessage_init s false)) = [] /\
  forall frame,
    CallbackResponseMessage_to_bytes (CallbackResponseMessage_init s false) = Some frame ->
    length frame = 24%nat.
Proof.
  repeat split; try reflexivity; try apply CallbackResponse_new_empty.
  intros frame. unfold CallbackResponseMessage_to_bytes. cbn.
  rewrite CallbackResponse_new_empty.
  destruct (pack_uint 4 s) as [bs|] eqn:Es; cbn; [|discriminate].
  apply pack_uint_Some in Es as [_ ->].
  intros Heq. injection Heq as <-. reflexivity.
Qed.

End HandlerProperties.

(** ** The façade: C5, C6, C7 *)

Section FacadeProperties.
Context `{Protobuf}.
Import rtiAmbassadorFedPro.

Lemma read_loop_no_message evs :
  forall count st,
  Forall (fun ev => forall m, ev <> EvMessage m) evs ->
  snd (fst (read_loop evs count st)) = st.
Proof.
  induction evs as [|ev evs IH]; intros count st Hno; cbn [read_loop];
    destruct (negb (is_connected st)); try reflexivity.
  apply Forall_cons in Hno as [Hev Hno].
  destruct ev as [|m| |e]; try reflexivity.
  - exfalso. apply (Hev m). reflexivity.
  - apply IH. exact Hno.
Qed.

(** A read that meets no inbound message changes nothing. *)
Lemma read_and_process_no_message evs st :
  Forall (fun ev => forall m, ev <> EvMessage m) evs ->
  snd (fst (read_and_process evs st)) = st.
Proof.
  intros Hno. unfold read_and_process.
  destruct (negb (is_connected st)) eqn:Hc; [reflexivity|].
  pose proof (read_loop_no_message evs 0 st Hno) as Hl.
  destruct (read_loop evs 0 st) as [[[n|e] st1] evs1]; cbn in *; [exact Hl|].
  destruct (caught_by_read_and_process e); exact Hl.
Qed.

(** C5, on the inputs on which the code departs from it.  A callback
    request that sits in the callback queue is not delivered by
    [evoke_callback]: when no further message comes in, the call invokes no
    ambassador method, sends no callback response, and leaves the request
    in the queue. *)
Theorem C5_queued_callback_not_delivered
    (evs : list Event) (self : RtiAmbassadorFedPro) (cb : CallbackRequestMessage) :
  In cb (my_callback_request_queue (my_msg_handler self)) ->
  Forall (fun ev => forall m, ev <> EvMessage m) evs ->
  let self' := snd (fst (evoke_callback evs self)) in
  In cb (my_callback_request_queue (my_msg_handler self')) /\
  ambassador_calls (my_msg_handler self') = ambassador_calls (my_msg_handler self) /\
  sock_sent (my_socket (my_msg_handler self'))
  = sock_sent (my_socket (my_msg_handler self)).
Proof.
  intros Hin Hno. cbv zeta. unfold evoke_callback.
  destruct (negb (my_is_connection_ok self)); [cbn; auto|].
  destruct (my_enable_callback_requests (my_msg_handler self)); [|cbn; auto].
  pose proof (read_and_process_no_message evs
                (set_my_queue_callback_requests false (my_msg_handler self)) Hno) as Hr.
  destruct (read_and_process evs _) as [[[n|e] h1] evs1]; cbn in *; subst h1;
    cbn; auto.
Qed.

(** C6.  [update_attribute_values] with an empty map fails at once, with
    the [RTIinternalError] that reports that no attribute values were
    provided (the form the NoAttributesProvided kind takes in the code);
    the ambassador and its handler are as before, so no frame was sent and
    the outbound counter did not move, and nothing was read. *)
Theorem C6_update_attribute_values_empty
    (evs : list Event) (object_instance_handle : bytes)
    (user_supplied_tag : option bytes) (self : RtiAmbassadorFedPro) :
  update_attribute_values evs object_instance_handle [] user_supplied_tag self
  = (Raise (RTIinternalError "No attribute values provided for update"), self, evs).
Proof. reflexivity. Qed.

(** C7.  When a call of [get_object_class_handle] returns a handle, a
    second call for the same name returns the same handle and leaves the
    ambassador and the inbound events as they were: nothing is sent and
    nothing is read.  The forward cache holds the handle under the name,
    and, when the first call had to ask the RTI, the reverse cache holds
    the name under the handle. *)
Theorem C7_second_lookup_is_cached
    (evs1 evs2 : list Event) (object_class_name : string)
    (self : RtiAmbassadorFedPro) (handle : bytes) :
  fst (fst (get_object_class_handle evs1 object_class_name self)) = Ret handle ->
  let self' := snd (fst (get_object_class_handle evs1 object_class_name self)) in
  get_object_class_handle evs2 object_class_name self' = (Ret handle, self', evs2) /\
  my_obj_name_handles self' !! object_class_name = Some handle /\
  (my_obj_name_handles self !! object_class_name = None ->
   my_obj_handle_names self' !! handle = Some object_class_name).
Proof.
  cbv zeta.
  destruct (get_object_class_handle evs1 object_class_name self)
    as [[r self'] evs'] eqn:Hrun.
  cbn [fst snd]. intros ->.
  unfold get_object_class_handle in Hrun.
  destruct (my_obj_name_handles self !! object_class_name) as [cached|] eqn:Hc.
  - simplify_eq. unfold get_object_class_handle. rewrite Hc.
    repeat split; auto; congruence.
  - destruct (CallRequestMessage_init _) as [msg|e]; [|discriminate].
    destruct (send_and_wait evs1 _ _ _) as [[[[|]|e] h] evs1']; try discriminate.
    + destruct (response_buf (my_fedPro_response h)) as [buf|e]; [|discriminate].
      destruct (reset_attr_maps _ h) as [h'|]; [|discriminate].
      simplify_eq.
      unfold get_object_class_handle. cbn [my_obj_name_handles set_my_msg_handler
        my_obj_handle_names].
      rewrite !lookup_insert_eq. repeat split; reflexivity.
    + destruct (log_response _); discriminate.
Qed.

End FacadeProperties.

(** ** The properties on sample runs *)

Section SampleRuns.
#[local] Existing Instance sample_schema.
Import rtiAmbassadorFedPro.

Lemma C1_accepted_response_matches_expectation_witness :
  EXCEPTIONDATA_FIELD_NUMBER <= 1 /\
  is_UNKNOWN (TagInt 41) = false /\
  fst (fst (send_and_wait s4_events ball_request (TagInt 41)
              (session_handler obliging_ambassador))) = Ret true /\
  exists m n,
    In (EvMessage m) s4_events /\
    inbound_tag_seq m = Some (Tag_value (TagInt 41), n) /\
    (n = my_last_received_message_number (session_handler obliging_ambassador) + 1 \/
     exists cb s, In (EvMessage cb) s4_events /\ callback_request_seq cb = Some s /\
                  n = s + 1).
Proof.
  split; [vm_compute; discriminate|]. split; [reflexivity|].
  split; [vm_compute; reflexivity|].
  apply (C1_accepted_response_matches_expectation s4_events ball_request (TagInt 41)
           (session_handler obliging_ambassador));
    [vm_compute; discriminate | reflexivity | vm_compute; reflexivity].
Defined.

(** C1 as stated fails.  The request goes out with the minted number 2; the
    response that is accepted carries 3, one more than the last number
    received. *)
Lemma C1_counterexample :
  let st := session_handler obliging_ambassador in
  let run := send_and_wait [EvMessage (ball_response 3)] ball_request (TagInt 41) st in
  fst (fst run) = Ret true /\
  map frame_sequence_num (sock_sent (my_socket (snd (fst run)))) = [my_sequence_num st] /\
  my_sequence_num st = 2 /\
  exists cr, my_fedPro_response (snd (fst run)) = RespCallResponse cr /\
             fedProMessage.my_sequence_num (crm_base cr) = 3 /\
             fedProMessage.my_sequence_num (crm_base cr) <> my_sequence_num st.
Proof.
  cbv zeta. split; [vm_compute; reflexivity|]. split; [vm_compute; reflexivity|].
  split; [reflexivity|].
  eexists. split; [vm_compute; reflexivity|]. split; [reflexivity|].
  vm_compute. discriminate.
Qed.

(** Two heartbeats, each answered, with a read in between that meets the
    deadline: the first goes out numbered 2, the second numbered 3. *)
Lemma C2_consecutive_requests_witness :
  let st := session_handler obliging_ambassador in
  let run1 := send_and_wait [EvMessage (inbound CTRL_HEARTBEAT_RESPONSE 3 [])]
                (ReqHeartbeat HeartbeatMessage_init)
                (TagMsgType CTRL_HEARTBEAT_RESPONSE) st in
  let st1 := snd (fst run1) in
  let st1' := snd (fst (read_and_process [EvDeadline] st1)) in
  let run2 := send_and_wait [EvMessage (inbound CTRL_HEARTBEAT_RESPONSE 4 [])]
                (ReqHeartbeat HeartbeatMessage_init)
                (TagMsgType CTRL_HEARTBEAT_RESPONSE) st1' in
  let st2 := snd (fst run2) in
  my_queue_callback_requests st = true /\
  sock_sent (my_socket st1) = sock_sent (my_socket st) ++ [heartbeat_frame_2] /\
  queued_run st1 st2 /\
  sock_sent (my_socket st2) = sock_sent (my_socket st1) ++ [heartbeat_frame_3] /\
  In heartbeat_frame_3 [heartbeat_frame_3] /\
  fst (fst run1) = Ret true /\
  fst (fst run2) = Ret true /\
  frame_sequence_num heartbeat_frame_2 = 2 /\
  frame_sequence_num heartbeat_frame_3 = 3 /\
  frame_sequence_num heartbeat_frame_2 < frame_sequence_num heartbeat_frame_3.
Proof.
  cbv zeta.
  set (st := session_handler obliging_ambassador).
  set (st1 := snd (fst (send_and_wait
                          [EvMessage (inbound CTRL_HEARTBEAT_RESPONSE 3 [])]
                          (ReqHeartbeat HeartbeatMessage_init)
                          (TagMsgType CTRL_HEARTBEAT_RESPONSE) st))).
  set (st1' := snd (fst (read_and_process [EvDeadline] st1))).
  set (st2 := snd (fst (send_and_wait
                          [EvMessage (inbound CTRL_HEARTBEAT_RESPONSE 4 [])]
                          (ReqHeartbeat HeartbeatMessage_init)
                          (TagMsgType CTRL_HEARTBEAT_RESPONSE) st1'))).
  assert (Hq : my_queue_callback_requests st = true) by reflexivity.
  assert (Hs1 : sock_sent (my_socket st1) = sock_sent (my_socket st) ++ [heartbeat_frame_2])
    by (vm_compute; reflexivity).
  assert (Hrun : queued_run st1 st2).
  { eapply rtc_l; [apply (queued_read st1 [EvDeadline])|].
    eapply rtc_l; [|apply rtc_refl].
    apply (queued_call st1' [EvMessage (inbound CTRL_HEARTBEAT_RESPONSE 4 [])]
             (ReqHeartbeat HeartbeatMessage_init)
             (TagMsgType CTRL_HEARTBEAT_RESPONSE)). }
  assert (Hs2 : sock_sent (my_socket st2) = sock_sent (my_socket st1) ++ [heartbeat_frame_3])
    by (vm_compute; reflexivity).
  assert (Hin : In heartbeat_frame_3 [heartbeat_frame_3]) by (left; reflexivity).
  assert (Hret : fst (fst (send_and_wait
                             [EvMessage (inbound CTRL_HEARTBEAT_RESPONSE 3 [])]
                             (ReqHeartbeat HeartbeatMessage_init)
                             (TagMsgType CTRL_HEARTBEAT_RESPONSE) st)) = Ret true)
    by (vm_compute; reflexivity).
  pose proof (C2_consecutive_requests
                [EvMessage (inbound CTRL_HEARTBEAT_RESPONSE 3 [])]
                (ReqHeartbeat HeartbeatMessage_init)
                (TagMsgType CTRL_HEARTBEAT_RESPONSE)
                st st2 heartbeat_frame_2 heartbeat_frame_3 [heartbeat_frame_3]
                Hq Hs1 Hrun Hs2 Hin) as (_ & _ & _ & Hlt).
  specialize (Hlt Hret eq_refl).
  repeat split; try assumption; vm_compute; reflexivity.
Defined.

(** C2 as stated fails.  A heartbeat goes out and the read that waits for
    its response fails with the socket's error: [send_and_wait] returns
    [False] and the counter stands where it stood.  The next heartbeat
    goes out with the same sequence number. *)
Lemma C2_counterexample :
  let st := session_handler obliging_ambassador in
  let run1 := send_and_wait [EvRaise OSError] (ReqHeartbeat HeartbeatMessage_init)
                (TagMsgType CTRL_HEARTBEAT_RESPONSE) st in
  let st1 := snd (fst run1) in
  let run2 := send_and_wait [EvMessage (inbound CTRL_HEARTBEAT_RESPONSE 3 [])]
                (ReqHeartbeat HeartbeatMessage_init)
                (TagMsgType CTRL_HEARTBEAT_RESPONSE) st1 in
  let st2 := snd (fst run2) in
  fst (fst run1) = Ret false /\
  fst (fst run2) = Ret true /\
  sock_sent (my_socket st2) = [heartbeat_frame_2; heartbeat_frame_2] /\
  ~ (frame_sequence_num heartbeat_frame_2 < frame_sequence_num heartbeat_frame_2).
Proof.
  cbv zeta. split; [vm_compute; reflexivity|]. split; [vm_compute; reflexivity|].
  split; [vm_compute; reflexivity|]. vm_compute. discriminate.
Qed.

(** Why the runs of C2 leave [evoke_callback] out: it sets the counter to
    the number of the callback request that it dispatches.  A request goes
    out numbered 2 and is answered; a callback request numbered 0 comes in
    during [evoke_callback]; the next request goes out numbered 1. *)
Example evoke_callback_sets_counter :
  let self := facade_of (session_handler obliging_ambassador) in
  let run1 := send_and_wait [EvMessage (inbound CTRL_HEARTBEAT_RESPONSE 3 [])]
                (ReqHeartbeat HeartbeatMessage_init)
                (TagMsgType CTRL_HEARTBEAT_RESPONSE) (my_msg_handler self) in
  let self1 := set_my_msg_handler (snd (fst run1)) self in
  let self2 := snd (fst (evoke_callback [EvMessage (discover_request 0)] self1)) in
  let run2 := send_and_wait [EvMessage (inbound CTRL_HEARTBEAT_RESPONSE 1 [])]
                (ReqHeartbeat HeartbeatMessage_init)
                (TagMsgType CTRL_HEARTBEAT_RESPONSE) (my_msg_handler self2) in
  fst (fst run1) = Ret true /\
  my_sequence_num (my_msg_handler self1) = 3 /\
  my_sequence_num (my_msg_handler self2) = 1 /\
  map frame_sequence_num (sock_sent (my_socket (snd (fst run2)))) = [2; 0; 1].
Proof. vm_compute. repeat split; reflexivity. Qed.

Lemma C4_connection_lost_raise_sends_no_response_witness :
  let st := session_handler failing_ambassador in
  federate_ambassador_handler st
  = Some {| my_Federate_Ambassador := failing_ambassador; fa_session_id := 9 |} /\
  behaviour failing_ambassador (ambassador_calls st)
    {| amb_method := connectionLost; amb_request := [x01; x6f; x66; x66] |}
  = Some (UserError 1) /\
  fst (connection_lost (Some [x01; x6f; x66; x66]) 7 st) = Raise (UserError 1) /\
  sock_sent (my_socket (snd (connection_lost (Some [x01; x6f; x66; x66]) 7 st)))
  = sock_sent (my_socket st).
Proof.
  cbv zeta. split; [reflexivity|]. split; [reflexivity|].
  apply (C4_connection_lost_raise_sends_no_response
           (session_handler failing_ambassador)
           {| my_Federate_Ambassador := failing_ambassador; fa_session_id := 9 |}
           [x01; x6f; x66; x66] 7 (UserError 1)); reflexivity.
Defined.

(** The same through [evoke_callback]: a [connectionLost] request numbered 7
    comes in, the host's method raises, the exception leaves
    [evoke_callback], and nothing was sent; under the same conditions a
    [discoverObjectInstance] request whose host method returns is answered
    by one frame carrying its number. *)
Example connection_lost_through_evoke_callback :
  let run := evoke_callback [EvMessage (lost_request 7)]
               (facade_of (session_handler failing_ambassador)) in
  fst (fst run) = Raise (UserError 1) /\
  sock_sent (my_socket (my_msg_handler (snd (fst run)))) = [] /\
  map amb_method (ambassador_calls (my_msg_handler (snd (fst run)))) = [connectionLost].
Proof. vm_compute. auto. Qed.

Example discover_through_evoke_callback :
  let run := evoke_callback [EvMessage (discover_request 7)]
               (facade_of (session_handler failing_ambassador)) in
  fst (fst run) = Ret 1 /\
  map frame_sequence_num (sock_sent (my_socket (my_msg_handler (snd (fst run))))) = [7] /\
  map amb_method (ambassador_calls (my_msg_handler (snd (fst run))))
  = [discoverObjectInstance].
Proof. vm_compute. auto. Qed.

Lemma C5_queued_callback_not_delivered_witness :
  let self' := snd (fst (evoke_callback [EvDeadline] s4_facade)) in
  In (as_callback (discover_request 42))
     (my_callback_request_queue (my_msg_handler s4_facade)) /\
  Forall (fun ev => forall m, ev <> EvMessage m) [EvDeadline] /\
  In (as_callback (discover_request 42))
     (my_callback_request_queue (my_msg_handler self')) /\
  ambassador_calls (my_msg_handler self') = ambassador_calls (my_msg_handler s4_facade) /\
  sock_sent (my_socket (my_msg_handler self'))
  = sock_sent (my_socket (my_msg_handler s4_facade)).
Proof.
  cbv zeta.
  assert (Hin : In (as_callback (discover_request 42))
                  (my_callback_request_queue (my_msg_handler s4_facade)))
    by (vm_compute; left; reflexivity).
  assert (Hno : Forall (fun ev => forall m, ev <> EvMessage m) [EvDeadline])
    by (constructor; [discriminate | constructor]).
  split; [exact Hin|]. split; [exact Hno|].
  exact (C5_queued_callback_not_delivered [EvDeadline] s4_facade
           (as_callback (discover_request 42)) Hin Hno).
Defined.

(** Scenario S4 to its end: the request numbered 42 was queued during the
    call; after [evoke_callback] it is still queued, the ambassador was
    never invoked, and the only frame sent is the call request. *)
Example s4_callback_stays_queued :
  let h := my_msg_handler (snd (fst (evoke_callback [EvDeadline] s4_facade))) in
  map (fun cb => fedProMessage.my_sequence_num (cbq_base cb))
      (my_callback_request_queue h) = [42] /\
  ambassador_calls h = [] /\
  length (sock_sent (my_socket h)) = 1%nat.
Proof. vm_compute. auto. Qed.

Lemma C7_second_lookup_is_cached_witness :
  let self := facade_of (session_handler obliging_ambassador) in
  let self' := snd (fst (get_object_class_handle [EvMessage (ball_response 3)] "Ball" self)) in
  fst (fst (get_object_class_handle [EvMessage (ball_response 3)] "Ball" self)) = Ret [xab] /\
  get_object_class_handle [EvMessage (ball_response 4)] "Ball" self'
  = (Ret [xab], self', [EvMessage (ball_response 4)]) /\
  my_obj_name_handles self' !! "Ball" = Some [xab] /\
  (my_obj_name_handles self !! "Ball" = None ->
   my_obj_handle_names self' !! [xab] = Some "Ball").
Proof.
  cbv zeta. split; [vm_compute; reflexivity|].
  apply (C7_second_lookup_is_cached [EvMessage (ball_response 3)]
           [EvMessage (ball_response 4)] "Ball"
           (facade_of (session_handler obliging_ambassador)) [xab]).
  vm_compute. reflexivity.
Defined.

(** A [discoverObjectInstance] request numbered 42 on a handler whose
    flag is on, and on the same handler with the flag off: queued and
    nothing else in the first case; in the second the wrapper registered
    for the variant is called, the host's [discoverObjectInstance] is
    invoked on the request, and one frame numbered 42 goes out. *)
Lemma C8_queue_flag_gates_dispatch_witness :
  let cb := as_callback (discover_request 42) in
  let on := session_handler obliging_ambassador in
  let off := set_my_queue_callback_requests false on in
  let on' := snd (process_callback_request cb on) in
  let off' := snd (process_callback_request cb off) in
  (fst (process_callback_request cb on) = Ret false /\
   my_queue_callback_requests on = true /\
   my_callback_request_queue on' = my_callback_request_queue on ++ [cb] /\
   ambassador_calls on' = ambassador_calls on /\
   my_socket on' = my_socket on) /\
  (fst (process_callback_request cb off) = Ret true /\
   my_queue_callback_requests off = false /\
   my_callback_request_queue off' = my_callback_request_queue off /\
   my_callback_functions off !! cbq_hla_msg_type cb = Some m_discover_object_instance /\
   ambassador_calls off' =
     ambassador_calls off ++
     [{| amb_method := discoverObjectInstance;
         amb_request := [x08; x01; x02; x03] |}] /\
   exists frame,
     sock_sent (my_socket off') = sock_sent (my_socket off) ++ [frame] /\
     frame_sequence_num frame = 42 /\
     frame_session_id frame = 9).
Proof.
  cbv zeta.
  set (cb := as_callback (discover_request 42)).
  set (on := session_handler obliging_ambassador).
  set (off := set_my_queue_callback_requests false on).
  assert (Hon : fst (process_callback_request cb on) = Ret false)
    by (vm_compute; reflexivity).
  assert (Hoff : fst (process_callback_request cb off) = Ret true)
    by (vm_compute; reflexivity).
  pose proof (C8_queue_flag_gates_dispatch cb on false Hon) as Con.
  pose proof (C8_queue_flag_gates_dispatch cb off true Hoff) as Coff.
  cbv zeta in Con, Coff.
  destruct Con as [(Hflag & _ & Hqueue & Hcalls & Hsock & _)|(Hflag & _)];
    [|vm_compute in Hflag; discriminate].
  destruct Coff as [(Hflag' & _)
                   |(Hflag' & _ & Hqueue' & _ & m & Hm & _ & _ & Hcalls' & Hsent)];
    [vm_compute in Hflag'; discriminate|].
  split; [auto|].
  assert (Hlookup : my_callback_functions off !! cbq_hla_msg_type cb
                    = Some m_discover_object_instance)
    by (vm_compute; reflexivity).
  rewrite Hlookup in Hm. subst m.
  split; [exact Hoff|]. split; [exact Hflag'|]. split; [exact Hqueue'|].
  split; [exact Hlookup|]. split; [exact Hcalls'|].
  exact (Hsent eq_refl).
Defined.

(** Scenario S1: on a fresh handler [initializeSession] puts the frame of
    C9 on the wire; the status reply numbered 1 gives session 9; the next
    request goes out in session 9 with sequence number 1. *)
Example s1_handshake :
  let run := initializeSession
               [EvMessage (inbound CTRL_NEW_SESSION_STATUS 1 [x00;x00;x00;x00])]
               true obliging_ambassador FedProMsgHandler_init in
  let st := snd (fst run) in
  let st' := snd (fst (send_and_wait
                         [EvMessage (inbound CTRL_HEARTBEAT_RESPONSE 2 [])]
                         (ReqHeartbeat HeartbeatMessage_init)
                         (TagMsgType CTRL_HEARTBEAT_RESPONSE) st)) in
  fst (fst run) = Ret true /\
  Some (sock_sent (my_socket st))
  = option_map (fun f => [f]) (NewSessionMessage_to_bytes NewSessionMessage_init) /\
  my_session_id st = 9 /\ my_session_status st = SUCCESS /\
  sock_sent (my_socket st')
  = sock_sent (my_socket st) ++
    [[x00;x00;x00;x18; x00;x00;x00;x01; x00;x00;x00;x00;x00;x00;x00;x09;
      x00;x00;x00;x00; x00;x00;x00;x03]].
Proof. vm_compute. auto. Qed.

End SampleRuns.

(** ** The decoders of the message classes *)

Lemma struct_pack_nil_Some bs : struct_pack [] [] = Some bs -> bs = [].
Proof. cbn. congruence. Qed.

(** Splitting a frame whose first four bytes are the digits of its size. *)
Lemma frame_segments_app sz rest :
  frame_segments (be_bytes 4 sz ++ rest) = [be_bytes 4 sz; rest].
Proof.
  unfold frame_segments.
  rewrite firstn_app, skipn_app, length_be_bytes.
  rewrite (firstn_all2 (be_bytes _ _)) by (rewrite length_be_bytes; lia).
  rewrite (skipn_all2 (be_bytes _ _)) by (rewrite length_be_bytes; lia).
  rewrite Nat.sub_diag. change (take 0 rest) with (@nil byte).
  change (drop 0 rest) with rest. rewrite app_nil_r. reflexivity.
Qed.

Lemma struct_unpack_I_one v :
  0 <= v < 256 ^ 4 -> struct_unpack [fmt_I] (be_bytes 4 v) = Some [v].
Proof.
  intros Hv. rewrite <- (app_nil_r (be_bytes 4 v)).
  rewrite struct_unpack_I by exact Hv. reflexivity.
Qed.

(** What the base decoder reads from the segments of a frame laid out as
    size, sequence number, session id, last-received number, message type,
    payload. *)
Lemma from_bytes_frame self sz seq sess lrm t payload :
  0 <= sz < 256 ^ 4 -> 0 <= seq < 256 ^ 4 -> 0 <= sess < 256 ^ 8 ->
  0 <= lrm < 256 ^ 4 ->
  from_bytes self
    (frame_segments (be_bytes 4 sz ++ be_bytes 4 seq ++ be_bytes 8 sess ++
                     be_bytes 4 lrm ++ be_bytes 4 (MsgType_value t) ++ payload))
  = Some {| my_msg_type := MsgType_value t;
            my_msg_size := sz;
            fedProMessage.my_session_id := sess;
            fedProMessage.my_sequence_num := seq;
            my_last_received_msg := lrm;
            my_payload := if 24 <? sz then payload else my_payload self |}.
Proof.
  intros Hsz Hsq Hss Hlrm.
  pose proof (MsgType_value_small t) as Ht.
  rewrite frame_segments_app.
  set (hdr := be_bytes 4 seq ++ be_bytes 8 sess ++ be_bytes 4 lrm ++
              be_bytes 4 (MsgType_value t)).
  assert (Hb1 : be_bytes 4 seq ++ be_bytes 8 sess ++ be_bytes 4 lrm ++
                be_bytes 4 (MsgType_value t) ++ payload = hdr ++ payload).
  { unfold hdr. rewrite <- !app_assoc. reflexivity. }
  rewrite Hb1.
  assert (Hlen : length hdr = 20%nat).
  { unfold hdr. rewrite !length_app, !length_be_bytes. reflexivity. }
  assert (Hslice : slice 0 20 (hdr ++ payload) = hdr).
  { unfold slice. cbn [Nat.sub]. change (drop 0 (hdr ++ payload)) with (hdr ++ payload).
    rewrite firstn_app, Hlen, Nat.sub_diag. change (take 0 payload) with (@nil byte).
    rewrite app_nil_r. apply firstn_all2. lia. }
  assert (Hfrom : slice_from 20 (hdr ++ payload) = payload).
  { unfold slice_from. rewrite skipn_app, Hlen, Nat.sub_diag.
    rewrite (skipn_all2 hdr) by lia. reflexivity. }
  assert (Hhdr : struct_unpack [fmt_I; fmt_Q; fmt_I; fmt_I] hdr =
                 Some [seq; sess; lrm; MsgType_value t]).
  { unfold hdr.
    rewrite struct_unpack_I by exact Hsq.
    rewrite struct_unpack_Q by exact Hss.
    rewrite struct_unpack_I by exact Hlrm.
    rewrite struct_unpack_I_one by exact Ht. reflexivity. }
  unfold from_bytes. cbn [lookup list_lookup mbind option_bind].
  rewrite struct_unpack_I_one by exact Hsz. cbn [mbind option_bind].
  rewrite Hslice, Hhdr. cbn [mbind option_bind].
  rewrite MsgType_of_Z_value. cbn [mbind option_bind].
  rewrite Hfrom. cbn [skipn concat]. rewrite app_nil_r. reflexivity.
Qed.

Lemma SessionStatus_of_Z_value s : SessionStatus_of_Z (SessionStatus_value s) = Some s.
Proof. destruct s; reflexivity. Qed.

Lemma NewSessionStatusMessage_to_bytes_Some m frame :
  NewSessionStatusMessage_to_bytes m = Some frame ->
  (0 <= my_msg_size (nss_base m) < 256 ^ 4 /\
   0 <= fedProMessage.my_sequence_num (nss_base m) < 256 ^ 4 /\
   0 <= fedProMessage.my_session_id (nss_base m) < 256 ^ 8 /\
   0 <= SessionStatus_value (my_status m) < 256 ^ 4) /\
  frame = be_bytes 4 (my_msg_size (nss_base m)) ++
          be_bytes 4 (fedProMessage.my_sequence_num (nss_base m)) ++
          be_bytes 8 (fedProMessage.my_session_id (nss_base m)) ++
          be_bytes 8 (my_msg_type (nss_base m)) ++
          be_bytes 4 (SessionStatus_value (my_status m)).
Proof.
  unfold NewSessionStatusMessage_to_bytes, package_bytes. cbn [fst snd app].
  intros Heq.
  apply struct_pack_cons_Some in Heq. destruct Heq as (r1 & H1 & Heq & ->).
  apply struct_pack_cons_Some in Heq. destruct Heq as (r2 & H2 & Heq & ->).
  apply struct_pack_cons_Some in Heq. destruct Heq as (r3 & H3 & Heq & ->).
  apply struct_pack_cons_Some in Heq. destruct Heq as (r4 & H4 & Heq & ->).
  apply struct_pack_cons_Some in Heq. destruct Heq as (r5 & H5 & Heq & ->).
  apply struct_pack_nil_Some in Heq. subst r5.
  cbn [fmt_width] in *. rewrite app_nil_r. auto.
Qed.

(** The frame of a session status whose type is a member of [MsgType], in
    the layout that the base decoder reads. *)
Lemma NewSessionStatusMessage_frame m t frame :
  my_msg_type (nss_base m) = MsgType_value t ->
  NewSessionStatusMessage_to_bytes m = Some frame ->
  frame = be_bytes 4 (my_msg_size (nss_base m)) ++
          be_bytes 4 (fedProMessage.my_sequence_num (nss_base m)) ++
          be_bytes 8 (fedProMessage.my_session_id (nss_base m)) ++
          be_bytes 4 0 ++ be_bytes 4 (MsgType_value t) ++
          be_bytes 4 (SessionStatus_value (my_status m)).
Proof.
  intros Hty Hpack.
  destruct (NewSessionStatusMessage_to_bytes_Some _ _ Hpack) as [_ ->].
  rewrite Hty. change (be_bytes 8 (MsgType_value t))
    with (be_bytes (4 + 4) (MsgType_value t)).
  rewrite (be_bytes_app 4 4 (MsgType_value t)).
  rewrite (Z.div_small (MsgType_value t)) by apply MsgType_value_small.
  rewrite <- !app_assoc. reflexivity.
Qed.

(** X1.  A session status frame written by [to_bytes] is read back by
    [from_bytes] of the same class with the same status, message size,
    sequence number, session id and message type, whatever the receiving
    object held before, and serializing what was read gives the frame
    again. *)
Theorem NewSessionStatusMessage_roundtrip
    (m self : NewSessionStatusMessage) (t : MsgType) (frame : bytes) :
  my_msg_type (nss_base m) = MsgType_value t ->
  NewSessionStatusMessage_to_bytes m = Some frame ->
  exists m',
    NewSessionStatusMessage_from_bytes self (frame_segments frame) = Ret m' /\
    my_status m' = my_status m /\
    my_msg_size (nss_base m') = my_msg_size (nss_base m) /\
    fedProMessage.my_sequence_num (nss_base m')
      = fedProMessage.my_sequence_num (nss_base m) /\
    fedProMessage.my_session_id (nss_base m')
      = fedProMessage.my_session_id (nss_base m) /\
    my_msg_type (nss_base m') = my_msg_type (nss_base m) /\
    NewSessionStatusMessage_to_bytes m' = Some frame.
Proof.
  intros Hty Hpack.
  destruct (NewSessionStatusMessage_to_bytes_Some _ _ Hpack)
    as [(Hsz & Hsq & Hss & Hst) _].
  pose proof (NewSessionStatusMessage_frame _ _ _ Hty Hpack) as Hframe.
  pose proof (from_bytes_frame (nss_base self) _ _ _ 0 t
                (be_bytes 4 (SessionStatus_value (my_status m)))
                Hsz Hsq Hss ltac:(lia)) as Hbase.
  subst frame.
  unfold NewSessionStatusMessage_from_bytes.
  rewrite Hbase. rewrite frame_segments_app.
  cbn [lookup list_lookup].
  assert (Hfrom : slice_from 20
                    (be_bytes 4 (fedProMessage.my_sequence_num (nss_base m)) ++
                     be_bytes 8 (fedProMessage.my_session_id (nss_base m)) ++
                     be_bytes 4 0 ++ be_bytes 4 (MsgType_value t) ++
                     be_bytes 4 (SessionStatus_value (my_status m)))
                  = be_bytes 4 (SessionStatus_value (my_status m))).
  { unfold slice_from.
    rewrite !app_assoc. rewrite skipn_app.
    rewrite skipn_all2 by (rewrite !length_app, !length_be_bytes; cbn; lia).
    rewrite !length_app, !length_be_bytes. reflexivity. }
  rewrite Hfrom, struct_unpack_I_one by exact Hst.
  rewrite SessionStatus_of_Z_value.
  eexists. split; [reflexivity|].
  cbn [my_status nss_base my_msg_size fedProMessage.my_sequence_num
       fedProMessage.my_session_id my_msg_type].
  repeat split; try reflexivity; try (symmetry; exact Hty).
  rewrite <- Hpack. unfold NewSessionStatusMessage_to_bytes, package_bytes.
  cbn [fst snd my_status nss_base my_msg_size fedProMessage.my_sequence_num
       fedProMessage.my_session_id my_msg_type].
  rewrite Hty. reflexivity.
Qed.

(** X2.  The way of an inbound session status through the engine: the base
    decoder reads the segments of the frame, then
    [NewSessionStatusMessage.__init__] casts the envelope.  When the frame
    declares more than 24 bytes, the status that was written is the status
    found. *)
Theorem status_frame_read_and_cast
    (m : NewSessionStatusMessage) (self : FedProMessage) (t : MsgType)
    (frame : bytes) :
  my_msg_type (nss_base m) = MsgType_value t ->
  24 < my_msg_size (nss_base m) ->
  NewSessionStatusMessage_to_bytes m = Some frame ->
  exists b,
    from_bytes self (frame_segments frame) = Some b /\
    fedProMessage.my_sequence_num b = fedProMessage.my_sequence_num (nss_base m) /\
    fedProMessage.my_session_id b = fedProMessage.my_session_id (nss_base m) /\
    NewSessionStatusMessage_init b = Ret {| nss_base := b; my_status := my_status m |}.
Proof.
  intros Hty Hbig Hpack.
  destruct (NewSessionStatusMessage_to_bytes_Some _ _ Hpack)
    as [(Hsz & Hsq & Hss & Hst) _].
  pose proof (NewSessionStatusMessage_frame _ _ _ Hty Hpack) as Hframe.
  pose proof (from_bytes_frame self _ _ _ 0 t
                (be_bytes 4 (SessionStatus_value (my_status m)))
                Hsz Hsq Hss ltac:(lia)) as Hbase.
  rewrite <- Hframe in Hbase.
  eexists. split; [exact Hbase|].
  cbn [fedProMessage.my_sequence_num fedProMessage.my_session_id].
  split; [reflexivity|]. split; [reflexivity|].
  unfold NewSessionStatusMessage_init. cbn [my_msg_size my_payload].
  assert (H0 : (my_msg_size (nss_base m) =? 0) = false) by (apply Z.eqb_neq; lia).
  assert (H24 : (24 <? my_msg_size (nss_base m)) = true) by (apply Z.ltb_lt; lia).
  rewrite H0, H24. rewrite length_be_bytes. cbn [Nat.ltb Nat.leb].
  rewrite struct_unpack_I_one by exact Hst.
  rewrite SessionStatus_of_Z_value. reflexivity.
Qed.

(** [struct.unpack] reads back what [struct.pack] wrote under the same
    format. *)
Lemma struct_unpack_pack fmt : forall vals bs,
  struct_pack fmt vals = Some bs -> struct_unpack fmt bs = Some vals.
Proof.
  induction fmt as [|c fmt IH]; intros [|v vals] bs Hpack; try discriminate.
  - apply struct_pack_nil_Some in Hpack. subst bs. reflexivity.
  - apply struct_pack_cons_Some in Hpack. destruct Hpack as (rest & Hv & Hrest & ->).
    rewrite struct_unpack_cons by exact Hv. rewrite (IH _ _ Hrest). reflexivity.
Qed.

(** X3.  [NewSessionMessage.from_bytes] applied to the frame that [to_bytes]
    wrote reads the message size, the sequence number and the session id,
    and leaves the message type of the receiving object alone; as protocol
    version it stores the fourth member of the frame, which is the message
    type that was written, not the protocol version. *)
Theorem NewSessionMessage_from_bytes_of_to_bytes
    (m self : NewSessionMessage) (frame : bytes) :
  NewSessionMessage_to_bytes m = Some frame ->
  NewSessionMessage_from_bytes self frame =
  Ret {| ns_base :=
           {| my_msg_type := my_msg_type (ns_base self);
              my_msg_size := my_msg_size (ns_base m);
              fedProMessage.my_session_id := fedProMessage.my_session_id (ns_base m);
              fedProMessage.my_sequence_num := fedProMessage.my_sequence_num (ns_base m);
              my_last_received_msg := my_last_received_msg (ns_base self);
              my_payload := my_payload (ns_base self) |};
         my_protocol_version := my_msg_type (ns_base m) |}.
Proof.
  unfold NewSessionMessage_to_bytes, package_bytes. cbn [fst snd app]. intros Hpack.
  unfold NewSessionMessage_from_bytes.
  rewrite (struct_unpack_pack _ _ _ Hpack). reflexivity.
Qed.

(** X4.  [HeartbeatMessage.from_bytes] applied to the frame that [to_bytes]
    wrote: a heartbeat read into an object of the same message type, with
    the same last-received number and payload, is the heartbeat that was
    written. *)
Theorem HeartbeatMessage_roundtrip (m self : HeartbeatMessage) (frame : bytes) :
  to_bytes (hb_base m) = Some frame ->
  my_msg_type (hb_base self) = my_msg_type (hb_base m) ->
  my_last_received_msg (hb_base self) = my_last_received_msg (hb_base m) ->
  my_payload (hb_base self) = my_payload (hb_base m) ->
  HeartbeatMessage_from_bytes self frame = Ret m.
Proof.
  unfold to_bytes. intros Hpack Hty Hlrm Hpl.
  unfold HeartbeatMessage_from_bytes.
  rewrite (struct_unpack_pack _ _ _ Hpack). rewrite Hty, Hlrm, Hpl.
  destruct m as [[]]. reflexivity.
Qed.

Lemma lor_shiftl_halves (z : Z) :
  Z.lor (Z.shiftl (z / 2 ^ 32) 32) (z mod 2 ^ 32) = z.
Proof.
  apply Z.bits_inj'. intros n Hn.
  rewrite Z.lor_spec.
  destruct (Z.ltb_spec n 32) as [Hlt|Hge].
  - rewrite Z.shiftl_spec_low by lia. cbn [orb].
    apply Z.mod_pow2_bits_low. lia.
  - rewrite Z.shiftl_spec by lia.
    rewrite Z.mod_pow2_bits_high by lia. rewrite orb_false_r.
    rewrite <- Z.shiftr_div_pow2 by lia.
    rewrite Z.shiftr_spec by lia. f_equal. lia.
Qed.

(** X5.  [NewSessionMessage.from_tuple] puts the two halves of a session id
    together again: for every session id split into its part above bit 32
    and its lower 32 bits, the session id stored is the one that was
    split. *)
Theorem NewSessionMessage_from_tuple_session
    (self : NewSessionMessage) (size seq session version : Z) :
  exists m,
    NewSessionMessage_from_tuple self
      [size; seq; session / 2 ^ 32; session mod 2 ^ 32; version] = Ret m /\
    fedProMessage.my_session_id (ns_base m) = session /\
    my_msg_size (ns_base m) = size /\
    fedProMessage.my_sequence_num (ns_base m) = seq /\
    my_protocol_version m = version.
Proof.
  eexists. split; [reflexivity|].
  cbn [ns_base fedProMessage.my_session_id my_msg_size
       fedProMessage.my_sequence_num my_protocol_version].
  rewrite lor_shiftl_halves. auto.
Qed.

(** X6.  A session status that is [UNSET], as [clear] leaves it, cannot be
    serialized: its value -1 does not fit the unsigned slot, and [to_bytes]
    raises [struct.error]. *)
Theorem NewSessionStatusMessage_unset_not_serializable (m : NewSessionStatusMessage) :
  my_status m = UNSET ->
  NewSessionStatusMessage_to_bytes m = None.
Proof.
  intros Hst. unfold NewSessionStatusMessage_to_bytes, package_bytes.
  cbn [fst snd app]. rewrite Hst. cbn [struct_pack SessionStatus_value].
  destruct (pack_uint _ (my_msg_size _)); [|reflexivity].
  destruct (pack_uint _ (fedProMessage.my_sequence_num _)); [|reflexivity].
  destruct (pack_uint _ (fedProMessage.my_session_id _)); [|reflexivity].
  destruct (pack_uint _ (my_msg_type _)); reflexivity.
Qed.

Lemma be_value_app bs1 : forall acc bs2,
  be_value acc (bs1 ++ bs2) = be_value (be_value acc bs1) bs2.
Proof. induction bs1 as [|b bs1 IH]; intros acc bs2; cbn; auto. Qed.

(** Unpacking one field from the front of any buffer that is long
    enough. *)
Lemma struct_unpack_front c fmt bs rest :
  length bs = fmt_width c ->
  struct_unpack (c :: fmt) (bs ++ rest) =
  match struct_unpack fmt rest with
  | Some vs => Some (be_value 0 bs :: vs)
  | None => None
  end.
Proof.
  intros Hlen. cbn [struct_unpack].
  assert (Hlt : (length (bs ++ rest) <? fmt_width c)%nat = false).
  { apply Nat.ltb_ge. rewrite length_app. lia. }
  rewrite Hlt, skipn_app, firstn_app, Hlen, Nat.sub_diag.
  rewrite <- Hlen, skipn_all, firstn_all. cbn [skipn firstn app].
  rewrite app_nil_r. change (drop 0 rest) with rest.
  destruct (struct_unpack fmt rest); reflexivity.
Qed.

Section DecoderProperties.
Context `{Protobuf}.

Lemma header_pack_Some (b : FedProMessage) hdr :
  struct_pack [fmt_I; fmt_I; fmt_Q; fmt_I; fmt_I]
    [my_msg_size b; fedProMessage.my_sequence_num b; fedProMessage.my_session_id b;
     my_last_received_msg b; my_msg_type b] = Some hdr ->
  (0 <= my_msg_size b < 256 ^ 4 /\
   0 <= fedProMessage.my_sequence_num b < 256 ^ 4 /\
   0 <= fedProMessage.my_session_id b < 256 ^ 8 /\
   0 <= my_last_received_msg b < 256 ^ 4 /\
   0 <= my_msg_type b < 256 ^ 4) /\
  hdr = be_bytes 4 (my_msg_size b) ++ be_bytes 4 (fedProMessage.my_sequence_num b) ++
        be_bytes 8 (fedProMessage.my_session_id b) ++
        be_bytes 4 (my_last_received_msg b) ++ be_bytes 4 (my_msg_type b).
Proof.
  intros Heq.
  apply struct_pack_cons_Some in Heq. destruct Heq as (r1 & H1 & Heq & ->).
  apply struct_pack_cons_Some in Heq. destruct Heq as (r2 & H2 & Heq & ->).
  apply struct_pack_cons_Some in Heq. destruct Heq as (r3 & H3 & Heq & ->).
  apply struct_pack_cons_Some in Heq. destruct Heq as (r4 & H4 & Heq & ->).
  apply struct_pack_cons_Some in Heq. destruct Heq as (r5 & H5 & Heq & ->).
  apply struct_pack_nil_Some in Heq. subst r5.
  cbn [fmt_width] in *. rewrite app_nil_r. auto 10.
Qed.

Lemma CallRequestMessage_to_bytes_Some (m : CallRequestMessage) frame :
  CallRequestMessage_to_bytes m = Some frame ->
  (0 <= my_msg_size (cq_base m) < 256 ^ 4 /\
   0 <= fedProMessage.my_sequence_num (cq_base m) < 256 ^ 4 /\
   0 <= fedProMessage.my_session_id (cq_base m) < 256 ^ 8 /\
   0 <= my_last_received_msg (cq_base m) < 256 ^ 4 /\
   0 <= my_msg_type (cq_base m) < 256 ^ 4) /\
  frame = be_bytes 4 (my_msg_size (cq_base m)) ++
          be_bytes 4 (fedProMessage.my_sequence_num (cq_base m)) ++
          be_bytes 8 (fedProMessage.my_session_id (cq_base m)) ++
          be_bytes 4 (my_last_received_msg (cq_base m)) ++
          be_bytes 4 (my_msg_type (cq_base m)) ++
          CallRequest_SerializeToString (my_request_data m).
Proof.
  unfold CallRequestMessage_to_bytes. cbv zeta. intros Heq.
  destruct (struct_pack _ _) as [hdr|] eqn:Ehdr; [|discriminate].
  cbn in Heq. injection Heq as <-.
  apply header_pack_Some in Ehdr. destruct Ehdr as [Hr ->].
  split; [exact Hr|]. rewrite <- !app_assoc. reflexivity.
Qed.

(** X7.  The frame of a call request, read by the base decoder as the socket
    layer reads every inbound frame: all five header fields come back, the
    last-received number included, and the payload is the serialized
    request when the frame declares more than 24 bytes. *)
Theorem CallRequestMessage_frame_decodes
    (m : CallRequestMessage) (self : FedProMessage) (t : MsgType) (frame : bytes) :
  my_msg_type (cq_base m) = MsgType_value t ->
  CallRequestMessage_to_bytes m = Some frame ->
  from_bytes self (frame_segments frame) =
  Some {| my_msg_type := my_msg_type (cq_base m);
          my_msg_size := my_msg_size (cq_base m);
          fedProMessage.my_session_id := fedProMessage.my_session_id (cq_base m);
          fedProMessage.my_sequence_num := fedProMessage.my_sequence_num (cq_base m);
          my_last_received_msg := my_last_received_msg (cq_base m);
          my_payload := if 24 <? my_msg_size (cq_base m)
                        then CallRequest_SerializeToString (my_request_data m)
                        else my_payload self |}.
Proof.
  intros Hty Hpack.
  destruct (CallRequestMessage_to_bytes_Some _ _ Hpack)
    as [(Hsz & Hsq & Hss & Hlrm & _) ->].
  rewrite Hty. apply from_bytes_frame; assumption.
Qed.

(** X8.  [CallRequestMessage.from_bytes] applied to the segments of the frame
    that [to_bytes] wrote does not read the header back: it unpacks the 24
    bytes after the size as ['>IIQII'] where the frame holds a 4-byte
    sequence number, an 8-byte session id, a 4-byte last-received number, a
    4-byte message type and the payload.  The session id read is the upper
    half of the one written, the last-received number read is the lower
    half of the session id followed by the last-received number written,
    and the request type read is the first four bytes of the payload. *)
Theorem CallRequestMessage_from_bytes_of_to_bytes
    (m self : CallRequestMessage) (t : MsgType) (frame : bytes) :
  my_msg_type (cq_base m) = MsgType_value t ->
  CallRequestMessage_to_bytes m = Some frame ->
  (4 <= length (CallRequest_SerializeToString (my_request_data m)))%nat ->
  CallRequestMessage_from_bytes self (frame_segments frame) =
  Ret {| cq_base :=
           {| my_msg_type := my_msg_type (cq_base m);
              my_msg_size := my_msg_size (cq_base m);
              fedProMessage.my_session_id :=
                fedProMessage.my_session_id (cq_base m) / 2 ^ 32;
              fedProMessage.my_sequence_num :=
                fedProMessage.my_sequence_num (cq_base m);
              my_last_received_msg :=
                (fedProMessage.my_session_id (cq_base m) mod 2 ^ 32) * 2 ^ 32
                + my_last_received_msg (cq_base m);
              my_payload := my_payload (cq_base self) |};
         my_request_type :=
           be_value 0 (firstn 4 (CallRequest_SerializeToString (my_request_data m)));
         my_request_data := my_request_data self |}.
Proof.
  intros Hty Hpack Hlen.
  destruct (CallRequestMessage_to_bytes_Some _ _ Hpack)
    as [(Hsz & Hsq & Hss & Hlrm & Hmt) ->].
  set (payload := CallRequest_SerializeToString (my_request_data m)) in *.
  set (sess := fedProMessage.my_session_id (cq_base m)) in *.
  rewrite frame_segments_app.
  unfold CallRequestMessage_from_bytes. cbn [lookup list_lookup].
  assert (Hsplit : be_bytes 8 sess = be_bytes 4 (sess / 256 ^ 4) ++ be_bytes 4 sess).
  { change 8%nat with (4 + 4)%nat. apply be_bytes_app. }
  assert (Hslice :
    slice 0 24 (be_bytes 4 (fedProMessage.my_sequence_num (cq_base m)) ++
                be_bytes 8 sess ++ be_bytes 4 (my_last_received_msg (cq_base m)) ++
                be_bytes 4 (my_msg_type (cq_base m)) ++ payload)
    = be_bytes 4 (fedProMessage.my_sequence_num (cq_base m)) ++
      be_bytes 4 (sess / 256 ^ 4) ++
      (be_bytes 4 sess ++ be_bytes 4 (my_last_received_msg (cq_base m))) ++
      be_bytes 4 (my_msg_type (cq_base m)) ++ firstn 4 payload ++ []).
  { unfold slice. cbn [Nat.sub skipn]. rewrite Hsplit.
    repeat (rewrite <- ?app_assoc;
            rewrite firstn_app, length_be_bytes;
            rewrite (firstn_all2 (be_bytes _ _)) by (rewrite length_be_bytes; lia);
            f_equal; cbn [Nat.sub]).
    rewrite app_nil_r. reflexivity. }
  rewrite Hslice.
  rewrite struct_unpack_I by exact Hsq.
  rewrite struct_unpack_front by (rewrite length_be_bytes; reflexivity).
  rewrite struct_unpack_front by (rewrite length_app, !length_be_bytes; reflexivity).
  rewrite struct_unpack_I by exact Hmt.
  rewrite struct_unpack_front
    by (rewrite length_firstn; cbn [fmt_width]; lia).
  change (struct_unpack [] []) with (Some (@nil Z)).
  rewrite struct_unpack_I_one by exact Hsz.
  rewrite Hty, MsgType_of_Z_value.
  rewrite be_value_app, !be_value_be_bytes.
  assert (H32 : 256 ^ Z.of_nat 4 = 2 ^ 32) by reflexivity.
  assert (H64 : 256 ^ 8 = 2 ^ 32 * 2 ^ 32) by reflexivity.
  rewrite H32. change (256 ^ 4) with (2 ^ 32) in *.
  assert (Hhi : 0 <= sess / 2 ^ 32 < 2 ^ 32).
  { split; [apply Z.div_pos; lia|]. apply Z.div_lt_upper_bound; lia. }
  rewrite (Z.mod_small (sess / 2 ^ 32)) by exact Hhi.
  rewrite (Z.mod_small (my_last_received_msg (cq_base m))) by exact Hlrm.
  repeat f_equal; lia.
Qed.

End DecoderProperties.

(** ** The socket's reader: [get_message] *)

Lemma struct_unpack_length fmt : forall bs vs,
  struct_unpack fmt bs = Some vs ->
  length bs = fold_right (fun c n => (fmt_width c + n)%nat) 0%nat fmt.
Proof.
  induction fmt as [|c fmt IH]; intros bs vs.
  - cbn. destruct bs; [reflexivity|discriminate].
  - cbn [struct_unpack fold_right].
    destruct (length bs <? fmt_width c)%nat eqn:Elt; [discriminate|].
    apply Nat.ltb_ge in Elt.
    destruct (struct_unpack fmt (skipn (fmt_width c) bs)) as [rest|] eqn:Er;
      [|discriminate].
    intros _. apply IH in Er. rewrite length_skipn in Er. lia.
Qed.

Lemma struct_unpack_I_exact b0 :
  length b0 = 4%nat -> struct_unpack [fmt_I] b0 = Some [be_value 0 b0].
Proof.
  intros Hlen. rewrite <- (app_nil_r b0) at 1.
  rewrite struct_unpack_front by exact Hlen. reflexivity.
Qed.

Lemma from_bytes_Some_inv self buffer m :
  from_bytes self buffer = Some m ->
  exists b0 b1, buffer !! 0%nat = Some b0 /\ buffer !! 1%nat = Some b1 /\
                length b0 = 4%nat /\ length (slice 0 20 b1) = 20%nat.
Proof.
  unfold from_bytes. intros Heq.
  destruct (buffer !! 0%nat) as [b0|] eqn:E0; [|discriminate]. cbn [mbind option_bind] in Heq.
  destruct (struct_unpack [fmt_I] b0) as [size|] eqn:Es; [|discriminate]. cbn [mbind option_bind] in Heq.
  destruct (buffer !! 1%nat) as [b1|] eqn:E1; [|discriminate]. cbn [mbind option_bind] in Heq.
  destruct (struct_unpack [fmt_I; fmt_Q; fmt_I; fmt_I] (slice 0 20 b1)) as [ins|] eqn:Ei;
    [|discriminate].
  apply struct_unpack_length in Es, Ei. cbn in Es, Ei. eauto 10.
Qed.

Lemma buffered_ge_first b0 buffer :
  buffer !! 0%nat = Some b0 -> Z.of_nat (length b0) <= buffered buffer.
Proof.
  destruct buffer as [|b bs]; [discriminate|]. cbn. intros [= ->].
  unfold buffered. cbn [concat]. rewrite length_app. lia.
Qed.

(** With three segments or more in the buffer the decoded envelope is
    compared with a declared length of 0: no message is returned. *)
Lemma decode_buffer_0_undelivered self r self' :
  decode_buffer 0 self = (Ret r, self') ->
  self' = self /\ 0 < buffered (my_recv_buffer self).
Proof.
  unfold decode_buffer.
  destruct (from_bytes _ _) as [m|] eqn:Ed; [|discriminate].
  intros [= <- <-]. split; [reflexivity|].
  apply from_bytes_Some_inv in Ed. destruct Ed as (b0 & b1 & H0 & _ & Hl & _).
  pose proof (buffered_ge_first _ _ H0). lia.
Qed.

Lemma fillBuffer_buffer size self r self' :
  fillBuffer size self = (r, self') ->
  (r = Ret true /\ exists data, my_recv_buffer self' = my_recv_buffer self ++ [data] /\
                               (length data <= size)%nat)
  \/ (r <> Ret true /\ my_recv_buffer self' = my_recv_buffer self).
Proof.
  unfold fillBuffer, recv.
  destruct (recv_socket self) as [incoming|].
  - destruct incoming as [|[chunk| |] rest]; cbn; intros [= <- <-]; cbn;
      try (right; split; [discriminate|reflexivity]).
    left. split; [reflexivity|]. eexists. split; [reflexivity|].
    rewrite length_firstn. lia.
  - intros [= <- <-]. right. split; [discriminate|reflexivity].
Qed.

Lemma stuck_app buffer data : stuck buffer -> stuck (buffer ++ [data]).
Proof.
  intros [Hlen|(b0 & -> & _)]; left.
  - rewrite length_app. lia.
  - cbn. lia.
Qed.

Lemma decode_buffer_short msg_length self b1 :
  my_recv_buffer self !! 1%nat = Some b1 -> (length b1 <= 4)%nat ->
  exists e, decode_buffer msg_length self = (Raise e, self).
Proof.
  intros H1 Hlen. unfold decode_buffer.
  destruct (from_bytes _ _) as [m|] eqn:Ed; [|eauto].
  apply from_bytes_Some_inv in Ed. destruct Ed as (b0 & b1' & _ & H1' & _ & Hs).
  pose proof (eq_trans (eq_sym H1) H1') as Hb. injection Hb as <-.
  unfold slice in Hs. rewrite length_firstn, length_skipn in Hs. lia.
Qed.

(** The first part of [get_message] on a buffer that was stuck before the
    segment [data] of at most four bytes was appended. *)
Lemma read_segments_stuck self buffer data r self' :
  stuck buffer ->
  my_recv_buffer self = buffer ++ [data] -> (length data <= 4)%nat ->
  read_segments self = (r, self') ->
  stuck (my_recv_buffer self') /\
  ((exists e, r = Raise e) \/
   (exists m, r = Ret (0, m)) /\ 0 < buffered (my_recv_buffer self')).
Proof.
  intros Hstuck Hbuf Hdata. unfold read_segments.
  assert (Hs1 : stuck (my_recv_buffer self)) by (rewrite Hbuf; apply stuck_app, Hstuck).
  destruct (length (my_recv_buffer self) <? 3)%nat eqn:Elen.
  - apply Nat.ltb_lt in Elen. rewrite Hbuf, length_app in Elen. cbn in Elen.
    destruct Hstuck as [Hlen|(b0 & -> & Hb0)]; [lia|].
    rewrite Hbuf. cbn [app lookup list_lookup].
    destruct (Nat.eq_dec (length b0) 4%nat) as [Hl4|Hl4].
    + rewrite struct_unpack_I_exact by exact Hl4.
      destruct Hb0 as [Hne|Hbig]; [contradiction|].
      assert (Hbig' : (24 <=? be_value 0 b0) = true) by (apply Z.leb_le; exact Hbig).
      rewrite Hbig'.
      destruct (fillBuffer _ self) as [r2 self2] eqn:Ef.
      apply fillBuffer_buffer in Ef.
      assert (H1 : my_recv_buffer self2 !! 1%nat = Some data).
      { destruct Ef as [(_ & d2 & -> & _)|(_ & ->)]; rewrite Hbuf; reflexivity. }
      assert (Hs2 : stuck (my_recv_buffer self2)).
      { destruct Ef as [(_ & d2 & -> & _)|(_ & ->)]; [apply stuck_app|]; exact Hs1. }
      destruct r2 as [b|e].
      * destruct (decode_buffer_short (be_value 0 b0) self2 data H1 Hdata) as [e He].
        rewrite He. intros [= <- <-]. split; [exact Hs2|]. left. eauto.
      * intros [= <- <-]. split; [exact Hs2|]. left. eauto.
    + destruct (struct_unpack [fmt_I] b0) as [vs|] eqn:Eu.
      * apply struct_unpack_length in Eu. cbn in Eu. contradiction.
      * intros [= <- <-]. split; [exact Hs1|]. left. eauto.
  - unfold decode_buffer.
    destruct (from_bytes _ _) as [m|] eqn:Ed.
    + intros [= <- <-]. split; [exact Hs1|]. right. split; [eauto|].
      apply from_bytes_Some_inv in Ed. destruct Ed as (b0 & b1 & H0 & _ & Hl & _).
      pose proof (buffered_ge_first _ _ H0). lia.
    + intros [= <- <-]. split; [exact Hs1|]. left. eauto.
Qed.

Lemma get_message_stuck self :
  stuck (my_recv_buffer self) ->
  undelivered (fst (get_message self)) /\
  stuck (my_recv_buffer (snd (get_message self))).
Proof.
  intros Hstuck. unfold get_message, undelivered.
  destruct (recv_socket self) as [incoming|] eqn:Es; [|cbn; eauto].
  destruct (fillBuffer 4 self) as [r1 self1] eqn:Ef.
  apply fillBuffer_buffer in Ef.
  destruct Ef as [(-> & data & Hbuf & Hlen)|(Hne & Hbuf)].
  - destruct (read_segments self1) as [r2 self2] eqn:Er.
    destruct (read_segments_stuck _ _ _ _ _ Hstuck Hbuf Hlen Er)
      as [Hs2 [[e ->]|[[m ->] Hpos]]].
    + cbn. eauto.
    + assert (E1 : (0 =? buffered (my_recv_buffer self2)) = false)
        by (apply Z.eqb_neq; lia).
      assert (E2 : (0 <? buffered (my_recv_buffer self2)) = true)
        by (apply Z.ltb_lt; lia).
      rewrite E1, E2. cbn. eauto.
  - destruct r1 as [[|]|e]; [contradiction| |]; cbn; rewrite Hbuf; eauto.
Qed.

Lemma get_messages_stuck (n : nat) (self : RecvSocket) :
  stuck (my_recv_buffer self) ->
  Forall undelivered (fst (get_messages n self)) /\
  stuck (my_recv_buffer (snd (get_messages n self))).
Proof.
  revert self. induction n as [|n IH]; intros self Hstuck.
  - cbn. split; [constructor|exact Hstuck].
  - cbn [get_messages].
    destruct (get_message_stuck self Hstuck) as [Hr Hs].
    destruct (get_message self) as [r self1]. cbn [fst snd] in Hr, Hs.
    destruct (IH self1 Hs) as [Hrs Hs'].
    destruct (get_messages n self1) as [rs self2]. cbn [fst snd] in *.
    split; [constructor; assumption|exact Hs'].
Qed.

(** X9.  Once the buffer is stuck, no call of [get_message] returns a message
    any more, however many bytes arrive: each call returns the envelope of
    type [INVALID] or raises, and the segments stay in the buffer. *)
Theorem get_message_never_recovers (n : nat) (self : RecvSocket) :
  stuck (my_recv_buffer self) ->
  Forall undelivered (fst (get_messages n self)) /\
  stuck (my_recv_buffer (snd (get_messages n self))).
Proof. exact (get_messages_stuck n self). Qed.

Lemma fillBuffer_bytes size chunk rest buffer :
  fillBuffer size {| recv_socket := Some (RecvBytes chunk :: rest);
                     my_recv_buffer := buffer |}
  = (Ret true,
     {| recv_socket := Some (if (length chunk <=? size)%nat then rest
                             else RecvBytes (skipn size chunk) :: rest);
        my_recv_buffer := buffer ++ [firstn size chunk] |}).
Proof. reflexivity. Qed.

Lemma buffered_segments frame :
  buffered (frame_segments frame) = Z.of_nat (length frame).
Proof.
  unfold buffered, frame_segments. cbn [concat]. rewrite app_nil_r.
  rewrite firstn_skipn. reflexivity.
Qed.

Lemma get_message_whole
    (frame more : bytes) (rest : list Recv) (m : FedProMessage) :
  (24 <= length frame)%nat ->
  be_value 0 (firstn 4 frame) = Z.of_nat (length frame) ->
  from_bytes placeholder_message (frame_segments frame) = Some m ->
  get_message {| recv_socket := Some (RecvBytes (frame ++ more) :: rest);
                 my_recv_buffer := [] |}
  = (Ret m,
     {| recv_socket := Some (match more with
                             | [] => rest
                             | _ :: _ => RecvBytes more :: rest
                             end);
        my_recv_buffer := [] |}).
Proof.
  intros Hlen Hdecl Hfrom.
  unfold get_message. cbn [recv_socket]. rewrite fillBuffer_bytes.
  assert (Hgt : (length (frame ++ more) <=? 4)%nat = false).
  { apply Nat.leb_gt. rewrite length_app. lia. }
  rewrite Hgt. cbn [app].
  assert (Htake : firstn 4 (frame ++ more) = firstn 4 frame).
  { rewrite firstn_app. replace (4 - length frame)%nat with 0%nat by lia.
    change (take 0 more) with (@nil byte). apply app_nil_r. }
  assert (Hdrop : skipn 4 (frame ++ more) = skipn 4 frame ++ more).
  { rewrite skipn_app. replace (4 - length frame)%nat with 0%nat by lia.
    reflexivity. }
  rewrite Htake, Hdrop.
  unfold read_segments. cbn [my_recv_buffer length Nat.ltb Nat.leb lookup list_lookup].
  rewrite struct_unpack_I_exact by (rewrite length_firstn; lia).
  rewrite Hdecl.
  assert (H24 : (24 <=? Z.of_nat (length frame)) = true) by (apply Z.leb_le; lia).
  rewrite H24, fillBuffer_bytes.
  replace (Z.to_nat (Z.of_nat (length frame) - 4)) with (length frame - 4)%nat by lia.
  assert (Htake2 : firstn (length frame - 4) (skipn 4 frame ++ more) = skipn 4 frame).
  { rewrite firstn_app, length_skipn, Nat.sub_diag.
    change (take 0 more) with (@nil byte). rewrite app_nil_r.
    apply firstn_all2. rewrite length_skipn. lia. }
  assert (Hdrop2 : skipn (length frame - 4) (skipn 4 frame ++ more) = more).
  { rewrite skipn_app, length_skipn, Nat.sub_diag.
    rewrite skipn_all2 by (rewrite length_skipn; lia). reflexivity. }
  rewrite Htake2, Hdrop2. cbn [app].
  unfold decode_buffer. cbn [my_recv_buffer].
  change [firstn 4 frame; skipn 4 frame] with (frame_segments frame).
  rewrite Hfrom. cbn [my_recv_buffer].
  change [firstn 4 frame; skipn 4 frame] with (frame_segments frame).
  rewrite buffered_segments, Z.eqb_refl. cbn [recv_socket].
  rewrite length_app, length_skipn.
  destruct more as [|b more].
  - cbn [length]. replace (length frame - 4 + 0 <=? length frame - 4)%nat with true
      by (symmetry; apply Nat.leb_le; lia). reflexivity.
  - cbn [length]. replace (length frame - 4 + S (length more) <=? length frame - 4)%nat
      with false by (symmetry; apply Nat.leb_gt; lia). reflexivity.
Qed.

(** X10.  A frame that is at hand in full, possibly followed by the beginning of
    the next one, whose first four bytes declare its length, header
    included: [get_message] takes exactly the bytes of the frame from the
    socket, returns the envelope that [from_bytes] reads from its two
    segments, and leaves the buffer empty. *)
Theorem get_message_whole_frame
    (frame more : bytes) (rest : list Recv) (m : FedProMessage) :
  (24 <= length frame)%nat ->
  be_value 0 (firstn 4 frame) = Z.of_nat (length frame) ->
  from_bytes placeholder_message (frame_segments frame) = Some m ->
  get_message {| recv_socket := Some (RecvBytes (frame ++ more) :: rest);
                 my_recv_buffer := [] |}
  = (Ret m,
     {| recv_socket := Some (match more with
                             | [] => rest
                             | _ :: _ => RecvBytes more :: rest
                             end);
        my_recv_buffer := [] |}).
Proof. exact (get_message_whole frame more rest m). Qed.

(** X11.  A frame of which more than its first four bytes, but not all the bytes
    it declares, are at hand when [get_message] reads it: that call
    returns no message, and neither does any later call, whatever arrives
    afterwards; the message is lost and so is every message after it. *)
Theorem get_message_partial_frame
    (n : nat) (chunk : bytes) (rest : list Recv) :
  (4 < length chunk)%nat ->
  24 <= be_value 0 (firstn 4 chunk) ->
  Z.of_nat (length chunk) < be_value 0 (firstn 4 chunk) ->
  Forall undelivered
    (fst (get_messages n {| recv_socket := Some (RecvBytes chunk :: rest);
                            my_recv_buffer := [] |})).
Proof.
  intros Hlen H24 Hshort.
  destruct n as [|n]; [constructor|]. cbn [get_messages].
  unfold get_message at 1. cbn [recv_socket]. rewrite fillBuffer_bytes.
  assert (Hgt : (length chunk <=? 4)%nat = false) by (apply Nat.leb_gt; lia).
  rewrite Hgt. cbn [app].
  unfold read_segments. cbn [my_recv_buffer length Nat.ltb Nat.leb lookup list_lookup].
  rewrite struct_unpack_I_exact by (rewrite length_firstn; lia).
  assert (H24' : (24 <=? be_value 0 (firstn 4 chunk)) = true) by (apply Z.leb_le; lia).
  rewrite H24', fillBuffer_bytes. cbn [app].
  assert (Htake : firstn (Z.to_nat (be_value 0 (firstn 4 chunk) - 4)) (skipn 4 chunk)
                  = skipn 4 chunk).
  { apply firstn_all2. rewrite length_skipn. lia. }
  rewrite Htake.
  match goal with |- context [decode_buffer _ ?s] => set (self2 := s) end.
  assert (Hstuck : stuck (my_recv_buffer self2)) by (left; cbn; lia).
  assert (Hbuf : buffered (my_recv_buffer self2) = Z.of_nat (length chunk)).
  { apply (buffered_segments chunk). }
  unfold decode_buffer.
  destruct (from_bytes placeholder_message (my_recv_buffer self2)) as [m|].
  - rewrite Hbuf.
    assert (E1 : (be_value 0 (firstn 4 chunk) =? Z.of_nat (length chunk)) = false)
      by (apply Z.eqb_neq; lia).
    assert (E2 : (be_value 0 (firstn 4 chunk) <? Z.of_nat (length chunk)) = false)
      by (apply Z.ltb_ge; lia).
    rewrite E1, E2.
    destruct (get_messages_stuck n self2 Hstuck) as [Hrs _].
    destruct (get_messages n self2) as [rs self3]. cbn [fst] in *.
    constructor; [left; reflexivity|exact Hrs].
  - destruct (get_messages_stuck n self2 Hstuck) as [Hrs _].
    destruct (get_messages n self2) as [rs self3]. cbn [fst] in *.
    constructor; [right; eauto|exact Hrs].
Qed.

(** X12.  A length below 24 in the first four bytes: [get_message] does not
    decode anything.  A declared length of exactly 4 gives the envelope of
    type -99 with which the method starts, and empties the buffer; a
    smaller one raises [FedProMessageError]; a larger one gives the
    envelope of type [INVALID] and keeps the four bytes in the buffer. *)
Theorem get_message_short_length (chunk : bytes) (rest : list Recv) :
  (4 <= length chunk)%nat ->
  be_value 0 (firstn 4 chunk) < 24 ->
  let incoming' := if (length chunk <=? 4)%nat then rest
                   else RecvBytes (skipn 4 chunk) :: rest in
  let kept := {| recv_socket := Some incoming';
                 my_recv_buffer := [firstn 4 chunk] |} in
  get_message {| recv_socket := Some (RecvBytes chunk :: rest);
                 my_recv_buffer := [] |}
  = if be_value 0 (firstn 4 chunk) =? 4 then
      (Ret placeholder_message,
       {| recv_socket := Some incoming'; my_recv_buffer := [] |})
    else if be_value 0 (firstn 4 chunk) <? 4 then
      (Raise (FedProMessageError "Received message larger than expected"), kept)
    else (Ret no_message, kept).
Proof.
  intros Hlen Hsmall. cbv zeta.
  unfold get_message. cbn [recv_socket]. rewrite fillBuffer_bytes. cbn [app].
  unfold read_segments. cbn [my_recv_buffer length Nat.ltb Nat.leb lookup list_lookup].
  rewrite struct_unpack_I_exact by (rewrite length_firstn; lia).
  assert (H24 : (24 <=? be_value 0 (firstn 4 chunk)) = false) by (apply Z.leb_gt; lia).
  rewrite H24. cbn [my_recv_buffer recv_socket].
  assert (Hbuf : buffered [firstn 4 chunk] = 4).
  { unfold buffered. cbn [concat]. rewrite app_nil_r, length_firstn. lia. }
  rewrite Hbuf. reflexivity.
Qed.

(** ** What the engine leaves alone *)

Section EngineProperties.
Context `{Protobuf}.

Lemma steady_refl st : steady st st.
Proof.
  split; try reflexivity; exists []; rewrite app_nil_r; reflexivity.
Qed.

Lemma steady_trans st1 st2 st3 : steady st1 st2 -> steady st2 st3 -> steady st1 st3.
Proof.
  intros [F1 E1 O1 C1 T1 A1 [q1 Q1] [f1 S1] [c1 K1]]
         [F2 E2 O2 C2 T2 A2 [q2 Q2] [f2 S2] [c2 K2]].
  split; try congruence.
  - exists (q1 ++ q2). rewrite Q2, Q1, app_assoc. reflexivity.
  - exists (f1 ++ f2). rewrite S2, S1, app_assoc. reflexivity.
  - exists (c1 ++ c2). rewrite K2, K1, app_assoc. reflexivity.
Qed.

Lemma sd_ret {A} (a : A) : preserves steady (ret a).
Proof. apply preserves_ret, steady_refl. Qed.

Lemma sd_raise {A} e : preserves steady (raise (A := A) e).
Proof. apply preserves_raise, steady_refl. Qed.

Lemma sd_bind {A B} (c : M A) (k : A -> M B) :
  preserves steady c -> (forall a, preserves steady (k a)) ->
  preserves steady (bind c k).
Proof. apply preserves_bind, steady_trans. Qed.

Lemma sd_try_except {A} (body : M A) caught handler :
  preserves steady body -> (forall e, preserves steady (handler e)) ->
  preserves steady (try_except body caught handler).
Proof. apply preserves_try_except, steady_trans. Qed.

Lemma sd_MsgSocket_send_message msg : preserves steady (MsgSocket_send_message msg).
Proof.
  intros st. unfold MsgSocket_send_message.
  destruct (Request_to_bytes msg) as [frame|]; cbn; [|apply steady_refl].
  destruct (next_write_fails (my_socket st)); steady_step.
Qed.

Lemma sd_send_message request scr : preserves steady (send_message request scr).
Proof.
  intros st. unfold send_message. unfold bind at 1. unfold get. cbn.
  destruct (is_connected st); [|apply steady_refl].
  apply sd_bind; [apply sd_MsgSocket_send_message | intros a; apply sd_ret].
Qed.

Lemma sd_send_callback_response seq succ :
  preserves steady (send_callback_response seq succ).
Proof.
  unfold send_callback_response.
  apply sd_bind; [apply sd_send_message | intros a; apply sd_ret].
Qed.

Lemma sd_invoke meth request : preserves steady (invoke meth request).
Proof.
  intros st. unfold invoke.
  destruct (federate_ambassador_handler st) as [fa|] eqn:Hfa; [|apply steady_refl].
  destruct (behaviour _ _ _); cbn; steady_step.
Qed.

Lemma sd_reset pf ic :
  preserves steady (modify (reset_interaction_parameter_values pf ic)).
Proof.
  intros st. unfold modify, reset_interaction_parameter_values. cbn.
  destruct (federate_ambassador_handler st) as [fa|] eqn:Hfa; [|apply steady_refl].
  split; cbn; try reflexivity; try (exists []; rewrite app_nil_r; reflexivity).
  unfold attr_maps. cbn. rewrite Hfa. reflexivity.
Qed.

Lemma sd_field_of message : preserves steady (field_of message).
Proof. destruct message; [apply sd_ret | apply sd_raise]. Qed.

Lemma sd_listed_values request : preserves steady (listed_values request).
Proof.
  unfold listed_values.
  destruct (CallbackRequest_values_listed request); [apply sd_ret | apply sd_raise].
Qed.

Lemma sd_respond_failure seq e : preserves steady (respond_failure seq e).
Proof. apply sd_send_callback_response. Qed.

Create HintDb steady discriminated.
#[local] Hint Resolve sd_ret sd_raise sd_bind sd_try_except sd_field_of
  sd_listed_values sd_respond_failure sd_reset sd_send_callback_response
  sd_invoke sd_send_message : steady.

Lemma sd_call_CallbackMethod m message seq :
  preserves steady (call_CallbackMethod m message seq).
Proof.
  destruct m; cbn [call_CallbackMethod];
    unfold connection_lost, report_federation_executions,
      report_federation_execution_members,
      report_federation_execution_does_not_exist, federate_resigned,
      object_name_reservation_failed, object_instance_name_reservation_succeeded,
      discover_object_instance, remove_object_instance, reflect_attribute_values,
      receive_interaction, unknown_callback, guarded;
    auto 12 with steady.
Qed.

Lemma sd_handle_callback_request message :
  preserves steady (handle_callback_request message).
Proof.
  intros st. unfold handle_callback_request. unfold bind at 1. unfold get. cbn.
  destruct (my_callback_functions st !! cbq_hla_msg_type message) as [m|].
  - apply sd_call_CallbackMethod.
  - destruct (my_callback_functions st !! (-99)) as [m|].
    + apply sd_call_CallbackMethod.
    + apply steady_refl.
Qed.

Lemma sd_process_heartbeat_response hb :
  preserves steady (process_heartbeat_response hb).
Proof.
  intros st. unfold process_heartbeat_response, clear_expectation.
  run_handler; steady_step.
Qed.

Lemma sd_process_new_session_status ns :
  preserves steady (process_new_session_status ns).
Proof.
  intros st. unfold process_new_session_status, clear_expectation.
  run_handler; steady_step.
Qed.

Lemma sd_process_call_response cr :
  preserves steady (process_call_response cr).
Proof.
  intros st. unfold process_call_response, clear_expectation.
  run_handler; steady_step.
Qed.

Lemma sd_process_callback_request cb :
  preserves steady (process_callback_request cb).
Proof.
  intros st. rewrite process_callback_request_unfold. cbv zeta.
  destruct (my_queue_callback_requests st) eqn:Hq.
  - cbn. steady_step.
  - destruct (federate_ambassador_handler st) as [fa|] eqn:Hfa; [|cbn; steady_step].
    match goal with
    | |- context [handle_callback_request cb ?s] =>
        pose proof (sd_handle_callback_request cb s) as Hh;
        assert (Hs : steady st s) by steady_step;
        destruct (handle_callback_request cb s) as [[u|e] st2]
    end; cbn in *; eapply steady_trans; eauto.
Qed.

Lemma sd_cast_and_handle entry message :
  preserves steady (cast_and_handle entry message).
Proof.
  intros st. rewrite cast_and_handle_unfold.
  destruct entry.
  - destruct (NewSessionStatusMessage_init message) as [m|e]; [|apply steady_refl].
    eapply steady_trans; [|apply sd_process_new_session_status]. steady_step.
  - eapply steady_trans; [|apply sd_process_heartbeat_response]. steady_step.
  - cbn. steady_step.
  - destruct (CallResponseMessage_init message) as [m|e]; [|apply steady_refl].
    eapply steady_trans; [|apply sd_process_call_response]. steady_step.
  - destruct (CallbackRequestMessage_init message) as [m|e]; [|apply steady_refl].
    eapply steady_trans; [|apply sd_process_callback_request]. steady_step.
Qed.

Lemma sd_process_message message : preserves steady (process_message message).
Proof.
  intros st. rewrite process_message_unfold.
  destruct (negb _ && _); [|apply steady_refl].
  destruct (msg_types _) as [entry|]; [|apply steady_refl].
  pose proof (sd_cast_and_handle entry message st) as Hc.
  destruct (cast_and_handle entry message st) as [[g|e] st1]; cbn in *; [|exact Hc].
  eapply steady_trans; [exact Hc|]. steady_step.
Qed.

Lemma sd_read_loop evs : forall n st, steady st (snd (fst (read_loop evs n st))).
Proof.
  induction evs as [|ev evs IH]; intros n st; cbn [read_loop].
  - destruct (negb (is_connected st)); apply steady_refl.
  - destruct (negb (is_connected st)); [apply steady_refl|].
    destruct ev as [|message| |e]; try apply steady_refl; [|apply IH].
    pose proof (sd_process_message message st) as Hp.
    destruct (process_message message st) as [[[counted got]|e] st1]; cbn in *;
      [|exact Hp].
    destruct got; [exact Hp|].
    eapply steady_trans; [exact Hp | apply IH].
Qed.

Lemma sd_read_and_process evs st : steady st (snd (fst (read_and_process evs st))).
Proof.
  unfold read_and_process.
  destruct (negb (is_connected st)); [apply steady_refl|].
  pose proof (sd_read_loop evs 0 st) as Hl.
  destruct (read_loop evs 0 st) as [[[n|e] st1] evs1]; cbn in *; [exact Hl|].
  destruct (caught_by_read_and_process e); exact Hl.
Qed.

Lemma sd_poll_loop fuel : forall evs st read_ok got_response out,
  poll_loop fuel evs st read_ok got_response = Some out ->
  steady st (snd (fst out)).
Proof.
  induction fuel as [|fuel IH]; intros evs st read_ok got out; cbn [poll_loop].
  - destruct (read_ok && negb got); [discriminate|].
    intros [= <-]. apply steady_refl.
  - destruct (read_ok && negb got); [|intros [= <-]; apply steady_refl].
    pose proof (sd_read_and_process evs st) as Hr.
    destruct (read_and_process evs st) as [[[n|e] st1] evs1]; cbn in *.
    + intros Hout. eapply steady_trans; [exact Hr | eapply IH, Hout].
    + intros [= <-]. exact Hr.
Qed.

Lemma sd_poll_for_call_response evs tag st :
  steady st (snd (fst (poll_for_call_response evs tag st))).
Proof.
  unfold poll_for_call_response.
  match goal with
  | |- context [read_and_process evs ?s] =>
      assert (H0 : steady st s) by steady_step;
      pose proof (sd_read_and_process evs s) as Hr;
      destruct (read_and_process evs s) as [[[n|e] st1] evs1]
  end; cbn [fst snd] in *; [|eapply steady_trans; eauto].
  assert (H1 : steady st st1) by (eapply steady_trans; eauto).
  destruct (poll_loop (S (length evs1)) evs1 st1 (0 <=? n) (got_response_of st1))
    as [[[r st2] evs2]|] eqn:Hp; [|exact H1].
  apply sd_poll_loop in Hp. cbn [fst snd] in Hp.
  assert (H2 : steady st st2) by (eapply steady_trans; eauto).
  destruct r as [[read_ok got]|e]; [|exact H2].
  unfold poll_finish.
  destruct (is_EXCEPTIONDATA _); [|destruct got]; cbn;
    (eapply steady_trans; [exact H2|steady_step]).
Qed.

Lemma sd_send_and_wait evs request tag st :
  steady st (snd (fst (send_and_wait evs request tag st))).
Proof.
  unfold send_and_wait.
  pose proof (sd_send_message request false st) as Hs.
  destruct (send_message request false st) as [[sent|e] st1]; cbn in *; [|exact Hs].
  destruct (sent =? -1); [exact Hs|].
  pose proof (sd_poll_for_call_response evs tag st1) as Hp.
  destruct (poll_for_call_response evs tag st1) as [[[r|e] st2] evs2]; cbn in *;
    eapply steady_trans; eauto.
Qed.

(** X13.  No run of [read_and_process] or of [send_and_wait], whatever comes in
    and whether it returns or raises, removes a request from the queue of
    callback requests, takes back a frame or an invocation of the
    ambassador, unregisters a callback, or changes the queueing flag, the
    connection flags or the attribute handle maps of the host's data. *)
Theorem engine_runs_are_steady
    (evs : list Event) (request : Request) (tag : Tag) (st : FedProMsgHandler) :
  steady st (snd (fst (read_and_process evs st))) /\
  steady st (snd (fst (send_and_wait evs request tag st))).
Proof. split; [apply sd_read_and_process | apply sd_send_and_wait]. Qed.

(** ** What a synchronous call leaves behind *)

Lemma poll_finish_result read_ok got st r st' :
  poll_finish read_ok got st = (r, st') ->
  expected_type st' = TagMsgType UNKNOWN /\ expected_number st' = 0 /\
  my_poll_result st' = r /\ (r = 1 \/ r = 0 \/ r = -1) /\
  (r = -1 <-> is_EXCEPTIONDATA (expected_type st) = true).
Proof.
  unfold poll_finish.
  destruct (is_EXCEPTIONDATA (expected_type st)) eqn:Ex; [|destruct got];
    cbn; intros [= <- <-]; cbn; repeat split; auto; try discriminate; try lia.
Qed.

Lemma send_and_wait_result_aux
    (evs evs' : list Event) (request : Request) (tag : Tag)
    (st st' : FedProMsgHandler) (b : bool) :
  send_and_wait evs request tag st = (Ret b, st', evs') ->
  expected_type st' = TagMsgType UNKNOWN /\
  expected_number st' = 0 /\
  (if b then my_poll_result st' = 1
   else my_poll_result st' = 0 \/ my_poll_result st' = -1).
Proof.
  unfold send_and_wait.
  destruct (send_message request false st) as [[sent|e] st1]; [|discriminate].
  destruct (sent =? -1); [discriminate|].
  unfold poll_for_call_response.
  destruct (read_and_process evs _) as [[[n|e] st2] evs2]; [|discriminate].
  destruct (poll_loop (S (length evs2)) evs2 st2 (0 <=? n) (got_response_of st2))
    as [[[[[read_ok got]|e] st3] evs3]|]; try discriminate.
  destruct (poll_finish read_ok got st3) as [r st4] eqn:Hf.
  intros [= <- <- <-].
  apply poll_finish_result in Hf. destruct Hf as (Ht & Hn & Hr & Hcases & _).
  split; [exact Ht|]. split; [exact Hn|].
  destruct (0 <? r) eqn:Hpos.
  - apply Z.ltb_lt in Hpos. lia.
  - apply Z.ltb_ge in Hpos. lia.
Qed.

(** X14.  Whenever [send_and_wait] returns, the expectation is cleared, and its
    result says what [my_poll_result] holds: [True] goes with 1, [False]
    with 0 (nothing matched in time) or -1 (the RTI reported an
    exception). *)
Theorem send_and_wait_result
    (evs evs' : list Event) (request : Request) (tag : Tag)
    (st st' : FedProMsgHandler) (b : bool) :
  send_and_wait evs request tag st = (Ret b, st', evs') ->
  expected_type st' = TagMsgType UNKNOWN /\
  expected_number st' = 0 /\
  (if b then my_poll_result st' = 1
   else my_poll_result st' = 0 \/ my_poll_result st' = -1).
Proof. exact (send_and_wait_result_aux evs evs' request tag st st' b). Qed.

(** ** What every sent frame carries *)

(** X15.  Whatever the class of the request and whatever its header held
    before, when [send_message] returns on a connected handler exactly one
    frame has gone out, and that frame carries the handler's session id in
    bytes 8 to 16 and, in bytes 4 to 8, the handler's counter, or the
    request's own sequence number for a callback response. *)
Theorem send_message_frame
    (request : Request) (sending_callback_response : bool)
    (st st' : FedProMsgHandler) (r : Z) :
  is_connected st = true ->
  send_message request sending_callback_response st = (Ret r, st') ->
  exists frame,
    r = 1 /\
    sock_sent (my_socket st') = sock_sent (my_socket st) ++ [frame] /\
    frame_session_id frame = my_session_id st /\
    frame_sequence_num frame =
      (if sending_callback_response
       then fedProMessage.my_sequence_num (Request_base request)
       else my_sequence_num st).
Proof.
  intros Hconn. rewrite send_message_unfold, Hconn.
  destruct (Request_to_bytes (stamp st request sending_callback_response))
    as [frame|] eqn:Hframe; [|discriminate].
  destruct (next_write_fails (my_socket st)); [discriminate|].
  intros [= <- <-]. exists frame.
  split; [reflexivity|]. split; [reflexivity|].
  rewrite (Request_frame_session_id _ _ Hframe).
  rewrite (Request_frame_sequence_num _ _ Hframe).
  unfold stamp. rewrite Request_base_with_base. cbn. auto.
Qed.

(** ** The callback wrappers answer once *)

(** X16.  Each of the ten wrappers other than [connection_lost], called on a
    decoded request by a connected handler, ends in one of two ways,
    whether the host's method returns or raises and whether or not the
    request lists values: it returns, and exactly one frame has gone out,
    which carries the sequence number of the request and the session id of
    the handler; or it raises the [OSError] of the socket, and no frame has
    gone out.  It returns whenever the socket's next write succeeds, and
    raises whenever its next two writes fail. *)
Theorem wrappers_answer_once
    (m : CallbackMethod) (request : CallbackRequest) (seq : Z)
    (st : FedProMsgHandler) (frame : bytes) :
  m <> m_connection_lost -> m <> m_unknown_callback ->
  is_connected st = true ->
  Request_to_bytes
    (stamp st (ReqCallbackResponse (CallbackResponseMessage_init seq true)) true)
  = Some frame ->
  let out := call_CallbackMethod m (Some request) seq st in
  frame_sequence_num frame = seq /\
  frame_session_id frame = my_session_id st /\
  (fst out = Ret tt /\
   sock_sent (my_socket (snd out)) = sock_sent (my_socket st) ++ [frame]
   \/
   fst out = Raise OSError /\
   sock_sent (my_socket (snd out)) = sock_sent (my_socket st)) /\
  (next_write_fails (my_socket st) = false -> fst out = Ret tt) /\
  (next_write_fails (my_socket st) = true ->
   next_write_fails (written [] (my_socket st)) = true ->
   fst out = Raise OSError).
Proof.
  intros Hm1 Hm2 Hconn Hframe out.
  split; [rewrite (Request_frame_sequence_num _ _ Hframe); reflexivity|].
  split; [rewrite (Request_frame_session_id _ _ Hframe); reflexivity|].
  subst out.
  destruct m; try contradiction; cbn [call_CallbackMethod]; unfold_wrappers;
    destruct (federate_ambassador_handler st) as [fa|] eqn:Hfa; cbn;
    try rewrite Hfa;
    try destruct (CallbackRequest_values_listed request); cbn;
    try rewrite Hfa;
    try (destruct (behaviour _ _ _)); cbn;
    repeat (match goal with
            | |- context [send_callback_response ?s ?b ?st1] =>
                rewrite (send_callback_response_run s b st1 _ Hconn Hframe); cbn
            | |- context [next_write_fails ?s] =>
                destruct (next_write_fails s) eqn:?; cbn
            end);
    rewrite ?app_nil_r; repeat split; auto; congruence.
Qed.

(** X17.  A [reflectAttributeValues] or [receiveInteraction] request that lists
    no values is not handed to the host: the wrapper's own decoding raises
    inside the [try] and the ambassador is not invoked.  The request is
    answered all the same, with the one frame that a failure response is,
    unless the socket's write fails: then the wrapper raises the [OSError]
    and nothing has gone out. *)
Theorem values_not_listed_not_delivered
    (m : CallbackMethod) (request : CallbackRequest) (seq : Z)
    (st : FedProMsgHandler) (frame : bytes) :
  m = m_reflect_attribute_values \/ m = m_receive_interaction ->
  CallbackRequest_values_listed request = false ->
  is_connected st = true ->
  Request_to_bytes
    (stamp st (ReqCallbackResponse (CallbackResponseMessage_init seq true)) true)
  = Some frame ->
  let out := call_CallbackMethod m (Some request) seq st in
  ambassador_calls (snd out) = ambassador_calls st /\
  (if next_write_fails (my_socket st)
   then fst out = Raise OSError /\
        sock_sent (my_socket (snd out)) = sock_sent (my_socket st)
   else fst out = Ret tt /\
        sock_sent (my_socket (snd out)) = sock_sent (my_socket st) ++ [frame]).
Proof.
  intros Hm Hlisted Hconn Hframe out. subst out.
  destruct Hm as [-> | ->]; cbn [call_CallbackMethod]; unfold_wrappers;
    rewrite Hlisted; cbn;
    destruct (federate_ambassador_handler st) as [fa|] eqn:Hfa; cbn;
    (match goal with
       | |- context [send_callback_response ?s ?b ?st1] =>
           rewrite (send_callback_response_run s b st1 _ Hconn Hframe)
       end; cbn;
     destruct (next_write_fails (my_socket st)); cbn;
     rewrite ?app_nil_r; auto).
Qed.

(** X18.  A callback request whose variant has no registered wrapper goes to
    [unknown_callback], which raises [AttributeError] while it formats its
    warning: [read_and_process] catches the exception and returns -1, and
    the request gets no response at all; nothing is sent and the ambassador
    is not invoked. *)
Theorem unknown_callback_unanswered
    (message : FedProMessage) (cb : CallbackRequestMessage) (evs : list Event)
    (st : FedProMsgHandler) (fa : FederateAmbassadorFedPro) :
  is_connected st = true ->
  my_queue_callback_requests st = false ->
  federate_ambassador_handler st = Some fa ->
  my_msg_type message = MsgType_value HLA_CALLBACK_REQUEST ->
  0 <= my_msg_size message ->
  CallbackRequestMessage_init message = Ret cb ->
  my_callback_functions st !! cbq_hla_msg_type cb = None ->
  my_callback_functions st !! (-99) = Some m_unknown_callback ->
  fst (fst (read_and_process (EvMessage message :: evs) st)) = Ret (-1) /\
  snd (read_and_process (EvMessage message :: evs) st) = evs /\
  my_socket (snd (fst (read_and_process (EvMessage message :: evs) st)))
  = my_socket st /\
  ambassador_calls (snd (fst (read_and_process (EvMessage message :: evs) st)))
  = ambassador_calls st.
Proof.
  intros Hconn Hq Hfa Hty Hsz Hcb Hnone Hfallback.
  assert (Hproc : exists st1,
            process_message message st = (Raise AttributeError, st1) /\
            my_socket st1 = my_socket st /\ ambassador_calls st1 = ambassador_calls st).
  { rewrite process_message_unfold, Hty.
    assert (Hsz' : (0 <=? my_msg_size message) = true) by (apply Z.leb_le; exact Hsz).
    rewrite Hsz'. cbn [negb andb Z.eqb MsgType_value Pos.eqb].
    change (msg_types 22) with (Some E_CALLBACK_REQUEST). cbv beta iota.
    rewrite cast_and_handle_unfold, Hcb, process_callback_request_unfold.
    cbv zeta. cbn [my_queue_callback_requests set_my_last_received_message_number
                   federate_ambassador_handler].
    rewrite Hq, Hfa.
    unfold handle_callback_request, bind at 1, get.
    cbn [my_callback_functions set_my_sequence_num set_my_fedPro_response
         set_my_last_received_message_number].
    rewrite Hnone, Hfallback. cbn. eauto. }
  destruct Hproc as (st1 & Hproc & Hsock & Hcalls).
  unfold read_and_process. rewrite Hconn. cbn [negb read_loop].
  rewrite Hconn. cbn [negb]. rewrite Hproc. cbn. auto.
Qed.

(** X19.  Registering and unregistering: a wrapper registered under a number
    is the one found under it; after [remove_callback_request_callback] the
    number has no wrapper; and when the handler did not have the number
    before, removing it again gives that handler back. *)
Theorem remove_callback_after_add
    (n : Z) (m : CallbackMethod) (st : FedProMsgHandler) :
  my_callback_functions st !! n = None ->
  my_callback_functions (add_callback_request_callback n m st) !! n = Some m /\
  my_callback_functions
    (remove_callback_request_callback n (add_callback_request_callback n m st)) !! n
  = None /\
  remove_callback_request_callback n (add_callback_request_callback n m st) = st.
Proof.
  intros Hnone. unfold remove_callback_request_callback, add_callback_request_callback.
  cbn [my_callback_functions set_my_callback_functions].
  rewrite lookup_insert_eq. cbn [my_callback_functions set_my_callback_functions].
  rewrite delete_insert_eq, lookup_delete_eq.
  split; [reflexivity|]. split; [reflexivity|].
  rewrite delete_id by exact Hnone. destruct st; reflexivity.
Qed.

(** X20.  What [read_and_process] makes of the two envelopes that
    [get_message] returns in place of a message: the envelope of type
    [INVALID] is skipped, the loop goes on with what comes next; the
    envelope of type -99 raises [FedProMessageError], which the method does
    not catch. *)
Theorem read_and_process_no_message_envelopes
    (evs : list Event) (st : FedProMsgHandler) :
  is_connected st = true ->
  read_and_process (EvMessage no_message :: evs) st = read_and_process evs st /\
  read_and_process (EvMessage placeholder_message :: evs) st
  = (Raise (FedProMessageError "Unexpected message type"), st, evs).
Proof.
  intros Hconn. unfold read_and_process. rewrite Hconn. cbn [negb read_loop].
  rewrite Hconn. cbn [negb]. rewrite !process_message_unfold. cbn. auto.
Qed.

(** ** The dispatch table *)

Lemma registered_table (l : list (Z * CallbackMethod)) : forall h,
  my_callback_functions
    (fold_left (fun h r => add_callback_request_callback (fst r) (snd r) h) l h)
  = fold_left (fun t r => <[fst r := snd r]> t) l (my_callback_functions h).
Proof.
  induction l as [|[k v] l IH]; intros h; [reflexivity|].
  cbn [fold_left]. rewrite IH. reflexivity.
Qed.

Lemma lookup_fold_insert_notin (l : list (Z * CallbackMethod)) :
  forall (t : gmap Z CallbackMethod) n,
  ~ In n (map fst l) ->
  fold_left (fun t r => <[fst r := snd r]> t) l t !! n = t !! n.
Proof.
  induction l as [|[k v] l IH]; intros t n Hn; [reflexivity|].
  cbn [fold_left fst snd]. cbn in Hn.
  rewrite IH by tauto. apply lookup_insert_ne. tauto.
Qed.

Lemma lookup_fold_insert_in (l : list (Z * CallbackMethod)) :
  forall (t : gmap Z CallbackMethod) n m,
  NoDup (map fst l) -> In (n, m) l ->
  fold_left (fun t r => <[fst r := snd r]> t) l t !! n = Some m.
Proof.
  induction l as [|[k v] l IH]; intros t n m Hnd Hin; [contradiction|].
  cbn [fold_left fst snd]. cbn [map fst] in Hnd.
  apply NoDup_cons in Hnd. destruct Hnd as [Hk Hnd].
  destruct Hin as [[= -> ->]|Hin].
  - rewrite lookup_fold_insert_notin.
    + apply lookup_insert_eq.
    + intros Hin. apply Hk. apply list_elem_of_In. exact Hin.
  - apply IH; assumption.
Qed.

(** X21.  When the field numbers of the schema differ from each other and from
    -99, [FederateAmbassadorFedPro.__init__] leaves a dispatch table in
    which every number it registers leads to the wrapper registered with
    it, whatever the table held before, and in which every other number
    leads where it led before; a callback request with a registered number
    is handed to that wrapper with its request buffer and its sequence
    number. *)
Theorem registered_callbacks_dispatch
    (handler : FedProMsgHandler) (amb : FederateAmbassador) (session : Z)
    (n : Z) (m : CallbackMethod) (cb : CallbackRequestMessage) :
  NoDup (map fst registrations) ->
  In (n, m) registrations ->
  let st := snd (FederateAmbassadorFedPro_init handler amb session) in
  my_callback_functions st !! n = Some m /\
  (forall k, ~ In k (map fst registrations) ->
             my_callback_functions st !! k = my_callback_functions handler !! k) /\
  (cbq_hla_msg_type cb = n ->
   handle_callback_request cb st
   = call_CallbackMethod m (my_request_buf cb)
       (fedProMessage.my_sequence_num (cbq_base cb)) st).
Proof.
  intros Hnd Hin. cbv zeta. unfold FederateAmbassadorFedPro_init. cbn [snd].
  rewrite registered_table.
  assert (Hn : fold_left (fun t r => <[fst r := snd r]> t) registrations
                 (my_callback_functions handler) !! n = Some m)
    by (apply lookup_fold_insert_in; assumption).
  split; [exact Hn|]. split.
  - intros k Hk. apply lookup_fold_insert_notin. exact Hk.
  - intros Hcb. unfold handle_callback_request, bind at 1, get.
    rewrite registered_table, Hcb, Hn. reflexivity.
Qed.

(** ** From [send_message] to [get_message] *)

(** X22.  The frame that [send_message] writes for a call request built by
    [CallRequestMessage.__init__] is one that [get_message] takes whole:
    handed to the reading side of a socket, it comes back as one envelope
    of type [HLA_CALL_REQUEST] whose declared size is the length of the
    frame, whose session id, sequence number and last-received number are
    the handler's, and whose payload is the serialized request; the size
    that the constructor computes and the length that the reader expects
    agree. *)
Theorem sent_call_request_is_received
    (request : CallRequest) (m0 : CallRequestMessage)
    (st st' : FedProMsgHandler) (r : Z) (rest : list Recv) :
  CallRequestMessage_init request = Ret m0 ->
  is_connected st = true ->
  send_message (ReqCallRequest m0) false st = (Ret r, st') ->
  exists frame,
    sock_sent (my_socket st') = sock_sent (my_socket st) ++ [frame] /\
    Z.of_nat (length frame)
    = 24 + Z.of_nat (length (CallRequest_SerializeToString request)) /\
    get_message {| recv_socket := Some (RecvBytes frame :: rest);
                   my_recv_buffer := [] |}
    = (Ret {| my_msg_type := MsgType_value HLA_CALL_REQUEST;
              my_msg_size :=
                24 + Z.of_nat (length (CallRequest_SerializeToString request));
              fedProMessage.my_session_id := my_session_id st;
              fedProMessage.my_sequence_num := my_sequence_num st;
              my_last_received_msg := my_last_received_message_number st;
              my_payload := CallRequest_SerializeToString request |},
       {| recv_socket := Some rest; my_recv_buffer := [] |}).
Proof.
  intros Hinit Hconn. rewrite send_message_unfold, Hconn.
  destruct (Request_to_bytes (stamp st (ReqCallRequest m0) false))
    as [frame|] eqn:Hframe; [|discriminate].
  destruct (next_write_fails (my_socket st)); [discriminate|].
  intros [= <- <-]. exists frame. split; [reflexivity|].
  unfold CallRequestMessage_init in Hinit.
  destruct (CallRequest_number request) as [n|]; [|discriminate].
  injection Hinit as <-.
  set (ser := CallRequest_SerializeToString request) in *.
  cbn [stamp Request_base Request_with_base Request_to_bytes cq_base
       my_request_type my_request_data FedProMessage_init my_msg_type my_msg_size
       fedProMessage.my_sequence_num my_payload] in Hframe.
  destruct (CallRequestMessage_to_bytes_Some _ _ Hframe)
    as [(Hsz & Hsq & Hss & Hlrm & _) Hshape].
  cbn [cq_base my_request_data my_msg_type my_msg_size
       fedProMessage.my_sequence_num fedProMessage.my_session_id
       my_last_received_msg] in Hsz, Hsq, Hss, Hlrm, Hshape.
  fold ser in Hshape.
  pose proof (from_bytes_frame placeholder_message _ _ _ _ HLA_CALL_REQUEST ser
                Hsz Hsq Hss Hlrm) as Hdec.
  change (MsgType_value HLA_CALL_REQUEST) with 20 in Hdec.
  rewrite <- Hshape in Hdec.
  assert (Hlen : Z.of_nat (length frame) = 24 + Z.of_nat (length ser)).
  { rewrite Hshape, !length_app, !length_be_bytes. lia. }
  assert (Hdecl : be_value 0 (firstn 4 frame) = Z.of_nat (length frame)).
  { rewrite Hlen, Hshape, firstn_app, length_be_bytes, Nat.sub_diag.
    rewrite (firstn_all2 (be_bytes 4 _)) by (rewrite length_be_bytes; lia).
    cbn [firstn]. rewrite app_nil_r, be_value_be_bytes.
    rewrite Z.mod_small by exact Hsz. lia. }
  assert (Hpayload : (if 24 <? 24 + Z.of_nat (length ser) then ser
                      else my_payload placeholder_message) = ser).
  { destruct (24 <? 24 + Z.of_nat (length ser)) eqn:E; [reflexivity|].
    apply Z.ltb_ge in E. destruct ser; [reflexivity|cbn in E; lia]. }
  rewrite Hpayload in Hdec.
  split; [exact Hlen|].
  pose proof (get_message_whole frame [] rest _ ltac:(lia) Hdecl Hdec) as Hget.
  rewrite app_nil_r in Hget. exact Hget.
Qed.

End EngineProperties.

(** ** The façade: caches, attribute handles, interactions, callbacks *)

Section FacadeCallProperties.
Context `{ProtobufCalls}.
Import rtiAmbassadorFedPro.

Lemma set_my_msg_handler_same self : set_my_msg_handler (my_msg_handler self) self = self.
Proof. destruct self; reflexivity. Qed.

(** X23.  [get_object_class_handle] never changes or removes an entry of the
    forward cache: a name that has a handle keeps that handle through every
    call, for whatever name, whether the call returns or raises. *)
Theorem object_class_cache_is_persistent
    (evs : list Event) (name name' : string) (handle' : bytes)
    (self : RtiAmbassadorFedPro) :
  my_obj_name_handles self !! name' = Some handle' ->
  my_obj_name_handles (snd (fst (get_object_class_handle evs name self))) !! name'
  = Some handle'.
Proof.
  intros Hcached. unfold get_object_class_handle.
  destruct (my_obj_name_handles self !! name) as [h0|] eqn:Hname; [exact Hcached|].
  assert (Hne : name <> name') by congruence.
  destruct (CallRequestMessage_init _) as [msg|e]; [|exact Hcached].
  destruct (send_and_wait evs _ _ _) as [[[[|]|e] h] evs']; cbn [fst snd];
    try exact Hcached.
  - destruct (response_buf _) as [buf|e]; [|exact Hcached].
    destruct (reset_attr_maps _ h) as [h'|]; cbn [fst snd set_my_msg_handler
                                                   my_obj_name_handles];
      rewrite lookup_insert_ne by exact Hne; exact Hcached.
  - destruct (log_response _); exact Hcached.
Qed.

(** X24.  On a handler that is not connected, a lookup that is not in the cache
    raises [FedProMessageError] from [send_and_wait]: no frame is written,
    no event is consumed, and the ambassador is as it was. *)
Theorem lookup_when_disconnected
    (evs : list Event) (name : string) (self : RtiAmbassadorFedPro) (n : Z) :
  is_connected (my_msg_handler self) = false ->
  my_obj_name_handles self !! name = None ->
  CallRequest_number (getObjectClassHandleRequest name) = Some n ->
  get_object_class_handle evs name self
  = (Raise (FedProMessageError "Socket failed to send message"), self, evs).
Proof.
  intros Hconn Hmiss Hnum. unfold get_object_class_handle, CallRequestMessage_init.
  rewrite Hmiss, Hnum. unfold send_and_wait.
  rewrite send_message_unfold, Hconn.
  change (-1 =? -1) with true. cbv beta iota.
  rewrite set_my_msg_handler_same. reflexivity.
Qed.

(** X25.  [send_interaction] on a connected ambassador never returns [False],
    and its result does not tell whether the interaction was accepted: it
    is [True] whenever [send_and_wait] returns, with [True] or with [False]
    (the wait ended without the response, or the RTI reported an
    exception).  When the construction of the request or [send_and_wait]
    raises, the exception does not come out either: the clause
    [except Exception] names a module, and matching against it raises
    [TypeError]. *)
Theorem send_interaction_result
    (evs : list Event) (interaction_class_handle : bytes)
    (parameter_values : list (bytes * bytes)) (user_supplied_tag : bytes)
    (self : RtiAmbassadorFedPro) :
  my_is_connection_ok self = true ->
  let run := send_interaction evs interaction_class_handle parameter_values
               user_supplied_tag self in
  fst (fst run) <> Ret false /\
  match CallRequestMessage_init
          (sendInteractionRequest interaction_class_handle
             (match user_supplied_tag with
              | [] => None
              | _ :: _ => Some user_supplied_tag
              end)
             parameter_values) with
  | Raise e => run = (Raise TypeError, self, evs)
  | Ret msg =>
      let wait := send_and_wait evs (ReqCallRequest msg)
                    (TagInt SENDINTERACTIONRESPONSE_FIELD_NUMBER)
                    (my_msg_handler self) in
      snd (fst run) = set_my_msg_handler (snd (fst wait)) self /\
      snd run = snd wait /\
      (forall b, fst (fst wait) = Ret b ->
         fst (fst run) = Ret true /\
         (if b then my_poll_result (snd (fst wait)) = 1
          else my_poll_result (snd (fst wait)) = 0 \/
               my_poll_result (snd (fst wait)) = -1)) /\
      (forall e, fst (fst wait) = Raise e -> e <> Diverged ->
         fst (fst run) = Raise TypeError)
  end.
Proof.
  intros Hok. cbv zeta. unfold send_interaction. rewrite Hok. cbn [negb].
  destruct (CallRequestMessage_init _) as [msg|e] eqn:Hinit.
  - destruct (send_and_wait evs _ _ _) as [[[b|e] h] evs'] eqn:Hwait; cbn [fst snd].
    + split; [discriminate|]. split; [reflexivity|]. split; [reflexivity|].
      split; [|discriminate]. intros b' [= <-]. split; [reflexivity|].
      destruct (send_and_wait_result_aux _ _ _ _ _ _ _ Hwait) as (_ & _ & Hres).
      exact Hres.
    + split; [discriminate|]. split; [reflexivity|]. split; [reflexivity|].
      split; [discriminate|]. intros e' [= <-] He.
      destruct e; try reflexivity. contradiction.
  - unfold CallRequestMessage_init in Hinit.
    destruct (CallRequest_number _); [discriminate|]. injection Hinit as <-.
    cbn. split; [discriminate | reflexivity].
Qed.

Lemma attr_maps_Some h maps :
  attr_maps h = Some maps ->
  exists fa, federate_ambassador_handler h = Some fa /\
             my_attr_name_handles (my_data (my_Federate_Ambassador fa)) = fst maps /\
             my_attr_handle_names (my_data (my_Federate_Ambassador fa)) = snd maps.
Proof.
  unfold attr_maps. destruct (federate_ambassador_handler h) as [fa|]; [|discriminate].
  intros [= <-]. eauto.
Qed.

(** X26.  [get_attribute_handle] for a class handle that has no entry in the
    attribute maps of the host's data (one that did not come from
    [get_object_class_handle]) never returns a handle: every run raises and
    leaves the attribute maps as they were; when the request was sent and
    its response accepted, the exception is the [KeyError] of the
    assignment into the missing entry. *)
Theorem attribute_lookup_needs_registered_class
    (evs : list Event) (class_handle : bytes) (attr_name : string)
    (self : RtiAmbassadorFedPro) (fa : FederateAmbassadorFedPro) :
  federate_ambassador_handler (my_msg_handler self) = Some fa ->
  my_attr_name_handles (my_data (my_Federate_Ambassador fa)) !! class_handle = None ->
  my_attr_handle_names (my_data (my_Federate_Ambassador fa)) !! class_handle = None ->
  let out := get_attribute_handle evs class_handle attr_name self in
  (exists e, fst (fst out) = Raise e) /\
  attr_maps (my_msg_handler (snd (fst out))) = attr_maps (my_msg_handler self) /\
  (forall msg h evs' buf,
     CallRequestMessage_init (getAttributeHandleRequest class_handle attr_name) = Ret msg ->
     send_and_wait evs (ReqCallRequest msg)
       (TagInt GETATTRIBUTEHANDLERESPONSE_FIELD_NUMBER) (my_msg_handler self)
     = (Ret true, h, evs') ->
     response_buf (my_fedPro_response h) = Ret buf ->
     fst (fst out) = Raise KeyError).
Proof.
  intros Hfa Hnh Hhn. cbv zeta. unfold get_attribute_handle.
  rewrite Hfa. unfold cached_attr_handle. rewrite Hnh.
  destruct (CallRequestMessage_init _) as [msg|e] eqn:Hinit.
  2:{ cbn. split; [eauto|]. split; [reflexivity|]. intros; discriminate. }
  pose proof (sd_send_and_wait evs (ReqCallRequest msg)
                (TagInt GETATTRIBUTEHANDLERESPONSE_FIELD_NUMBER) (my_msg_handler self))
    as Hsd.
  destruct (send_and_wait evs _ _ _) as [[[[|]|e] h] evs'] eqn:Hwait;
    cbn [fst snd] in Hsd |- *; pose proof (sd_attr _ _ Hsd) as Hattr.
  - destruct (response_buf (my_fedPro_response h)) as [buf|e] eqn:Hbuf.
    + assert (Hmaps : attr_maps (my_msg_handler self)
                      = Some (my_attr_name_handles (my_data (my_Federate_Ambassador fa)),
                              my_attr_handle_names (my_data (my_Federate_Ambassador fa)))).
      { unfold attr_maps. rewrite Hfa. reflexivity. }
      rewrite Hmaps in Hattr.
      destruct (attr_maps_Some _ _ Hattr) as (fa1 & Hfa1 & _ & Hhn1).
      cbn [snd] in Hhn1.
      unfold store_attr_handle. rewrite Hfa1, Hhn1, Hhn. cbn [fst snd my_msg_handler
                                                                set_my_msg_handler].
      split; [eauto|]. split; [congruence|]. intros; reflexivity.
    + cbn [fst snd my_msg_handler set_my_msg_handler].
      split; [eauto|]. split; [exact Hattr|].
      intros msg' h' evs'' buf' [= <-] Hw Hbuf'. rewrite Hwait in Hw.
      injection Hw as <- <-. congruence.
  - destruct (log_response _); cbn [fst snd my_msg_handler set_my_msg_handler];
      (split; [eauto|]); (split; [exact Hattr|]);
      intros msg' h' evs'' buf' [= <-] Hw; rewrite Hwait in Hw; discriminate.
  - cbn [fst snd my_msg_handler set_my_msg_handler].
    split; [eauto|]. split; [exact Hattr|].
    intros msg' h' evs'' buf' [= <-] Hw; rewrite Hwait in Hw; discriminate.
Qed.

(** X27.  When [get_attribute_handle] returns a handle, the next call for the
    same class and name returns the same handle from the cache: nothing is
    sent, no event is consumed and the ambassador stays as it is. *)
Theorem attribute_second_lookup_is_cached
    (evs evs2 : list Event) (class_handle : bytes) (attr_name : string)
    (self : RtiAmbassadorFedPro) (handle : bytes) :
  fst (fst (get_attribute_handle evs class_handle attr_name self)) = Ret handle ->
  let self' := snd (fst (get_attribute_handle evs class_handle attr_name self)) in
  get_attribute_handle evs2 class_handle attr_name self' = (Ret handle, self', evs2).
Proof.
  cbv zeta.
  destruct (get_attribute_handle evs class_handle attr_name self)
    as [[r self'] evs1] eqn:Hrun.
  cbn [fst snd]. intros ->.
  unfold get_attribute_handle in Hrun.
  destruct (federate_ambassador_handler (my_msg_handler self)) as [fa|] eqn:Hfa;
    [|discriminate].
  destruct (cached_attr_handle class_handle attr_name _) as [cached|] eqn:Hc.
  - injection Hrun as <- <- <-. unfold get_attribute_handle. rewrite Hfa, Hc.
    reflexivity.
  - destruct (CallRequestMessage_init _) as [msg|e]; [|discriminate].
    destruct (send_and_wait evs _ _ _) as [[[[|]|e] h] evs']; try discriminate.
    + destruct (response_buf _) as [buf|e]; [|discriminate].
      unfold store_attr_handle in Hrun.
      destruct (federate_ambassador_handler h) as [fa1|] eqn:Hfa1; [|discriminate].
      destruct (my_attr_handle_names _ !! class_handle) as [hn|]; [|discriminate].
      destruct (my_attr_name_handles _ !! class_handle) as [nh|] eqn:Hnh;
        [|discriminate].
      injection Hrun as <- <- <-.
      unfold get_attribute_handle, cached_attr_handle, with_data.
      cbn [my_msg_handler set_my_msg_handler federate_ambassador_handler
           set_federate_ambassador_handler my_Federate_Ambassador my_data
           my_attr_name_handles].
      rewrite lookup_insert_eq, lookup_insert_eq. reflexivity.
    + destruct (log_response _); discriminate.
Qed.

(** X28.  [evoke_callback] on a connected ambassador with callbacks enabled:
    when it returns, queueing is on again; when an exception escapes from
    [read_and_process], queueing stays off.  In both cases the queue of
    callback requests has lost nothing: what was queued before is still
    queued, in the same order. *)
Theorem evoke_callback_queueing
    (evs : list Event) (self : RtiAmbassadorFedPro) :
  my_is_connection_ok self = true ->
  my_enable_callback_requests (my_msg_handler self) = true ->
  let out := evoke_callback evs self in
  my_queue_callback_requests (my_msg_handler (snd (fst out)))
  = match fst (fst out) with Ret _ => true | Raise _ => false end /\
  exists q, my_callback_request_queue (my_msg_handler (snd (fst out)))
            = my_callback_request_queue (my_msg_handler self) ++ q.
Proof.
  intros Hok Hen. cbv zeta. unfold evoke_callback. rewrite Hok, Hen. cbn [negb].
  pose proof (sd_read_and_process evs
                (set_my_queue_callback_requests false (my_msg_handler self))) as Hsd.
  destruct (read_and_process evs _) as [[[n|e] h1] evs']; cbn [fst snd] in Hsd |- *;
    destruct Hsd as [Hflag _ _ _ _ _ Hq _ _]; cbn in Hflag, Hq |- *; auto.
Qed.

End FacadeCallProperties.

(** ** The further properties on sample runs *)

Section MoreSampleRuns.
#[local] Existing Instance sample_schema.
#[local] Existing Instance sample_calls.

Lemma NewSessionStatusMessage_roundtrip_witness :
  my_msg_type (nss_base sample_status) = MsgType_value CTRL_NEW_SESSION_STATUS /\
  NewSessionStatusMessage_to_bytes sample_status = Some sample_status_frame /\
  exists m',
    NewSessionStatusMessage_from_bytes
      {| nss_base := FedProMessage_init 0 24; my_status := INTERNAL_ERROR |}
      (frame_segments sample_status_frame) = Ret m' /\
    my_status m' = my_status sample_status /\
    my_msg_size (nss_base m') = my_msg_size (nss_base sample_status) /\
    fedProMessage.my_sequence_num (nss_base m')
      = fedProMessage.my_sequence_num (nss_base sample_status) /\
    fedProMessage.my_session_id (nss_base m')
      = fedProMessage.my_session_id (nss_base sample_status) /\
    my_msg_type (nss_base m') = my_msg_type (nss_base sample_status) /\
    NewSessionStatusMessage_to_bytes m' = Some sample_status_frame.
Proof.
  split; [reflexivity|]. split; [vm_compute; reflexivity|].
  apply (NewSessionStatusMessage_roundtrip sample_status
           {| nss_base := FedProMessage_init 0 24; my_status := INTERNAL_ERROR |}
           CTRL_NEW_SESSION_STATUS sample_status_frame);
    [reflexivity | vm_compute; reflexivity].
Defined.

Lemma status_frame_read_and_cast_witness :
  my_msg_type (nss_base sample_status) = MsgType_value CTRL_NEW_SESSION_STATUS /\
  24 < my_msg_size (nss_base sample_status) /\
  NewSessionStatusMessage_to_bytes sample_status = Some sample_status_frame /\
  exists b,
    from_bytes placeholder_message (frame_segments sample_status_frame) = Some b /\
    fedProMessage.my_sequence_num b = 1 /\
    fedProMessage.my_session_id b = 9 /\
    NewSessionStatusMessage_init b
    = Ret {| nss_base := b; my_status := OUT_OF_RESOURCES |}.
Proof.
  split; [reflexivity|]. split; [reflexivity|]. split; [vm_compute; reflexivity|].
  apply (status_frame_read_and_cast sample_status placeholder_message
           CTRL_NEW_SESSION_STATUS sample_status_frame);
    [reflexivity | reflexivity | vm_compute; reflexivity].
Defined.

(** The fresh handshake message has protocol version 1 and message type 1;
    the same holds read back, whichever of the two the decoder took. *)
Lemma NewSessionMessage_from_bytes_of_to_bytes_witness :
  NewSessionMessage_to_bytes NewSessionMessage_init = Some new_session_frame /\
  NewSessionMessage_from_bytes
    {| ns_base := FedProMessage_init 0 0; my_protocol_version := 7 |}
    new_session_frame
  = Ret {| ns_base :=
             {| my_msg_type := 0; my_msg_size := 28;
                fedProMessage.my_session_id := 0;
                fedProMessage.my_sequence_num := 0;
                my_last_received_msg := 0; my_payload := [] |};
           my_protocol_version := MsgType_value CTRL_NEW_SESSION |}.
Proof.
  split; [vm_compute; reflexivity|].
  apply (NewSessionMessage_from_bytes_of_to_bytes NewSessionMessage_init
           {| ns_base := FedProMessage_init 0 0; my_protocol_version := 7 |}
           new_session_frame).
  vm_compute. reflexivity.
Defined.

Lemma HeartbeatMessage_roundtrip_witness :
  to_bytes heartbeat_2 = Some heartbeat_frame_2 /\
  HeartbeatMessage_from_bytes HeartbeatMessage_init heartbeat_frame_2
  = Ret {| hb_base := heartbeat_2 |}.
Proof.
  split; [vm_compute; reflexivity|].
  apply (HeartbeatMessage_roundtrip {| hb_base := heartbeat_2 |}
           HeartbeatMessage_init heartbeat_frame_2);
    [vm_compute; reflexivity | reflexivity | reflexivity | reflexivity].
Defined.

Lemma NewSessionStatusMessage_unset_not_serializable_witness :
  my_status (NewSessionStatusMessage_clear sample_status) = UNSET /\
  NewSessionStatusMessage_to_bytes (NewSessionStatusMessage_clear sample_status) = None.
Proof.
  split; [reflexivity|].
  apply (NewSessionStatusMessage_unset_not_serializable
           (NewSessionStatusMessage_clear sample_status)).
  reflexivity.
Defined.

Lemma CallRequestMessage_frame_decodes_witness :
  my_msg_type (cq_base wide_call_request) = MsgType_value HLA_CALL_REQUEST /\
  CallRequestMessage_to_bytes wide_call_request = Some wide_call_request_frame /\
  from_bytes placeholder_message (frame_segments wide_call_request_frame)
  = Some {| my_msg_type := 20; my_msg_size := 29;
            fedProMessage.my_session_id := 2 ^ 32 + 9;
            fedProMessage.my_sequence_num := 2;
            my_last_received_msg := 2;
            my_payload := [x28;x42;x61;x6c;x6c] |}.
Proof.
  split; [reflexivity|]. split; [vm_compute; reflexivity|].
  apply (CallRequestMessage_frame_decodes wide_call_request placeholder_message
           HLA_CALL_REQUEST wide_call_request_frame);
    [reflexivity | vm_compute; reflexivity].
Defined.

(** Session [2^32 + 9] comes back as session 1, and the last-received
    number 2 as [9 * 2^32 + 2]. *)
Lemma CallRequestMessage_from_bytes_of_to_bytes_witness :
  my_msg_type (cq_base wide_call_request) = MsgType_value HLA_CALL_REQUEST /\
  CallRequestMessage_to_bytes wide_call_request = Some wide_call_request_frame /\
  (4 <= length (CallRequest_SerializeToString (my_request_data wide_call_request)))%nat /\
  CallRequestMessage_from_bytes ball_message (frame_segments wide_call_request_frame)
  = Ret {| cq_base :=
             {| my_msg_type := 20; my_msg_size := 29;
                fedProMessage.my_session_id := 1;
                fedProMessage.my_sequence_num := 2;
                my_last_received_msg := 9 * 2 ^ 32 + 2;
                my_payload := [] |};
           my_request_type := 675438956;
           my_request_data := my_request_data ball_message |}.
Proof.
  split; [reflexivity|]. split; [vm_compute; reflexivity|].
  split; [vm_compute; lia|].
  etransitivity;
    [apply (CallRequestMessage_from_bytes_of_to_bytes wide_call_request ball_message
              HLA_CALL_REQUEST wide_call_request_frame);
       [reflexivity | vm_compute; reflexivity | vm_compute; lia]
    | vm_compute; reflexivity].
Defined.

(** Two heartbeats at hand at once: the first call takes the first. *)
Lemma get_message_whole_frame_witness :
  (24 <= length heartbeat_frame_2)%nat /\
  be_value 0 (firstn 4 heartbeat_frame_2) = Z.of_nat (length heartbeat_frame_2) /\
  from_bytes placeholder_message (frame_segments heartbeat_frame_2) = Some heartbeat_2 /\
  get_message {| recv_socket := Some [RecvBytes (heartbeat_frame_2 ++ heartbeat_frame_3)];
                 my_recv_buffer := [] |}
  = (Ret heartbeat_2,
     {| recv_socket := Some [RecvBytes heartbeat_frame_3]; my_recv_buffer := [] |}).
Proof.
  split; [vm_compute; lia|]. split; [vm_compute; reflexivity|].
  split; [vm_compute; reflexivity|].
  apply (get_message_whole_frame heartbeat_frame_2 heartbeat_frame_3 [] heartbeat_2);
    [vm_compute; lia | vm_compute; reflexivity | vm_compute; reflexivity].
Defined.

(** Two stray segments in the buffer: the heartbeat that then arrives in
    full is not returned, in three calls. *)
Lemma get_message_never_recovers_witness :
  let self := {| recv_socket := Some [RecvBytes heartbeat_frame_3];
                 my_recv_buffer := [[x00; x00]; [x00]] |} in
  stuck (my_recv_buffer self) /\
  Forall undelivered (fst (get_messages 3 self)) /\
  stuck (my_recv_buffer (snd (get_messages 3 self))).
Proof.
  cbv zeta. split; [left; simpl; lia|].
  apply (get_message_never_recovers 3
           {| recv_socket := Some [RecvBytes heartbeat_frame_3];
              my_recv_buffer := [[x00; x00]; [x00]] |}).
  left. simpl. lia.
Defined.

(** The first ten bytes of a heartbeat are at hand, the other fourteen
    come next: neither of two calls returns the heartbeat. *)
Lemma get_message_partial_frame_witness :
  (4 < length (firstn 10 heartbeat_frame_2))%nat /\
  24 <= be_value 0 (firstn 4 (firstn 10 heartbeat_frame_2)) /\
  Z.of_nat (length (firstn 10 heartbeat_frame_2))
  < be_value 0 (firstn 4 (firstn 10 heartbeat_frame_2)) /\
  Forall undelivered
    (fst (get_messages 2
            {| recv_socket := Some [RecvBytes (firstn 10 heartbeat_frame_2);
                                    RecvBytes (skipn 10 heartbeat_frame_2)];
               my_recv_buffer := [] |})).
Proof.
  split; [vm_compute; lia|]. split; [vm_compute; discriminate|].
  split; [vm_compute; reflexivity|].
  apply (get_message_partial_frame 2 (firstn 10 heartbeat_frame_2)
           [RecvBytes (skipn 10 heartbeat_frame_2)]);
    [vm_compute; lia | vm_compute; discriminate | vm_compute; reflexivity].
Defined.

(** Four bytes that declare a length of 4. *)
Lemma get_message_short_length_witness :
  (4 <= length [x00; x00; x00; x04])%nat /\
  be_value 0 (firstn 4 [x00; x00; x00; x04]) < 24 /\
  get_message {| recv_socket := Some [RecvBytes [x00; x00; x00; x04]];
                 my_recv_buffer := [] |}
  = (Ret placeholder_message, {| recv_socket := Some []; my_recv_buffer := [] |}).
Proof.
  split; [simpl; lia|]. split; [vm_compute; reflexivity|].
  etransitivity;
    [apply (get_message_short_length [x00; x00; x00; x04] []);
       [simpl; lia | vm_compute; reflexivity]
    | vm_compute; reflexivity].
Defined.

Lemma send_and_wait_result_witness :
  let run := send_and_wait s4_events ball_request (TagInt 41)
               (session_handler obliging_ambassador) in
  run = (Ret true, snd (fst run), snd run) /\
  expected_type (snd (fst run)) = TagMsgType UNKNOWN /\
  expected_number (snd (fst run)) = 0 /\
  my_poll_result (snd (fst run)) = 1.
Proof.
  cbv zeta. split; [vm_compute; reflexivity|].
  apply (send_and_wait_result s4_events
           (snd (send_and_wait s4_events ball_request (TagInt 41)
                   (session_handler obliging_ambassador)))
           ball_request (TagInt 41) (session_handler obliging_ambassador)
           (snd (fst (send_and_wait s4_events ball_request (TagInt 41)
                        (session_handler obliging_ambassador))))
           true).
  vm_compute. reflexivity.
Defined.

Lemma send_message_frame_witness :
  let st := session_handler obliging_ambassador in
  let run := send_message (ReqHeartbeat HeartbeatMessage_init) false st in
  is_connected st = true /\
  run = (Ret 1, snd run) /\
  exists frame,
    1 = 1 /\
    sock_sent (my_socket (snd run)) = sock_sent (my_socket st) ++ [frame] /\
    frame_session_id frame = my_session_id st /\
    frame_sequence_num frame = my_sequence_num st.
Proof.
  cbv zeta. split; [reflexivity|]. split; [vm_compute; reflexivity|].
  apply (send_message_frame (ReqHeartbeat HeartbeatMessage_init) false
           (session_handler obliging_ambassador)
           (snd (send_message (ReqHeartbeat HeartbeatMessage_init) false
                   (session_handler obliging_ambassador)))
           1);
    [reflexivity | vm_compute; reflexivity].
Defined.

(** A [discoverObjectInstance] request numbered 42, handed to a host all
    of whose methods return. *)
Lemma wrappers_answer_once_witness :
  let st := session_handler obliging_ambassador in
  let out := call_CallbackMethod m_discover_object_instance
               (Some [x08; x01; x02; x03]) 42 st in
  is_connected st = true /\
  Request_to_bytes
    (stamp st (ReqCallbackResponse (CallbackResponseMessage_init 42 true)) true)
  = Some response_frame_42 /\
  fst out = Ret tt /\
  sock_sent (my_socket (snd out)) = sock_sent (my_socket st) ++ [response_frame_42] /\
  frame_sequence_num response_frame_42 = 42 /\
  frame_session_id response_frame_42 = my_session_id st.
Proof.
  cbv zeta. split; [reflexivity|]. split; [vm_compute; reflexivity|].
  pose proof (@wrappers_answer_once sample_schema
                m_discover_object_instance [x08; x01; x02; x03] 42
                (session_handler obliging_ambassador) response_frame_42
                ltac:(discriminate) ltac:(discriminate) eq_refl
                ltac:(vm_compute; reflexivity))
    as (Hseq & Hsess & Hout & Hret & _).
  specialize (Hret eq_refl).
  destruct Hout as [[_ Hsent]|[Hraise _]];
    [auto | rewrite Hret in Hraise; discriminate].
Defined.

(** The same request when the socket's next two writes fail: the success
    response and then the failure response are tried, and the [OSError]
    of the second comes out of the wrapper; the host was called. *)
Example wrapper_raises_when_writes_fail :
  let st := set_my_socket {| sock_connected := true; sock_sent := [];
                             sock_write_errors := [true; true] |}
              (session_handler obliging_ambassador) in
  let out := call_CallbackMethod m_discover_object_instance
               (Some [x08; x01; x02; x03]) 42 st in
  fst out = Raise OSError /\
  sock_sent (my_socket (snd out)) = [] /\
  sock_write_errors (my_socket (snd out)) = [] /\
  length (ambassador_calls (snd out)) = 1%nat.
Proof. vm_compute. repeat split; reflexivity. Qed.

(** A [reflectAttributeValues] request that consists of its field number
    only. *)
Lemma values_not_listed_not_delivered_witness :
  let st := session_handler obliging_ambassador in
  let out := call_CallbackMethod m_reflect_attribute_values (Some [x0a]) 42 st in
  CallbackRequest_values_listed ([x0a] : CallbackRequest) = false /\
  is_connected st = true /\
  fst out = Ret tt /\
  ambassador_calls (snd out) = ambassador_calls st /\
  sock_sent (my_socket (snd out)) = sock_sent (my_socket st) ++ [response_frame_42].
Proof.
  cbv zeta. split; [reflexivity|]. split; [reflexivity|].
  pose proof (@values_not_listed_not_delivered sample_schema
                m_reflect_attribute_values [x0a] 42
                (session_handler obliging_ambassador) response_frame_42
                (or_introl eq_refl) eq_refl eq_refl
                ltac:(vm_compute; reflexivity))
    as [Hcalls Hout].
  change (next_write_fails (my_socket (session_handler obliging_ambassador)))
    with false in Hout.
  destruct Hout as [Hret Hsent]. auto.
Defined.

(** A callback request with field 99, which has no wrapper, dispatched
    with queueing off. *)
Lemma unknown_callback_unanswered_witness :
  let st := set_my_queue_callback_requests false (session_handler obliging_ambassador) in
  let run := read_and_process [EvMessage (strange_request 50)] st in
  is_connected st = true /\
  CallbackRequestMessage_init (strange_request 50)
  = Ret (as_callback (strange_request 50)) /\
  my_callback_functions st !! cbq_hla_msg_type (as_callback (strange_request 50)) = None /\
  my_callback_functions st !! (-99) = Some m_unknown_callback /\
  fst (fst run) = Ret (-1) /\
  snd run = [] /\
  my_socket (snd (fst run)) = my_socket st /\
  ambassador_calls (snd (fst run)) = ambassador_calls st.
Proof.
  cbv zeta. split; [reflexivity|]. split; [reflexivity|].
  split; [vm_compute; reflexivity|]. split; [vm_compute; reflexivity|].
  apply (unknown_callback_unanswered (strange_request 50)
           (as_callback (strange_request 50)) []
           (set_my_queue_callback_requests false (session_handler obliging_ambassador))
           (session_wrapper obliging_ambassador));
    [reflexivity | reflexivity | reflexivity | reflexivity | simpl; lia
    | reflexivity | vm_compute; reflexivity | vm_compute; reflexivity].
Defined.

Lemma remove_callback_after_add_witness :
  let st := session_handler obliging_ambassador in
  let st1 := add_callback_request_callback 77 m_discover_object_instance st in
  my_callback_functions st !! 77 = None /\
  my_callback_functions st1 !! 77 = Some m_discover_object_instance /\
  my_callback_functions (remove_callback_request_callback 77 st1) !! 77 = None /\
  remove_callback_request_callback 77 st1 = st.
Proof.
  cbv zeta. split; [vm_compute; reflexivity|].
  apply (remove_callback_after_add 77 m_discover_object_instance
           (session_handler obliging_ambassador)).
  vm_compute. reflexivity.
Defined.

Lemma read_and_process_no_message_envelopes_witness :
  let st := session_handler obliging_ambassador in
  is_connected st = true /\
  read_and_process [EvMessage no_message; EvDeadline] st = read_and_process [EvDeadline] st /\
  read_and_process [EvMessage placeholder_message; EvDeadline] st
  = (Raise (FedProMessageError "Unexpected message type"), st, [EvDeadline]).
Proof.
  cbv zeta. split; [reflexivity|].
  apply (read_and_process_no_message_envelopes [EvDeadline]
           (session_handler obliging_ambassador)).
  reflexivity.
Defined.

(** In the sample schema the field numbers are 1 to 11: number 8 leads to
    the wrapper of [discoverObjectInstance]. *)
Lemma registered_callbacks_dispatch_witness :
  let st := snd (FederateAmbassadorFedPro_init connected_handler obliging_ambassador 9) in
  let cb := as_callback (discover_request 42) in
  NoDup (map fst registrations) /\
  In (8, m_discover_object_instance) registrations /\
  my_callback_functions st !! 8 = Some m_discover_object_instance /\
  (forall k, ~ In k (map fst registrations) ->
             my_callback_functions st !! k = my_callback_functions connected_handler !! k) /\
  (cbq_hla_msg_type cb = 8 ->
   handle_callback_request cb st
   = call_CallbackMethod m_discover_object_instance (my_request_buf cb)
       (fedProMessage.my_sequence_num (cbq_base cb)) st).
Proof.
  cbv zeta.
  assert (Hnd : NoDup (map fst registrations)).
  { apply (bool_decide_unpack _). vm_compute. exact I. }
  assert (Hin : In (8, m_discover_object_instance) registrations).
  { simpl. do 7 right. left. reflexivity. }
  split; [exact Hnd|]. split; [exact Hin|].
  apply (registered_callbacks_dispatch connected_handler obliging_ambassador 9 8
           m_discover_object_instance (as_callback (discover_request 42)) Hnd Hin).
Defined.

Lemma sent_call_request_is_received_witness :
  let st := session_handler obliging_ambassador in
  let run := send_message (ReqCallRequest ball_message) false st in
  CallRequestMessage_init (getObjectClassHandleRequest "Ball") = Ret ball_message /\
  is_connected st = true /\
  run = (Ret 1, snd run) /\
  exists frame,
    sock_sent (my_socket (snd run)) = sock_sent (my_socket st) ++ [frame] /\
    Z.of_nat (length frame) = 24 + 5 /\
    get_message {| recv_socket := Some [RecvBytes frame]; my_recv_buffer := [] |}
    = (Ret {| my_msg_type := MsgType_value HLA_CALL_REQUEST;
              my_msg_size := 24 + 5;
              fedProMessage.my_session_id := 9;
              fedProMessage.my_sequence_num := 2;
              my_last_received_msg := 2;
              my_payload := [x28;x42;x61;x6c;x6c] |},
       {| recv_socket := Some []; my_recv_buffer := [] |}).
Proof.
  cbv zeta. split; [reflexivity|]. split; [reflexivity|].
  split; [vm_compute; reflexivity|].
  apply (sent_call_request_is_received (getObjectClassHandleRequest "Ball")
           ball_message (session_handler obliging_ambassador)
           (snd (send_message (ReqCallRequest ball_message) false
                   (session_handler obliging_ambassador)))
           1 []);
    [reflexivity | reflexivity | vm_compute; reflexivity].
Defined.

(** "Ball" is cached; "Wall" is looked up through the RTI and answered:
    "Ball" keeps its handle. *)
Lemma object_class_cache_is_persistent_witness :
  let run := rtiAmbassadorFedPro.get_object_class_handle
               [EvMessage (ball_response 3)] "Wall" cached_facade in
  rtiAmbassadorFedPro.my_obj_name_handles cached_facade !! "Ball"%string = Some [xab] /\
  fst (fst run) = Ret [xab] /\
  rtiAmbassadorFedPro.my_obj_name_handles (snd (fst run)) !! "Ball"%string = Some [xab].
Proof.
  cbv zeta. split; [vm_compute; reflexivity|]. split; [vm_compute; reflexivity|].
  apply (object_class_cache_is_persistent [EvMessage (ball_response 3)]
           "Wall" "Ball" [xab] cached_facade).
  vm_compute. reflexivity.
Defined.

(** A façade around a handler that was never connected. *)
Lemma lookup_when_disconnected_witness :
  let self := facade_of FedProMsgHandler_init in
  is_connected (rtiAmbassadorFedPro.my_msg_handler self) = false /\
  rtiAmbassadorFedPro.my_obj_name_handles self !! "Ball"%string = None /\
  CallRequest_number (getObjectClassHandleRequest "Ball") = Some 40 /\
  rtiAmbassadorFedPro.get_object_class_handle [EvMessage (ball_response 1)] "Ball" self
  = (Raise (FedProMessageError "Socket failed to send message"), self,
     [EvMessage (ball_response 1)]).
Proof.
  cbv zeta. split; [reflexivity|]. split; [vm_compute; reflexivity|].
  split; [reflexivity|].
  apply (lookup_when_disconnected [EvMessage (ball_response 1)] "Ball"
           (facade_of FedProMsgHandler_init) 40);
    [reflexivity | vm_compute; reflexivity | reflexivity].
Defined.

(** The RTI answers the interaction with an exception report:
    [send_and_wait] returns [False] with poll result -1, and
    [send_interaction] returns [True]. *)
Lemma send_interaction_result_witness :
  let self := facade_of (session_handler obliging_ambassador) in
  let evs := [EvMessage (exception_response 3)] in
  let wait := send_and_wait evs (ReqCallRequest interaction_message) (TagInt 81)
                (rtiAmbassadorFedPro.my_msg_handler self) in
  rtiAmbassadorFedPro.my_is_connection_ok self = true /\
  CallRequestMessage_init (sendInteractionRequest [xc1] None [([x01], [x02])])
  = Ret interaction_message /\
  fst (fst wait) = Ret false /\
  my_poll_result (snd (fst wait)) = -1 /\
  fst (fst (send_interaction evs [xc1] [([x01], [x02])] [] self)) = Ret true.
Proof.
  cbv zeta. split; [reflexivity|]. split; [reflexivity|].
  split; [vm_compute; reflexivity|]. split; [vm_compute; reflexivity|].
  pose proof (send_interaction_result [EvMessage (exception_response 3)]
                [xc1] [([x01], [x02])] []
                (facade_of (session_handler obliging_ambassador))
                eq_refl) as [_ Hrun].
  change (CallRequestMessage_init
            (sendInteractionRequest [xc1] None [([x01], [x02])]))
    with (Ret interaction_message) in Hrun.
  destruct Hrun as (_ & _ & Hret & _).
  apply (Hret false). vm_compute. reflexivity.
Defined.

(** The socket's write fails: [send_and_wait] raises [OSError], and what
    comes out of [send_interaction] is [TypeError]. *)
Example send_interaction_write_fails :
  let h := session_handler obliging_ambassador in
  let h' := set_my_socket {| sock_connected := true; sock_sent := [];
                             sock_write_errors := [true] |} h in
  let self := facade_of h' in
  fst (fst (send_and_wait [EvDeadline] (ReqCallRequest interaction_message)
              (TagInt 81) h'))
  = Raise OSError /\
  fst (fst (send_interaction [EvDeadline] [xc1] [([x01], [x02])] [] self))
  = Raise TypeError.
Proof. vm_compute. split; reflexivity. Qed.

(** The class handle [ab] was not obtained through
    [get_object_class_handle]: the lookup of its attribute is sent and
    answered, and ends in [KeyError]. *)
Lemma attribute_lookup_needs_registered_class_witness :
  let self := facade_of (session_handler obliging_ambassador) in
  let out := get_attribute_handle [EvMessage (attribute_response 3)] [xab]
               "Position" self in
  federate_ambassador_handler (rtiAmbassadorFedPro.my_msg_handler self)
  = Some (session_wrapper obliging_ambassador) /\
  fst (fst out) = Raise KeyError /\
  length (sock_sent (my_socket (rtiAmbassadorFedPro.my_msg_handler (snd (fst out)))))
  = 1%nat /\
  attr_maps (rtiAmbassadorFedPro.my_msg_handler (snd (fst out)))
  = attr_maps (rtiAmbassadorFedPro.my_msg_handler self).
Proof.
  cbv zeta. split; [reflexivity|]. split; [vm_compute; reflexivity|].
  split; [vm_compute; reflexivity|].
  apply (attribute_lookup_needs_registered_class [EvMessage (attribute_response 3)]
           [xab] "Position" (facade_of (session_handler obliging_ambassador))
           (session_wrapper obliging_ambassador));
    [reflexivity | vm_compute; reflexivity | vm_compute; reflexivity].
Defined.

(** After "Ball" was looked up through the RTI, its attribute "Position"
    is looked up and answered with the handle [07]; the second lookup is
    served from the cache. *)
Lemma attribute_second_lookup_is_cached_witness :
  let run := get_attribute_handle [EvMessage (attribute_response 4)] [xab]
               "Position" ball_facade in
  fst (fst run) = Ret [x07] /\
  get_attribute_handle [EvMessage (attribute_response 5)] [xab] "Position"
    (snd (fst run))
  = (Ret [x07], snd (fst run), [EvMessage (attribute_response 5)]).
Proof.
  cbv zeta. split; [vm_compute; reflexivity|].
  apply (attribute_second_lookup_is_cached [EvMessage (attribute_response 4)]
           [EvMessage (attribute_response 5)] [xab] "Position" ball_facade [x07]).
  vm_compute. reflexivity.
Defined.

(** The host's [connectionLost] raises: the exception leaves
    [evoke_callback] and queueing stays off. *)
Lemma evoke_callback_queueing_witness :
  let self := facade_of (session_handler failing_ambassador) in
  let out := rtiAmbassadorFedPro.evoke_callback [EvMessage (lost_request 7)] self in
  rtiAmbassadorFedPro.my_is_connection_ok self = true /\
  my_enable_callback_requests (rtiAmbassadorFedPro.my_msg_handler self) = true /\
  fst (fst out) = Raise (UserError 1) /\
  my_queue_callback_requests (rtiAmbassadorFedPro.my_msg_handler (snd (fst out)))
  = false.
Proof.
  cbv zeta. split; [reflexivity|]. split; [reflexivity|].
  split; [vm_compute; reflexivity|].
  pose proof (evoke_callback_queueing [EvMessage (lost_request 7)]
                (facade_of (session_handler failing_ambassador))
                eq_refl eq_refl) as [Hflag _].
  rewrite Hflag. vm_compute. reflexivity.
Defined.

End MoreSampleRuns.
